(** * The webhook → amoCRM field mapping, embedded and verified

    A shallow embedding of [mapping.js] (the path resolver
    [getValueByPath], the mapping applier [applyMapping] and the two
    entity mappings [leadMapping] and [contactMapping]) and of the two
    variants of the server (the functions [createOrUpdateContactInAmoCRM]
    and [createLeadInAmoCRM], the handlers of [/webhook] and of
    [/test/amocrm/lead]), followed by the properties the specification
    states about them and by further properties of the code.

    JavaScript values are an inductive type; what belongs to the
    JavaScript engine rather than to this repository (prototype objects,
    coercions of non-primitive values, [Math.floor], [Date], ...) is kept
    in a record [Engine] over which every definition is parametric. *)

From Stdlib Require Import ZArith NArith List String Ascii Floats.
From stdpp Require Import base option list strings gmap.

Set Warnings "-register-all".
Local Open Scope N_scope.

(** ** Strings

    A JavaScript string is a sequence of UTF-16 code units.  [utf16]
    turns a literal of this file (UTF-8 bytes) into that sequence, so
    that the literals of the source, many of them Russian, can be
    written as they are. *)

Abbreviation jsstring := (list N).

Fixpoint utf16_of_bytes (bs : list N) : jsstring :=
  match bs with
  | [] => []
  | b :: rest =>
    if b <? 128 then b :: utf16_of_bytes rest
    else if b <? 224 then
      match rest with
      | b2 :: r => ((b mod 32) * 64 + b2 mod 64) :: utf16_of_bytes r
      | [] => [65533]
      end
    else if b <? 240 then
      match rest with
      | b2 :: b3 :: r =>
        ((b mod 16) * 4096 + (b2 mod 64) * 64 + b3 mod 64) :: utf16_of_bytes r
      | _ => [65533]
      end
    else
      match rest with
      | b2 :: b3 :: b4 :: r =>
        let cp := (b mod 8) * 262144 + (b2 mod 64) * 4096
                  + (b3 mod 64) * 64 + b4 mod 64 - 65536 in
        (55296 + cp / 1024) :: (56320 + cp mod 1024) :: utf16_of_bytes r
      | _ => [65533]
      end
  end.

Definition utf16 (s : string) : jsstring :=
  utf16_of_bytes (map N_of_ascii (list_ascii_of_string s)).

(** Code units the source tests for. *)
Definition is_digit (c : N) : bool := (48 <=? c) && (c <=? 57).

(** [WhiteSpace] and [LineTerminator] of ECMAScript, what [trim] and
    [parseInt] strip. *)
Definition is_js_space (c : N) : bool :=
  existsb (N.eqb c)
    [9; 10; 11; 12; 13; 32; 160; 5760; 8232; 8233; 8239; 8287; 12288; 65279]
  || ((8192 <=? c) && (c <=? 8202)).

Fixpoint drop_while {A} (p : A → bool) (l : list A) : list A :=
  match l with
  | x :: l' => if p x then drop_while p l' else l
  | [] => []
  end.

Fixpoint take_while {A} (p : A → bool) (l : list A) : list A :=
  match l with
  | x :: l' => if p x then x :: take_while p l' else []
  | [] => []
  end.

Fixpoint starts_with (p s : jsstring) : bool :=
  match p, s with
  | [], _ => true
  | c :: p', d :: s' => (c =? d) && starts_with p' s'
  | _ :: _, [] => false
  end.

(** [String.prototype.includes]. *)
Fixpoint includes (s p : jsstring) : bool :=
  starts_with p s || match s with [] => false | _ :: s' => includes s' p end.

(** [String.prototype.trim]. *)
Definition trim (s : jsstring) : jsstring :=
  rev (drop_while is_js_space (rev (drop_while is_js_space s))).

(** [s.split('.')]: the segments between the dots; never empty. *)
Fixpoint split_dot (s : jsstring) : list jsstring :=
  match s with
  | [] => [[]]
  | c :: s' =>
    if c =? 46 then [] :: split_dot s'
    else match split_dot s' with
         | seg :: segs => (c :: seg) :: segs
         | [] => [[c]]
         end
  end.

(** ** Values *)

(** The values the code handles: what [JSON.parse] builds, [undefined],
    and [JNative] for the objects of the engine itself (built-in
    functions and prototype objects), which only the engine can look
    into.  An object is the list of its own properties, looked up by
    key. *)
Inductive JValue :=
  | JUndefined
  | JNull
  | JBool (b : bool)
  | JNum (x : float)
  | JStr (s : jsstring)
  | JArr (elems : list JValue)
  | JObj (props : list (jsstring * JValue))
  | JNative (id : N).

(** What is thrown and caught: an [Error] object, one of the engine's
    (a [TypeError], whose message is the engine's own) or one the
    servers make with [new Error(...)].  The handlers read its
    [message]. *)
Record exn := Error { message : jsstring }.

Inductive result (A : Type) :=
  | Ok (a : A)
  | Throw (e : exn).
Arguments Ok {A} a.
Arguments Throw {A} e.

#[export] Instance result_ret : MRet result := λ A a, Ok a.
#[export] Instance result_bind : MBind result := λ A B f m,
  match m with Ok a => f a | Throw e => Throw e end.
#[export] Instance result_fmap : FMap result := λ A B f m,
  match m with Ok a => Ok (f a) | Throw e => Throw e end.

(** ** Numbers *)

(** The double nearest to an integer. *)
Definition float_of_Z (z : Z) : float :=
  SF2Prim (binary_normalize prec emax z 0 false).

Definition float_of_nat (n : nat) : float := float_of_Z (Z.of_nat n).

(** [ToBoolean]. *)
Definition truthy (v : JValue) : bool :=
  match v with
  | JUndefined | JNull => false
  | JBool b => b
  | JNum x => negb (is_zero x || is_nan x)
  | JStr s => negb (bool_decide (s = []))
  | JArr _ | JObj _ | JNative _ => true
  end.

Definition nullish (v : JValue) : bool :=
  match v with JUndefined | JNull => true | _ => false end.

(** ** The engine

    What the code asks of the JavaScript engine and this repository does
    not define.  Every definition below takes the engine as a parameter;
    nothing is assumed of it unless a theorem says so. *)

Inductive proto :=
  ObjectProto | ArrayProto | StringProto | NumberProto | BooleanProto.

(** The method calls of the source, with their arguments:
    [substring(from, to)], [trim()], [replace(/\D/g, '')] and
    [startsWith(prefix)]. *)
Inductive call :=
  | Call_substring (from to : nat)
  | Call_trim
  | Call_replace_non_digits
  | Call_startsWith (prefix : jsstring).

Record Engine := {
  (** a property that is not an own property, found along the prototype
      chain; [JUndefined] when no prototype has it *)
  inherited : proto → jsstring → JValue;
  (** the [TypeError] of the read [v[k]] when [v] is [null] or
      [undefined], and of the call [v.k(...)] when [v.k] is not a
      function; its message is for the engine to choose *)
  type_error : JValue → jsstring → exn;
  (** property read and call of one of the engine's own objects *)
  native_get : N → jsstring → result JValue;
  native_call : N → JValue → call → result JValue;
  (** [ToString] and [ToNumber] where they are more than a table lookup:
      numbers to text, text to numbers, and objects through
      [ToPrimitive] *)
  ToString_slow : JValue → result jsstring;
  ToNumber_slow : JValue → result float;
  Math_floor : float → float;
  remainder : float → float → float;
  (** [new Date(v).getTime()] *)
  Date_getTime : JValue → result float;
  (** [new URL(s).hostname]; [None] when [new URL(s)] throws *)
  URL_hostname : jsstring → option jsstring;
  JSON_stringify : JValue → result jsstring;
}.

(** ** Property access *)

Definition decimal (ds : list N) : N :=
  fold_left (λ acc d, acc * 10 + (d - 48)) ds 0.

(** A canonical array index: ["0"], or digits without a leading zero. *)
Definition array_index (k : jsstring) : option N :=
  match k with
  | [] => None
  | c :: ds =>
    if forallb is_digit k && implb (c =? 48) (bool_decide (ds = []))
    then Some (decimal k) else None
  end.

Fixpoint assoc (k : jsstring) (props : list (jsstring * JValue)) : option JValue :=
  match props with
  | [] => None
  | (k', v) :: props' => if bool_decide (k' = k) then Some v else assoc k props'
  end.

Definition at_index {A} (l : list A) (i : N) : option A :=
  if i <? N.of_nat (length l) then nth_error l (N.to_nat i) else None.

(** The members of a JSON container: the keys of an object, the
    elements of an array. *)
Definition member (v : JValue) (k : jsstring) : option JValue :=
  match v with
  | JObj props => assoc k props
  | JArr elems => i ← array_index k; at_index elems i
  | _ => None
  end.

Definition length_key : jsstring := Eval vm_compute in utf16 "length".

(** The own properties of a value: the members of a container, the
    [length] of an array or a string, and the code units of a string. *)
Definition own_prop (v : JValue) (k : jsstring) : option JValue :=
  match v with
  | JObj _ => member v k
  | JArr elems =>
    if bool_decide (k = length_key) then Some (JNum (float_of_nat (length elems)))
    else member v k
  | JStr s =>
    if bool_decide (k = length_key) then Some (JNum (float_of_nat (length s)))
    else i ← array_index k; c ← at_index s i; Some (JStr [c])
  | _ => None
  end.

Definition proto_of (v : JValue) : proto :=
  match v with
  | JArr _ => ArrayProto
  | JStr _ => StringProto
  | JNum _ => NumberProto
  | JBool _ => BooleanProto
  | _ => ObjectProto
  end.

(** [v[k]] *)
Definition get_prop (E : Engine) (v : JValue) (k : jsstring) : result JValue :=
  match v with
  | JUndefined | JNull => Throw (type_error E v k)
  | JNative n => native_get E n k
  | _ => Ok (default (inherited E (proto_of v) k) (own_prop v k))
  end.

(** [v?.k] *)
Definition get_opt (E : Engine) (v : JValue) (k : jsstring) : result JValue :=
  if nullish v then Ok JUndefined else get_prop E v k.

(** ** [getValueByPath] *)

(** The callback of [reduce]:
    [current && current[key] !== undefined ? current[key] : null]. *)
Definition step (E : Engine) (current : JValue) (key : jsstring) : result JValue :=
  if truthy current then
    v ← get_prop E current key;
    match v with
    | JUndefined => Ok JNull
    | _ => get_prop E current key
    end
  else Ok JNull.

Fixpoint walk (E : Engine) (current : JValue) (keys : list jsstring) : result JValue :=
  match keys with
  | [] => Ok current
  | key :: keys' => next ← step E current key; walk E next keys'
  end.

Definition static_key : jsstring := Eval vm_compute in utf16 "static".
Definition multiple_key : jsstring := Eval vm_compute in utf16 "multiple".

Definition getValueByPath (E : Engine) (obj : JValue) (path : jsstring) : result JValue :=
  if bool_decide (path = []) || bool_decide (path = static_key)
     || bool_decide (path = multiple_key)
  then Ok JNull
  else walk E obj (split_dot path).

(** ** [applyMapping] *)

(** One entry of a mapping object; a missing [value] is [JUndefined]. *)
Record FieldConfig := {
  source : jsstring;
  value : JValue;
  transform : option (JValue → JValue → result JValue);
}.

(** [console.warn(`Ошибка при обработке поля ${amocrmField}:`, error.message)] *)
Record warning := Warn { warn_text : jsstring; warn_detail : jsstring }.

Definition field_warning (amocrmField : jsstring) (error : exn) : warning :=
  Warn (utf16 "Ошибка при обработке поля " ++ amocrmField ++ utf16 ":")
       (message error).

(** The body of the [try] block, up to the assignment of [value]. *)
Definition field_value (E : Engine) (webhookData : JValue) (config : FieldConfig)
  : result JValue :=
  if bool_decide (source config = static_key) then Ok (value config)
  else if bool_decide (source config = multiple_key) then
    match transform config with
    | Some f => f JNull webhookData
    | None => Ok JNull
    end
  else
    rawValue ← getValueByPath E webhookData (source config);
    match transform config with
    | Some f => f rawValue webhookData
    | None => Ok rawValue
    end.

(** [result[k] = v], on the own properties of the result object.  The
    key ["__proto__"] is the one an assignment does not store: it sets
    the prototype of the object, or nothing. *)
Definition assign (result : gmap jsstring JValue) (k : jsstring) (v : JValue)
  : gmap jsstring JValue :=
  if bool_decide (k = utf16 "__proto__") then result else <[k := v]> result.

(** One turn of the loop over [Object.entries(mapping)], on the result
    object and the log. *)
Definition apply_field (E : Engine) (webhookData : JValue)
    (acc : gmap jsstring JValue * list warning)
    (entry : jsstring * FieldConfig) : gmap jsstring JValue * list warning :=
  match field_value E webhookData entry.2 with
  | Ok v => if nullish v then acc else (assign acc.1 entry.1 v, acc.2)
  | Throw error => (acc.1, acc.2 ++ [field_warning entry.1 error])
  end.

Definition applyMapping (E : Engine) (webhookData : JValue)
    (mapping : list (jsstring * FieldConfig))
  : gmap jsstring JValue * list warning :=
  foldl (apply_field E webhookData) (∅, []) mapping.

(** What a computed value leaves in the result object: nothing when
    the computation threw or gave [null] or [undefined]. *)
Definition kept (r : result JValue) : option JValue :=
  match r with
  | Ok v => if nullish v then None else Some v
  | Throw _ => None
  end.

(** What an entry of a mapping adds to the result object, if it adds
    anything, and what it adds to the log. *)
Definition stored (E : Engine) (webhookData : JValue) (config : FieldConfig)
  : option JValue :=
  kept (field_value E webhookData config).

Definition warned (E : Engine) (webhookData : JValue)
    (entry : jsstring * FieldConfig) : list warning :=
  match field_value E webhookData entry.2 with
  | Ok _ => []
  | Throw error => [field_warning entry.1 error]
  end.

(** [mapping[k]] *)
Fixpoint config_of (k : jsstring) (mapping : list (jsstring * FieldConfig))
  : option FieldConfig :=
  match mapping with
  | [] => None
  | (k', config) :: mapping' =>
    if bool_decide (k' = k) then Some config else config_of k mapping'
  end.

(** ** Coercions and calls *)

Definition ToString (E : Engine) (v : JValue) : result jsstring :=
  match v with
  | JStr s => Ok s
  | JUndefined => Ok (utf16 "undefined")
  | JNull => Ok (utf16 "null")
  | JBool b => Ok (if b then utf16 "true" else utf16 "false")
  | _ => ToString_slow E v
  end.

Definition ToNumber (E : Engine) (v : JValue) : result float :=
  match v with
  | JNum x => Ok x
  | JUndefined => Ok nan
  | JNull => Ok 0%float
  | JBool b => Ok (if b then 1%float else 0%float)
  | _ => ToNumber_slow E v
  end.

(** [v.length > n].  The length of a string or of an array is an
    integer, compared as such. *)
Definition length_gt (E : Engine) (v : JValue) (n : nat) : result bool :=
  match v with
  | JStr s => Ok (bool_decide (n < length s)%nat)
  | JArr elems => Ok (bool_decide (n < length elems)%nat)
  | _ =>
    len ← get_prop E v length_key;
    x ← ToNumber E len;
    Ok (float_of_nat n <? x)%float
  end.

Definition call_name (c : call) : jsstring :=
  match c with
  | Call_substring _ _ => utf16 "substring"
  | Call_trim => utf16 "trim"
  | Call_replace_non_digits => utf16 "replace"
  | Call_startsWith _ => utf16 "startsWith"
  end.

(** The four methods, on a string. *)
Definition string_call (s : jsstring) (c : call) : JValue :=
  match c with
  | Call_substring from to =>
    JStr (take (Nat.max from to - Nat.min from to) (drop (Nat.min from to) s))
  | Call_trim => JStr (trim s)
  | Call_replace_non_digits => JStr (filter (λ c, is_digit c = true) s)
  | Call_startsWith prefix => JBool (starts_with prefix s)
  end.

(** [v.method(args)].  A string runs the built-in method; on any other
    value the method is looked up as a property, and a property that
    is not a function cannot be called. *)
Definition invoke (E : Engine) (v : JValue) (c : call) : result JValue :=
  match v with
  | JStr s => Ok (string_call s c)
  | _ =>
    f ← get_prop E v (call_name c);
    match f with
    | JNative n => native_call E n v c
    | _ => Throw (type_error E v (call_name c))
    end
  end.

(** *** [parseInt] and [isNaN]

    [parseInt] returns [NaN] when it reads no digit and otherwise the
    double nearest to the integer it read ([-0] for a negative zero),
    which is not [NaN]; [parsed] keeps the two cases apart, so that
    [isNaN] is decided without floating-point reasoning. *)
Inductive parsed :=
  | P_NaN
  | P_int (negative : bool) (magnitude : N).

Definition is_hex_digit (c : N) : bool :=
  is_digit c || ((97 <=? c) && (c <=? 102)) || ((65 <=? c) && (c <=? 70)).

Definition hex_value (c : N) : N :=
  if is_digit c then c - 48 else if 97 <=? c then c - 87 else c - 55.

Definition hexadecimal (ds : list N) : N :=
  fold_left (λ acc d, acc * 16 + hex_value d) ds 0.

Definition parse_digits (negative : bool) (s : jsstring) : parsed :=
  match s with
  | z :: x :: r =>
    if (z =? 48) && ((x =? 120) || (x =? 88)) then
      match take_while is_hex_digit r with
      | [] => P_NaN
      | ds => P_int negative (hexadecimal ds)
      end
    else
      match take_while is_digit s with
      | [] => P_NaN
      | ds => P_int negative (decimal ds)
      end
  | _ =>
    match take_while is_digit s with
    | [] => P_NaN
    | ds => P_int negative (decimal ds)
    end
  end.

Definition parseInt_string (s : jsstring) : parsed :=
  match drop_while is_js_space s with
  | c :: r =>
    if c =? 45 then parse_digits true r
    else if c =? 43 then parse_digits false r
    else parse_digits false (c :: r)
  | [] => P_NaN
  end.

Definition parseInt (E : Engine) (v : JValue) : result parsed :=
  inputString ← ToString E v; Ok (parseInt_string inputString).

Definition isNaN (p : parsed) : bool :=
  match p with P_NaN => true | P_int _ _ => false end.

Definition number_of (p : parsed) : float :=
  match p with
  | P_NaN => nan
  | P_int negative m =>
    if m =? 0 then (if negative then neg_zero else 0%float)
    else float_of_Z (if negative then - Z.of_N m else Z.of_N m)
  end.

(** ** [process.env] *)

(** [process.env.K && ...]: an unset or empty variable is falsy. *)
Definition env_get (env : gmap jsstring jsstring) (K : string) : option jsstring :=
  match env !! utf16 K with
  | Some s => if bool_decide (s = []) then None else Some s
  | None => None
  end.

(** [process.env.K || null] *)
Definition env_or_null (env : gmap jsstring jsstring) (K : string) : JValue :=
  match env_get env K with
  | Some s => JStr s
  | None => JNull
  end.

(** ** Custom field entries *)

(** [{ field_id: parseInt(id), values: [{ value: v }] }] *)
Definition field_id_entry (id : jsstring) (v : JValue) : JValue :=
  JObj [(utf16 "field_id", JNum (number_of (parseInt_string id)));
        (utf16 "values", JArr [JObj [(utf16 "value", v)]])].

(** [{ field_code: code, values: [{ value: v, enum_code: 'WORK' }] }] *)
Definition field_code_entry (code : string) (v : JValue) : JValue :=
  JObj [(utf16 "field_code", JStr (utf16 code));
        (utf16 "values",
         JArr [JObj [(utf16 "value", v); (utf16 "enum_code", JStr (utf16 "WORK"))]])].

(** One block [if (process.env.K && <read>) customFields.push({field_id:
    parseInt(process.env.K), values: [{ value: <made from it> }]})]. *)
Definition push_if (env : gmap jsstring jsstring) (K : string)
    (read : result JValue) (make : JValue → result JValue)
    (customFields : list JValue) : result (list JValue) :=
  match env_get env K with
  | None => Ok customFields
  | Some id =>
    v ← read;
    if truthy v then w ← make v; Ok (customFields ++ [field_id_entry id w])
    else Ok customFields
  end.

(** [v || {}] *)
Definition or_empty (v : JValue) : JValue := if truthy v then v else JObj [].

(** [customFields.length > 0 ? customFields : null] *)
Definition array_or_null (customFields : list JValue) : JValue :=
  match customFields with [] => JNull | _ => JArr customFields end.

(** ** The lead mapping *)

Section Mappings.
Context (E : Engine).
(** [process.env] when [mapping.js] is loaded, where the static values
    are read, and when a request is handled, where the transforms
    read it. *)
Context (boot_env env : gmap jsstring jsstring).

Notation "v .[ k ]" := (get_prop E v (utf16 k))
  (at level 1, format "v .[ k ]").
Notation "v ?.[ k ]" := (get_opt E v (utf16 k))
  (at level 1, format "v ?.[ k ]").

(** [leadMapping.name.transform] *)
Definition lead_name (value data : JValue) : result JValue :=
  if truthy value then
    long ← length_gt E value 250;
    if long : bool then
      head ← invoke E value (Call_substring 0 247);
      s ← ToString E head;
      Ok (JStr (s ++ utf16 "..."))
    else Ok value
  else
    call ← data.["call"];
    agreements ← call?.["agreements"];
    clientName ← agreements?.["client_name"];
    if truthy clientName then
      s ← ToString E clientName;
      Ok (JStr (utf16 "Лид от AI менеджера: " ++ s))
    else
      contact ← data.["contact"];
      phone ← contact?.["phone"];
      if truthy phone then
        s ← ToString E phone;
        Ok (JStr (utf16 "Лид от AI менеджера: " ++ s))
      else Ok (JStr (utf16 "Лид от AI менеджера")).

(** [leadMapping.price.transform] *)
Definition lead_price (value data : JValue) : result JValue :=
  if negb (truthy value) then Ok JNull
  else
    numValue ← parseInt E value;
    Ok (if isNaN numValue then JNull else JNum (number_of numValue)).

(** The text of the call duration, [`${minutes} мин ${seconds} сек`]. *)
Definition duration_text (duration : JValue) : result JValue :=
  x ← ToNumber E duration;
  let minutes := Math_floor E (x / 60000)%float in
  let seconds := Math_floor E (remainder E x 60000%float / 1000)%float in
  m ← ToString E (JNum minutes);
  s ← ToString E (JNum seconds);
  Ok (JStr (m ++ utf16 " мин " ++ s ++ utf16 " сек")).

(** [Math.floor(new Date(startedAt).getTime() / 1000)] *)
Definition started_seconds (startedAt : JValue) : result JValue :=
  t ← Date_getTime E startedAt;
  Ok (JNum (Math_floor E (t / 1000)%float)).

(** [leadMapping.custom_fields_values.transform] *)
Definition lead_custom_fields (value data : JValue) : result JValue :=
  call0 ← data.["call"];
  agreements0 ← call0?.["agreements"];
  let agreements := or_empty agreements0 in
  let call := or_empty call0 in
  contact0 ← data.["contact"];
  let contact := or_empty contact0 in
  customFields ← push_if env "AMOCRM_AGREEMENTS_FIELD_ID"
    agreements.["agreements"] Ok [];
  customFields ← push_if env "AMOCRM_CLIENT_FACTS_FIELD_ID"
    agreements.["client_facts"] Ok customFields;
  customFields ← push_if env "AMOCRM_SMS_TEXT_FIELD_ID"
    agreements.["smsText"] Ok customFields;
  customFields ← push_if env "AMOCRM_CALL_DURATION_FIELD_ID"
    call.["duration"] duration_text customFields;
  customFields ← push_if env "AMOCRM_CALL_STARTED_FIELD_ID"
    call.["startedAt"] started_seconds customFields;
  customFields ← push_if env "AMOCRM_CALL_RECORD_URL_FIELD_ID"
    call.["recordUrl"] Ok customFields;
  customFields ← push_if env "AMOCRM_CALL_HISTORY_FIELD_ID"
    agreements.["historycall"] Ok customFields;
  customFields ← push_if env "AMOCRM_AGREEMENTS_TIME_FIELD_ID"
    agreements.["agreements_time"] Ok customFields;
  customFields ← push_if env "AMOCRM_REGION_FIELD_ID"
    (info ← contact.["dadataPhoneInfo"]; info?.["region"]) Ok customFields;
  customFields ← push_if env "AMOCRM_COMPANY_FIELD_ID"
    (fields ← contact.["additionalFields"]; fields?.["company"]) Ok customFields;
  Ok (array_or_null customFields).

Definition leadMapping : list (jsstring * FieldConfig) :=
  [ (utf16 "name",
     {| source := utf16 "call.agreements.agreements";
        value := JUndefined; transform := Some lead_name |});
    (utf16 "pipeline_id",
     {| source := utf16 "static";
        value := env_or_null boot_env "AMOCRM_PIPELINE_ID"; transform := None |});
    (utf16 "status_id",
     {| source := utf16 "static";
        value := env_or_null boot_env "AMOCRM_STATUS_ID"; transform := None |});
    (utf16 "price",
     {| source := utf16 "call.agreements.price";
        value := JUndefined; transform := Some lead_price |});
    (utf16 "custom_fields_values",
     {| source := utf16 "multiple";
        value := JUndefined; transform := Some lead_custom_fields |}) ].

(** ** The contact mapping *)

(** [contactMapping.name.transform] *)
Definition contact_name (value data : JValue) : result JValue :=
  if truthy value then invoke E value Call_trim
  else
    contact ← data.["contact"];
    phone ← contact?.["phone"];
    if truthy phone then
      s ← ToString E phone;
      Ok (JStr (utf16 "Контакт " ++ s))
    else Ok (JStr (utf16 "Контакт без имени")).

(** The phone block of the contact's custom fields. *)
Definition push_phone (contact : JValue) (customFields : list JValue)
  : result (list JValue) :=
  phone ← contact.["phone"];
  if truthy phone then
    phoneFormatted ← invoke E phone Call_replace_non_digits;
    if truthy phoneFormatted then
      seven ← invoke E phoneFormatted (Call_startsWith (utf16 "7"));
      digits ← ToString E phoneFormatted;
      let phoneValue :=
        if truthy seven then utf16 "+" ++ digits else utf16 "+7" ++ digits in
      Ok (customFields ++ [field_code_entry "PHONE" (JStr phoneValue)])
    else Ok customFields
  else Ok customFields.

(** The email block. *)
Definition push_email (contact : JValue) (customFields : list JValue)
  : result (list JValue) :=
  fields ← contact.["additionalFields"];
  email ← fields?.["email"];
  if truthy email then Ok (customFields ++ [field_code_entry "EMAIL" email])
  else Ok customFields.

(** [contactMapping.custom_fields_values.transform] *)
Definition contact_custom_fields (value data : JValue) : result JValue :=
  contact0 ← data.["contact"];
  let contact := or_empty contact0 in
  customFields ← push_phone contact [];
  customFields ← push_email contact customFields;
  customFields ← push_if env "AMOCRM_CONTACT_COMPANY_FIELD_ID"
    (fields ← contact.["additionalFields"]; fields?.["company"]) Ok customFields;
  customFields ← push_if env "AMOCRM_CONTACT_CITY_FIELD_ID"
    (fields ← contact.["additionalFields"]; fields?.["city"]) Ok customFields;
  Ok (array_or_null customFields).

Definition contactMapping : list (jsstring * FieldConfig) :=
  [ (utf16 "name",
     {| source := utf16 "call.agreements.client_name";
        value := JUndefined; transform := Some contact_name |});
    (utf16 "custom_fields_values",
     {| source := utf16 "multiple";
        value := JUndefined; transform := Some contact_custom_fields |}) ].

End Mappings.

(** ** The server: creating the lead

    The repository holds two server files, each with its own
    [createLeadInAmoCRM]: [Server] is the one that links the contact
    through [_embedded.contacts], [ServerLegacy] the one that links it
    through [contacts_id].  A call returns its outcome together with the
    requests it has sent. *)

(** [axios.post(url, body, { headers: { 'Content-Type':
    'application/json', Authorization: `Bearer ${token}` } })] *)
Record request := Post {
  req_url : jsstring;
  req_body : list (gmap jsstring JValue);
  req_token : jsstring;
}.

(** What the [catch] blocks read of the error they caught:
    [error.message], [error.code] and [error.response?.data]. *)
Record failure := Failure {
  err_message : jsstring;
  err_code : JValue;
  err_response_data : JValue;
}.

Definition failure_of_exn (e : exn) : failure :=
  Failure (message e) JUndefined JUndefined.

(** [{ success: true, leadId, data: response.data }] *)
Record created := Created { leadId : JValue; response : JValue }.

(** [leadFields.k] *)
Definition field (leadFields : gmap jsstring JValue) (k : string) : JValue :=
  default JUndefined (leadFields !! utf16 k).

(** [typeof contactId === 'string' ? parseInt(contactId) : contactId] *)
Definition contact_id_number (contactId : JValue) : JValue :=
  match contactId with
  | JStr s => JNum (number_of (parseInt_string s))
  | _ => contactId
  end.

(** [{ success: true, contactId, data: response.data }] *)
Record upserted := Upserted { contactId : JValue; contact_response : JValue }.

(** What a handler answers: [res.status(n).send(text)] or
    [res.status(n).json(body)]; [res.json(body)] answers with status
    200. *)
Inductive reply :=
  | Send (status : nat) (text : jsstring)
  | Json (status : nat) (body : JValue).

(** [Object.keys(data).length === 0]: an object without a key, an
    array or a string without an element, and any number or boolean.
    ([JSON.parse] builds no value of the host.) *)
Definition no_keys (data : JValue) : bool :=
  match data with
  | JObj props => bool_decide (props = [])
  | JArr elems => bool_decide (elems = [])
  | JStr s => bool_decide (s = [])
  | JNative _ => false
  | _ => true
  end.

(** [typeof data === 'object'], for the body that [express.json] has
    parsed. *)
Definition is_object (data : JValue) : bool :=
  match data with
  | JObj _ | JArr _ | JNull => true
  | _ => false
  end.

(** [{ success: false, error: text }] *)
Definition refused (text : string) : JValue :=
  JObj [(utf16 "success", JBool false); (utf16 "error", JStr (utf16 text))].

(** [{ success: false, message: error.message }] *)
Definition refused_with (error : exn) : JValue :=
  JObj [(utf16 "success", JBool false); (utf16 "message", JStr (message error))].

(** [{ success: true, message: text, leadId: result.leadId, contactId,
    data: result.data }] *)
Definition accepted (text : string) (result : created) (contactId : JValue)
  : JValue :=
  JObj [(utf16 "success", JBool true);
        (utf16 "message", JStr (utf16 text));
        (utf16 "leadId", leadId result);
        (utf16 "contactId", contactId);
        (utf16 "data", response result)].

(** [error.message || 'Внутренняя ошибка сервера'] *)
Definition message_or_internal (error : exn) : jsstring :=
  if bool_decide (message error = []) then utf16 "Внутренняя ошибка сервера"
  else message error.

(** [res.status(500).json({ success: false, error: error.message ||
    'Внутренняя ошибка сервера' })] *)
Definition internal_error (error : exn) : reply :=
  Json 500 (JObj [(utf16 "success", JBool false);
                  (utf16 "error", JStr (message_or_internal error))]).

Section Shared.
Context (E : Engine) (env : gmap jsstring jsstring).

Notation "v ?.[ k ]" := (get_opt E v (utf16 k))
  (at level 1, format "v ?.[ k ]").

(** [getAmoCRMToken], the same in both files. *)
Definition getAmoCRMToken : result jsstring :=
  match env_get env "AMOCRM_ACCESS_TOKEN" with
  | Some token => Ok token
  | None =>
    Throw (Error (utf16 "AMOCRM_ACCESS_TOKEN не установлен в переменных окружения"))
  end.

(** [response.data?._embedded?.leads?.[0]?.id] *)
Definition lead_id (response_data : JValue) : result JValue :=
  embedded ← response_data?.["_embedded"];
  leads ← embedded?.["leads"];
  first ← leads?.["0"];
  first?.["id"].

(** [response.data?._embedded?.contacts?.[0]?.id] *)
Definition contact_id (response_data : JValue) : result JValue :=
  embedded ← response_data?.["_embedded"];
  contacts ← embedded?.["contacts"];
  first ← contacts?.["0"];
  first?.["id"].

(** [!data.contact || !data.call] *)
Definition lacks_contact_or_call (data : JValue) : result bool :=
  contact ← get_prop E data (utf16 "contact");
  if truthy contact then
    call ← get_prop E data (utf16 "call"); Ok (negb (truthy call))
  else Ok true.

End Shared.

Definition pipeline_missing : exn :=
  Error (utf16 "AMOCRM_PIPELINE_ID не установлен в переменных окружения. Это обязательное поле для создания сделки.").

Module Server.
Section Defs.
  Context (E : Engine).
  Context (boot_env env : gmap jsstring jsstring).
  (** The network: the response data of a request, or the error. *)
  Context (axios_post : request → failure + JValue).

Definition is_subdomain_char (c : N) : bool :=
  ((97 <=? c) && (c <=? 122)) || ((65 <=? c) && (c <=? 90))
  || is_digit c || (c =? 45).

Definition getAmoCRMBaseUrl : result jsstring :=
  match env_get env "AMOCRM_SUBDOMAIN" with
  | None =>
    Throw (Error (utf16 "Ошибка при отправке вебхука: Invalid URL - AMOCRM_SUBDOMAIN не установлен в переменных окружения. Проверьте файл .env"))
  | Some subdomain =>
    if bool_decide (trim subdomain = []) then
      Throw (Error (utf16 "Ошибка при отправке вебхука: Invalid URL - AMOCRM_SUBDOMAIN не установлен в переменных окружения. Проверьте файл .env"))
    else
      let cleanSubdomain :=
        filter (λ c, is_subdomain_char c = true) (trim subdomain) in
      if bool_decide (cleanSubdomain = []) then
        Throw (Error (utf16 "Ошибка при отправке вебхука: Invalid URL - AMOCRM_SUBDOMAIN содержит недопустимые символы или пустой. Укажите поддомен вашего аккаунта amoCRM (например: mycompany для mycompany.amocrm.ru)"))
      else
        let baseUrl := utf16 "https://" ++ cleanSubdomain ++ utf16 ".amocrm.ru" in
        match URL_hostname E baseUrl with
        | Some hostname =>
          if negb (bool_decide (hostname = [])) && includes hostname (utf16 "amocrm.ru")
          then Ok baseUrl
          else Throw (Error (utf16 "Ошибка при отправке вебхука: Invalid URL - некорректный формат URL для amoCRM: " ++ baseUrl ++ utf16 ". Проверьте значение AMOCRM_SUBDOMAIN в файле .env"))
        | None =>
          Throw (Error (utf16 "Ошибка при отправке вебхука: Invalid URL - некорректный формат URL для amoCRM: " ++ baseUrl ++ utf16 ". Проверьте значение AMOCRM_SUBDOMAIN в файле .env"))
        end
  end.

(** [leadFields.k = parseInt(leadFields.k)] for a truthy
    [leadFields.k], with the error of a value that is not a number. *)
Definition to_integer (k : string) (complaint : exn)
    (leadFields : gmap jsstring JValue) : result (gmap jsstring JValue) :=
  if truthy (field leadFields k) then
    n ← parseInt E (field leadFields k);
    if isNaN n then Throw complaint
    else Ok (<[utf16 k := JNum (number_of n)]> leadFields)
  else Ok leadFields.

Definition shown (K : string) : jsstring :=
  default (utf16 "undefined") (env !! utf16 K).

(** [!isNaN(contactIdNum) && contactIdNum > 0] *)
Definition positive_number (contactIdNum : JValue) : result bool :=
  x ← ToNumber E contactIdNum; Ok (negb (is_nan x) && (0 <? x)%float).

(** The link to the contact:
    [leadFields._embedded.contacts = [{ id, is_main: true }]]. *)
Definition link_contact (contactId : JValue)
    (leadFields : gmap jsstring JValue) : result (gmap jsstring JValue) :=
  if truthy contactId then
    let contactIdNum := contact_id_number contactId in
    ok ← positive_number contactIdNum;
    if ok : bool then
      Ok (<[utf16 "_embedded" :=
            JObj [(utf16 "contacts",
                   JArr [JObj [(utf16 "id", contactIdNum);
                               (utf16 "is_main", JBool true)]])]]> leadFields)
    else Ok leadFields
  else Ok leadFields.

(** The function up to the [try] block: the checks, and the body to
    send. *)
Definition lead_request (data : JValue) (contactId : JValue)
  : result (jsstring * jsstring * list (gmap jsstring JValue)) :=
  baseUrl ← getAmoCRMBaseUrl;
  token ← getAmoCRMToken env;
  let leadFields := (applyMapping E data (leadMapping E boot_env env)).1 in
  if negb (truthy (field leadFields "name")) then
    Throw (Error (utf16 "Не удалось создать название сделки. Проверьте данные вебхука."))
  else if negb (truthy (field leadFields "pipeline_id")) then
    Throw pipeline_missing
  else
    leadFields ← to_integer "pipeline_id"
      (Error (utf16 "Некорректный формат AMOCRM_PIPELINE_ID: " ++ [34]
              ++ shown "AMOCRM_PIPELINE_ID" ++ [34] ++ utf16 ". Должно быть число."))
      leadFields;
    leadFields ← to_integer "status_id"
      (Error (utf16 "Некорректный формат AMOCRM_STATUS_ID: " ++ [34]
              ++ shown "AMOCRM_STATUS_ID" ++ [34] ++ utf16 ". Должно быть число."))
      leadFields;
    leadFields ← link_contact contactId leadFields;
    Ok (baseUrl, token, [leadFields]).

(** The [catch] block: the error thrown in place of the one caught. *)
Definition rethrown (error : failure) : result exn :=
  if includes (err_message error) (utf16 "Invalid URL")
     || match err_code error with
        | JStr c => bool_decide (c = utf16 "ERR_INVALID_URL")
        | _ => false
        end
  then Ok (Error (utf16 "Ошибка при отправке вебхука: Invalid URL - проверьте AMOCRM_SUBDOMAIN в .env"))
  else
    let data := err_response_data error in
    if truthy data then
      e ← get_prop E data (utf16 "error");
      if truthy e then Error <$> ToString E e else
      d ← get_prop E data (utf16 "detail");
      if truthy d then Error <$> ToString E d else
      t ← get_prop E data (utf16 "title");
      if truthy t then Error <$> ToString E t else
      match data with
      | JStr s => Ok (Error s)
      | _ => s ← JSON_stringify E data; Ok (Error (utf16 "Ошибка API: " ++ s))
      end
    else Ok (Error (err_message error)).

(** An error raised inside the [catch] block replaces the one being
    handled. *)
Definition fail {A} (error : failure) : result A :=
  match rethrown error with
  | Ok e => Throw e
  | Throw e => Throw e
  end.

Definition createLeadInAmoCRM (data contactId : JValue)
  : result created * list request :=
  match lead_request data contactId with
  | Throw e => (Throw e, [])
  | Ok (baseUrl, token, leadData) =>
    let url := baseUrl ++ utf16 "/api/v4/leads" in
    match URL_hostname E url with
    | None =>
      (fail (failure_of_exn (Error (utf16 "Invalid URL: " ++ url))), [])
    | Some _ =>
      let sent := Post url leadData token in
      match axios_post sent with
      | inr response_data =>
        match lead_id E response_data with
        | Ok id => (Ok (Created id response_data), [sent])
        | Throw e => (fail (failure_of_exn e), [sent])
        end
      | inl error => (fail error, [sent])
      end
    end
  end.

(** [createOrUpdateContactInAmoCRM] up to the [try] block. *)
Definition contact_request (data : JValue)
  : result (jsstring * jsstring * list (gmap jsstring JValue)) :=
  baseUrl ← getAmoCRMBaseUrl;
  token ← getAmoCRMToken env;
  let contactFields := (applyMapping E data (contactMapping E env)).1 in
  if negb (truthy (field contactFields "name")) then
    Throw (Error (utf16 "Не удалось создать название контакта. Проверьте данные вебхука."))
  else Ok (baseUrl, token, [contactFields]).

(** Its [catch] block differs from the one of [createLeadInAmoCRM]
    only by the first value of [errorMessage], which every branch
    overwrites. *)
Definition createOrUpdateContactInAmoCRM (data : JValue)
  : result upserted * list request :=
  match contact_request data with
  | Throw e => (Throw e, [])
  | Ok (baseUrl, token, contactData) =>
    let url := baseUrl ++ utf16 "/api/v4/contacts" in
    match URL_hostname E url with
    | None =>
      (fail (failure_of_exn (Error (utf16 "Invalid URL: " ++ url))), [])
    | Some _ =>
      let sent := Post url contactData token in
      match axios_post sent with
      | inr response_data =>
        match contact_id E response_data with
        | Ok id => (Ok (Upserted id response_data), [sent])
        | Throw e => (fail (failure_of_exn e), [sent])
        end
      | inl error => (fail error, [sent])
      end
    end
  end.

(** *** The handlers

    [JSON.parse] on the body of the request, a string, and the
    [details] that the answer shows of an error when [NODE_ENV] is
    [development] (its class, its stack). *)
Context (JSON_parse : jsstring → result JValue).
Context (error_details : exn → JValue).

(** The outer [catch] of [/webhook].  The errors that reach it are
    made by [new Error] or by the engine and carry no [response], so
    the branch on [error.response] is never taken. *)
Definition critical (error : exn) : reply :=
  let statusCode :=
    if includes (message error) (utf16 "Invalid URL") then 400%nat
    else if includes (message error) (utf16 "не установлен") then 500%nat
    else 500%nat in
  let errorMessage := message_or_internal error in
  Json statusCode
    (JObj ([(utf16 "success", JBool false);
            (utf16 "message",
             JStr (utf16 "Ошибка при отправке вебхука: " ++ errorMessage));
            (utf16 "error", JStr errorMessage);
            (utf16 "statusCode", JNum (float_of_nat statusCode))]
           ++ if bool_decide (env !! utf16 "NODE_ENV" = Some (utf16 "development"))
              then [(utf16 "details", error_details error)] else [])).

(** The second [try] of [/webhook]: the lead, after the requests
    [sent] for the contact. *)
Definition webhook_lead (data contactId : JValue) (sent : list request)
  : reply * list request :=
  let (result, sent') := createLeadInAmoCRM data contactId in
  match result with
  | Ok result =>
    (Json 200 (accepted "Сделка успешно создана в amoCRM" result contactId),
     sent ++ sent')
  | Throw error =>
    if includes (message error) (utf16 "Invalid URL")
    then (Json 400 (refused_with error), sent ++ sent')
    else (critical error, sent ++ sent')
  end.

(** The first [try] of [/webhook]: the contact, then the lead. *)
Definition webhook_contact (data : JValue) : reply * list request :=
  let (contactResult, sent) := createOrUpdateContactInAmoCRM data in
  match contactResult with
  | Ok contactResult => webhook_lead data (contactId contactResult) sent
  | Throw error =>
    if includes (message error) (utf16 "Invalid URL")
       || includes (message error) (utf16 "не установлен")
    then (Json 400 (refused_with error), sent)
    else webhook_lead data JNull sent
  end.

(** [app.post('/webhook', ...)], on the header [x-webhook-signature]
    and the body that [express.text] has read, a string. *)
Definition webhook (signature : JValue) (payload : jsstring)
  : reply * list request :=
  if negb (truthy signature) then
    (Send 401 (utf16 "Отсутствует заголовок X-Webhook-Signature"), [])
  else match env_get env "WEBHOOK_SECRET" with
  | None => (Send 500 (utf16 "WEBHOOK_SECRET не настроен"), [])
  | Some _ =>
    if bool_decide (payload = []) then
      (Send 400 (utf16 "Тело запроса пустое"), [])
    else match JSON_parse payload with
    | Throw parseError =>
      (Json 400 (JObj [(utf16 "success", JBool false);
                       (utf16 "error", JStr (utf16 "Ошибка парсинга JSON"));
                       (utf16 "message", JStr (message parseError))]), [])
    | Ok data =>
      if negb (truthy data) || no_keys data then
        (Json 400 (refused "Данные не предоставлены. Отправьте JSON в теле запроса"), [])
      else match lacks_contact_or_call E data with
      | Throw error => (critical error, [])
      | Ok true =>
        (Json 400 (refused "Отсутствуют обязательные поля: contact или call"), [])
      | Ok false => webhook_contact data
      end
    end
  end.

(** [app.post('/test/amocrm/lead', ...)], on the body that
    [express.json] has parsed. *)
Definition test_lead (data : JValue) : reply * list request :=
  if negb (truthy data) || negb (is_object data) then
    (Json 400 (refused "Данные не предоставлены. Отправьте JSON в теле запроса"), [])
  else match lacks_contact_or_call E data with
  | Throw error => (internal_error error, [])
  | Ok true =>
    (Json 400 (refused "Отсутствуют обязательные поля: contact или call"), [])
  | Ok false =>
    let (contactResult, sent) := createOrUpdateContactInAmoCRM data in
    let contactId :=
      match contactResult with
      | Ok contactResult => contactId contactResult
      | Throw _ => JNull
      end in
    let (result, sent') := createLeadInAmoCRM data contactId in
    match result with
    | Ok result =>
      (Json 200 (accepted "Тестовая сделка успешно создана в amoCRM" result contactId),
       sent ++ sent')
    | Throw error => (internal_error error, sent ++ sent')
    end
  end.

End Defs.
End Server.

Module ServerLegacy.
Section Defs.
  Context (E : Engine).
  Context (boot_env env : gmap jsstring jsstring).
  Context (axios_post : request → failure + JValue).

  Notation "v ?.[ k ]" := (get_opt E v (utf16 k))
(at level 1, format "v ?.[ k ]").

Definition getAmoCRMBaseUrl : result jsstring :=
  match env_get env "AMOCRM_SUBDOMAIN" with
  | Some subdomain => Ok (utf16 "https://" ++ subdomain ++ utf16 ".amocrm.ru")
  | None =>
    Throw (Error (utf16 "AMOCRM_SUBDOMAIN не установлен в переменных окружения"))
  end.

(** [leadFields.contacts_id = [contactIdNum]] *)
Definition link_contact (contactId : JValue)
    (leadFields : gmap jsstring JValue) : gmap jsstring JValue :=
  if truthy contactId then
    <[utf16 "contacts_id" := JArr [contact_id_number contactId]]> leadFields
  else leadFields.

(** [`Ошибка при создании сделки в amoCRM: ${error.response?.data?.error
    || error.message}`] *)
Definition fail {A} (error : failure) : result A :=
  e ← (err_response_data error)?.["error"];
  s ← (if truthy e then ToString E e else Ok (err_message error));
  Throw (Error (utf16 "Ошибка при создании сделки в amoCRM: " ++ s)).

Definition createLeadInAmoCRM (data contactId : JValue)
  : result created * list request :=
  match (baseUrl ← getAmoCRMBaseUrl; token ← getAmoCRMToken env; Ok (baseUrl, token)) with
  | Throw e => (Throw e, [])
  | Ok (baseUrl, token) =>
    let leadFields := (applyMapping E data (leadMapping E boot_env env)).1 in
    let leadData := [link_contact contactId leadFields] in
    let sent := Post (baseUrl ++ utf16 "/api/v4/leads") leadData token in
    match axios_post sent with
    | inr response_data =>
      match lead_id E response_data with
      | Ok id => (Ok (Created id response_data), [sent])
      | Throw e => (fail (failure_of_exn e), [sent])
      end
    | inl error => (fail error, [sent])
    end
  end.

(** [`Ошибка при создании/обновлении контакта в amoCRM:
    ${error.response?.data?.error || error.message}`] *)
Definition fail_contact {A} (error : failure) : result A :=
  e ← (err_response_data error)?.["error"];
  s ← (if truthy e then ToString E e else Ok (err_message error));
  Throw (Error (utf16 "Ошибка при создании/обновлении контакта в amoCRM: " ++ s)).

Definition createOrUpdateContactInAmoCRM (data : JValue)
  : result upserted * list request :=
  match (baseUrl ← getAmoCRMBaseUrl; token ← getAmoCRMToken env; Ok (baseUrl, token)) with
  | Throw e => (Throw e, [])
  | Ok (baseUrl, token) =>
    let contactFields := (applyMapping E data (contactMapping E env)).1 in
    let contactData := [contactFields] in
    let sent := Post (baseUrl ++ utf16 "/api/v4/contacts") contactData token in
    match axios_post sent with
    | inr response_data =>
      match contact_id E response_data with
      | Ok id => (Ok (Upserted id response_data), [sent])
      | Throw e => (fail_contact (failure_of_exn e), [sent])
      end
    | inl error => (fail_contact error, [sent])
    end
  end.

(** *** The handlers *)
Context (JSON_parse : jsstring → result JValue).

(** The contact, whose failure is only logged, then the lead. *)
Definition deliver (text : string) (data : JValue) : reply * list request :=
  let (contactResult, sent) := createOrUpdateContactInAmoCRM data in
  let contactId :=
    match contactResult with
    | Ok contactResult => contactId contactResult
    | Throw _ => JNull
    end in
  let (result, sent') := createLeadInAmoCRM data contactId in
  match result with
  | Ok result => (Json 200 (accepted text result contactId), sent ++ sent')
  | Throw error => (internal_error error, sent ++ sent')
  end.

(** [app.post('/webhook', ...)] *)
Definition webhook (signature : JValue) (payload : jsstring)
  : reply * list request :=
  if negb (truthy signature) then
    (Send 401 (utf16 "Отсутствует заголовок X-Webhook-Signature"), [])
  else match env_get env "WEBHOOK_SECRET" with
  | None => (Send 500 (utf16 "WEBHOOK_SECRET не настроен"), [])
  | Some _ =>
    if bool_decide (payload = []) then
      (Send 400 (utf16 "Тело запроса пустое"), [])
    else match JSON_parse payload with
    | Throw error => (internal_error error, [])
    | Ok data =>
      if negb (truthy data) || no_keys data then
        (Json 400 (refused "Данные не предоставлены. Отправьте JSON в теле запроса"), [])
      else match lacks_contact_or_call E data with
      | Throw error => (internal_error error, [])
      | Ok true =>
        (Json 400 (refused "Отсутствуют обязательные поля: contact или call"), [])
      | Ok false => deliver "Сделка успешно создана в amoCRM" data
      end
    end
  end.

(** [app.post('/test/amocrm/lead', ...)] *)
Definition test_lead (data : JValue) : reply * list request :=
  if negb (truthy data) || negb (is_object data) then
    (Json 400 (refused "Данные не предоставлены. Отправьте JSON в теле запроса"), [])
  else match lacks_contact_or_call E data with
  | Throw error => (internal_error error, [])
  | Ok true =>
    (Json 400 (refused "Отсутствуют обязательные поля: contact или call"), [])
  | Ok false => deliver "Тестовая сделка успешно создана в amoCRM" data
  end.

End Defs.
End ServerLegacy.

(** ** Payloads, as the properties speak of them *)

(** A value built by [JSON.parse]: no [undefined] and no object of the
    engine anywhere in it. *)
Fixpoint json (v : JValue) : bool :=
  match v with
  | JUndefined | JNative _ => false
  | JNull | JBool _ | JNum _ | JStr _ => true
  | JArr elems => forallb json elems
  | JObj props => forallb (λ kv, json kv.2) props
  end.

(** The value a payload holds at a path of member names, if it holds
    one. *)
Fixpoint payload_at (v : JValue) (keys : list jsstring) : option JValue :=
  match keys with
  | [] => Some v
  | k :: keys' => w ← member v k; payload_at w keys'
  end.

(** The same along own properties, which adds [length] and the code
    units of strings. *)
Fixpoint own_at (v : JValue) (keys : list jsstring) : option JValue :=
  match keys with
  | [] => Some v
  | k :: keys' => w ← own_prop v k; own_at w keys'
  end.

(** The member [k] of a value, [undefined] when it has none. *)
Definition pick (v : JValue) (k : jsstring) : JValue :=
  default JUndefined (member v k).

(** What the resolver computes when no prototype takes part. *)
Fixpoint resolve (v : JValue) (keys : list jsstring) : JValue :=
  match keys with
  | [] => v
  | k :: keys' =>
    resolve (if truthy v then default JNull (own_prop v k) else JNull) keys'
  end.

(** A JSON value, or [undefined]. *)
Definition read (v : JValue) : bool :=
  match v with JUndefined => true | _ => json v end.

Definition at_path (v : JValue) (path : list string) : option JValue :=
  payload_at v (map utf16 path).

(** Nothing, or a falsy value, at a path. *)
Definition blank_at (v : JValue) (path : list string) : bool :=
  negb (truthy (default JNull (at_path v path))).

(** The property names the two mappings read from a payload. *)
Definition payload_names : list jsstring :=
  Eval vm_compute in map utf16
    [ "call"; "agreements"; "client_name"; "contact"; "phone"; "price";
      "client_facts"; "smsText"; "duration"; "startedAt"; "recordUrl";
      "historycall"; "agreements_time"; "dadataPhoneInfo"; "region";
      "additionalFields"; "company"; "email"; "city" ]%string.

(** No prototype object has a property named [k] ... *)
Definition unshadowed (E : Engine) (k : jsstring) : Prop :=
  ∀ p, inherited E p k = JUndefined.

(** ... and none has one named like a field of the payload, as is the
    case of [Object.prototype], [Array.prototype], [String.prototype],
    [Number.prototype] and [Boolean.prototype]. *)
Definition plain (E : Engine) : Prop :=
  Forall (unshadowed E) payload_names.

(** The variables that name custom fields. *)
Definition custom_field_ids : list string :=
  [ "AMOCRM_AGREEMENTS_FIELD_ID"; "AMOCRM_CLIENT_FACTS_FIELD_ID";
    "AMOCRM_SMS_TEXT_FIELD_ID"; "AMOCRM_CALL_DURATION_FIELD_ID";
    "AMOCRM_CALL_STARTED_FIELD_ID"; "AMOCRM_CALL_RECORD_URL_FIELD_ID";
    "AMOCRM_CALL_HISTORY_FIELD_ID"; "AMOCRM_AGREEMENTS_TIME_FIELD_ID";
    "AMOCRM_REGION_FIELD_ID"; "AMOCRM_COMPANY_FIELD_ID";
    "AMOCRM_CONTACT_COMPANY_FIELD_ID"; "AMOCRM_CONTACT_CITY_FIELD_ID" ]%string.

Definition no_custom_field_ids (env : gmap jsstring jsstring) : Prop :=
  Forall (λ K, env !! utf16 K = None) custom_field_ids.

(** The transform of the contact's custom fields produces the phone
    entry, with this value; the phone block is the first to push. *)
Definition produces_phone (r : result JValue) (phoneValue : jsstring) : Prop :=
  ∃ rest, r = Ok (JArr (field_code_entry "PHONE" (JStr phoneValue) :: rest)).

(** The dotted path of three segments. *)
Definition dotted (a b c : jsstring) : jsstring := a ++ 46 :: b ++ 46 :: c.

(** The messages of Node's [TypeError]s at the reads and calls of
    [mapping.js]: ["Cannot read properties of null (reading 'call')"]
    for a read, and the expression called followed by ["is not a
    function"] for a call, as in ["value.trim is not a function"]. *)
Definition receiver (k : jsstring) : jsstring :=
  if bool_decide (k = utf16 "replace") then utf16 "contact.phone"
  else if bool_decide (k = utf16 "startsWith") then utf16 "phoneFormatted"
  else utf16 "value".

Definition node_type_error (v : JValue) (k : jsstring) : exn :=
  Error match v with
        | JNull =>
          utf16 "Cannot read properties of null (reading '" ++ k ++ utf16 "')"
        | JUndefined =>
          utf16 "Cannot read properties of undefined (reading '" ++ k ++ utf16 "')"
        | _ => receiver k ++ utf16 "." ++ k ++ utf16 " is not a function"
        end.

(** What the bare engine does not do. *)
Definition unsupported : exn := Error (utf16 "unsupported").

(** An engine with empty prototypes that answers nothing else: its
    [TypeError]s are those of Node, its conversions are unsupported and
    its arithmetic returns [NaN].  It serves to run the definitions on
    payloads of strings. *)
Definition bare_engine : Engine := {|
  inherited := λ _ _, JUndefined;
  type_error := node_type_error;
  native_get := λ _ _, Throw unsupported;
  native_call := λ _ _ _, Throw unsupported;
  ToString_slow := λ _, Throw unsupported;
  ToNumber_slow := λ _, Throw unsupported;
  Math_floor := λ _, nan;
  remainder := λ _ _, nan;
  Date_getTime := λ _, Throw unsupported;
  URL_hostname := λ s, Some s;
  JSON_stringify := λ _, Throw unsupported;
|}.

(** Payloads written as in JSON. *)
Definition obj (props : list (string * JValue)) : JValue :=
  JObj (map (λ kv, (utf16 kv.1, kv.2)) props).
Definition str (s : string) : JValue := JStr (utf16 s).

(** ** Sample payloads *)

(** [{ contact: { phone }, call: { agreements: {} } }] *)
Definition payload_of_phone (phone : string) : JValue :=
  obj [("contact", obj [("phone", str phone)]);
       ("call", obj [("agreements", obj [])])]%string.

(** [{ contact: { phone: '79990001234' },
       call: { agreements: { agreements: text, client_name: 'Ivan' } } }] *)
Definition payload_of_agreements (text : JValue) : JValue :=
  obj [("contact", obj [("phone", str "79990001234")]);
       ("call", obj [("agreements",
         obj [("agreements", text); ("client_name", str "Ivan")])])]%string.

(** [{ contact: {}, call: { agreements: { price } } }] *)
Definition payload_of_price (price : JValue) : JValue :=
  obj [("contact", obj []);
       ("call", obj [("agreements", obj [("price", price)])])]%string.

(** A payload with every value the custom fields of a lead are made
    of, and neither phone nor email. *)
Definition payload_of_call : JValue :=
  obj [("contact",
        obj [("additionalFields", obj [("company", str "ACME"); ("city", str "Kazan")]);
             ("dadataPhoneInfo", obj [("region", str "Tatarstan")])]);
       ("call",
        obj [("duration", JNum 65000%float);
             ("startedAt", str "2024-05-01T10:00:00Z");
             ("recordUrl", str "https://example.org/record.mp3");
             ("agreements",
              obj [("agreements", str "Call back on Monday");
                   ("client_facts", str "Owns a bakery");
                   ("smsText", str "See you on Monday");
                   ("historycall", str "Hello");
                   ("agreements_time", str "Monday 10:00")])])]%string.


(** An environment with the subdomain and the token, and no
    [AMOCRM_PIPELINE_ID]. *)
Definition env_without_pipeline : gmap jsstring jsstring :=
  {[ utf16 "AMOCRM_SUBDOMAIN" := utf16 "acme";
     utf16 "AMOCRM_ACCESS_TOKEN" := utf16 "secret" ]}.

(** ** More of what the properties speak of *)

(** The variables of the lead's custom fields and of the contact's, in
    the order of the blocks that read them. *)
Definition lead_field_ids : list string :=
  [ "AMOCRM_AGREEMENTS_FIELD_ID"; "AMOCRM_CLIENT_FACTS_FIELD_ID";
    "AMOCRM_SMS_TEXT_FIELD_ID"; "AMOCRM_CALL_DURATION_FIELD_ID";
    "AMOCRM_CALL_STARTED_FIELD_ID"; "AMOCRM_CALL_RECORD_URL_FIELD_ID";
    "AMOCRM_CALL_HISTORY_FIELD_ID"; "AMOCRM_AGREEMENTS_TIME_FIELD_ID";
    "AMOCRM_REGION_FIELD_ID"; "AMOCRM_COMPANY_FIELD_ID" ]%string.
Definition contact_field_ids : list string :=
  [ "AMOCRM_CONTACT_COMPANY_FIELD_ID"; "AMOCRM_CONTACT_CITY_FIELD_ID" ]%string.

(** The entries that blocks make: one for each variable that is set
    and whose block has a value [w] to store, in the order of the
    blocks. *)
Definition entries_of (env : gmap jsstring jsstring) (Ks : list string)
    (ws : list (option JValue)) : list JValue :=
  omap (λ Kw, id ← env_get env Kw.1; w ← Kw.2; Some (field_id_entry id w))
    (zip Ks ws).

(** The digits of a phone, without the ["7"] they start with when
    they start with one. *)
Definition national (digits : jsstring) : jsstring :=
  if starts_with (utf16 "7") digits then drop 1 digits else digits.

(** The status of an answer. *)
Definition status_of (r : reply) : nat :=
  match r with Send status _ | Json status _ => status end.

(** A request to [/webhook] that passes the checks of the handler:
    [data] is what [JSON.parse] makes of its body. *)
Definition passes (E : Engine) (env : gmap jsstring jsstring)
    (JSON_parse : jsstring → result JValue)
    (signature : JValue) (payload : jsstring) (data : JValue) : Prop :=
  truthy signature = true
  ∧ is_Some (env_get env "WEBHOOK_SECRET")
  ∧ payload ≠ []
  ∧ JSON_parse payload = Ok data
  ∧ truthy data = true
  ∧ no_keys data = false
  ∧ lacks_contact_or_call E data = Ok false.

(** ** More samples *)

(** [{ contact: { phone: '79990001234' },
       call: { agreements: { client_name: name } } }] *)
Definition payload_of_client (name : string) : JValue :=
  obj [("contact", obj [("phone", str "79990001234")]);
       ("call", obj [("agreements", obj [("client_name", str name)])])]%string.

(** [{ contact: { phone, additionalFields: { email } },
       call: { agreements: {} } }] *)
Definition payload_of_contact (phone email : JValue) : JValue :=
  obj [("contact",
        obj [("phone", phone); ("additionalFields", obj [("email", email)])]);
       ("call", obj [("agreements", obj [])])]%string.

(** Environments: the field of the agreements configured; a subdomain
    with characters that no subdomain has; what the server needs,
    the pipeline included; the secret alone. *)
Definition env_of_agreements_field : gmap jsstring jsstring :=
  {[ utf16 "AMOCRM_AGREEMENTS_FIELD_ID" := utf16 "101" ]}.

Definition env_of_dirty_subdomain : gmap jsstring jsstring :=
  {[ utf16 "AMOCRM_SUBDOMAIN" := utf16 " my_company/ " ]}.

Definition env_of_server : gmap jsstring jsstring :=
  {[ utf16 "AMOCRM_SUBDOMAIN" := utf16 "acme";
     utf16 "AMOCRM_ACCESS_TOKEN" := utf16 "secret";
     utf16 "AMOCRM_PIPELINE_ID" := utf16 "42";
     utf16 "WEBHOOK_SECRET" := utf16 "hook" ]}.

Definition env_of_secret : gmap jsstring jsstring :=
  {[ utf16 "WEBHOOK_SECRET" := utf16 "hook" ]}.

(** An amoCRM that answers every request with the contact 3 and the
    lead 7. *)
Definition amocrm_accepts : request → failure + JValue :=
  λ _, inr (obj [("_embedded",
                  obj [("contacts", JArr [obj [("id", JNum 3%float)]]);
                       ("leads", JArr [obj [("id", JNum 7%float)]])])]%string).

(** A [JSON.parse] that reads [data] in every body, and details that
    show nothing. *)
Definition parsed_as (data : JValue) : jsstring → result JValue := λ _, Ok data.
Definition no_details : exn → JValue := λ _, JUndefined.

(** * Properties *)

(** A decidable statement about concrete data, settled by running its
    decision procedure. *)
Ltac by_computation :=
  match goal with
  | |- ?P => apply (bool_decide_unpack P); vm_compute; exact I
  end.

(** ** The definitions at work *)

Example utf16_cyrillic : utf16 "Лид" = [1051; 1080; 1076].
Proof. reflexivity. Qed.

Example split_dot_path :
  split_dot (utf16 "call.agreements.price")
  = map utf16 ["call"; "agreements"; "price"]%string.
Proof. reflexivity. Qed.

Example split_dot_empty_segments : split_dot (utf16 "a..b.") = [[97]; []; [98]; []].
Proof. reflexivity. Qed.

Example trim_spaces : trim (utf16 "  Иван Петров ") = utf16 "Иван Петров".
Proof. reflexivity. Qed.

Example parseInt_strings :
  map parseInt_string
    (map utf16 ["12abc"; "0"; "  42"; "-7"; "+7"; "0x1F"; "0x"; "abc"; ""; "-"]%string)
  = [P_int false 12; P_int false 0; P_int false 42; P_int true 7; P_int false 7;
     P_int false 31; P_NaN; P_NaN; P_NaN; P_NaN].
Proof. reflexivity. Qed.

Example numbers_of_parsed :
  map number_of [P_int false 12; P_int true 7; P_int true 0;
                 P_int false 9007199254740993]
  = [12%float; (-7)%float; (-0)%float; 9007199254740992%float].
Proof. reflexivity. Qed.

(** The own properties of a string and of an array. *)
Example own_props :
  own_prop (str "xy") (utf16 "length") = Some (JNum 2%float)
  ∧ own_prop (str "xy") (utf16 "1") = Some (str "y")
  ∧ own_prop (str "xy") (utf16 "2") = None
  ∧ own_prop (str "xy") (utf16 "01") = None
  ∧ own_prop (JArr [JNull; JBool true]) (utf16 "1") = Some (JBool true)
  ∧ own_prop (JArr [JNull; JBool true]) (utf16 "length") = Some (JNum 2%float).
Proof. repeat split; reflexivity. Qed.

(** The two mappings on a payload with a phone only, the pipeline
    configured: the result objects, and nothing logged. *)
Example lead_of_phone :
  applyMapping bare_engine (payload_of_phone "79990001234")
    (leadMapping bare_engine {[utf16 "AMOCRM_PIPELINE_ID" := utf16 "42"]} ∅)
  = ({[ utf16 "name" := str "Лид от AI менеджера: 79990001234";
        utf16 "pipeline_id" := str "42" ]}, []).
Proof. vm_compute. reflexivity. Qed.

Example contact_of_phone :
  applyMapping bare_engine (payload_of_phone "8 (999) 000-12-34")
    (contactMapping bare_engine ∅)
  = ({[ utf16 "name" := str "Контакт 8 (999) 000-12-34";
        utf16 "custom_fields_values" :=
          JArr [field_code_entry "PHONE" (str "+789990001234")] ]}, []).
Proof. vm_compute. reflexivity. Qed.

(** ** The path resolver *)

Section Resolver.
Context (E : Engine).

Lemma step_falsy current key :
  truthy current = false → step E current key = Ok JNull.
Proof. intros H. unfold step. by rewrite H. Qed.

Lemma step_get current key v :
  truthy current = true → get_prop E current key = Ok v →
  step E current key = Ok (match v with JUndefined => JNull | _ => v end).
Proof. intros Ht Hg. unfold step. rewrite Ht, Hg. by destruct v. Qed.

Lemma walk_null keys : walk E JNull keys = Ok JNull.
Proof.
  induction keys as [|k keys IH]; [done|].
  cbn [walk]. by rewrite step_falsy.
Qed.

Lemma walk_falsy current keys :
  truthy current = false → keys ≠ [] → walk E current keys = Ok JNull.
Proof.
  intros H Hne. destruct keys as [|k keys]; [done|].
  cbn [walk]. rewrite step_falsy by done. apply walk_null.
Qed.

Lemma walk_app current keys keys' :
  walk E current (keys ++ keys') = walk E current keys ≫= λ v, walk E v keys'.
Proof.
  revert current. induction keys as [|k keys IH]; intros current; [done|].
  cbn [walk app]. destruct (step E current k) as [next|e]; [apply IH | done].
Qed.

(** A path of several segments is none of the three special ones. *)
Lemma several_segments obj path :
  (1 < length (split_dot path))%nat →
  getValueByPath E obj path = walk E obj (split_dot path).
Proof.
  intros Hl. unfold getValueByPath.
  repeat (case_bool_decide; [subst path; vm_compute in Hl; lia |]). done.
Qed.

Lemma get_prop_own v k w : own_prop v k = Some w → get_prop E v k = Ok w.
Proof. intros H. destruct v; try done; unfold get_prop; by rewrite H. Qed.

Lemma member_own v k w : member v k = Some w → own_prop v k = Some w.
Proof.
  destruct v; try done. simpl. intros H.
  case_bool_decide; [subst k; by vm_compute in H | done].
Qed.

Lemma member_truthy v k w : member v k = Some w → truthy v = true.
Proof. by destruct v. Qed.

(** The resolver follows own properties, unless it has met a falsy
    value or [undefined] on the way and gone to [null]. *)
Lemma own_at_walk obj keys v :
  own_at obj keys = Some v →
  walk E obj keys = Ok v ∨ walk E obj keys = Ok JNull.
Proof.
  revert obj. induction keys as [|k keys IH]; intros obj H.
  { left. by injection H as ->. }
  cbn [own_at] in H. destruct (own_prop obj k) as [w|] eqn:Hw; [|done].
  cbn [walk]. destruct (truthy obj) eqn:Ht.
  - rewrite (step_get _ _ _ Ht (get_prop_own _ _ _ Hw)).
    simpl in H. destruct w; try (by apply IH).
    right. apply walk_null.
  - rewrite step_falsy by done. right. apply walk_null.
Qed.

(** It reaches the members of the payload. *)
Lemma payload_at_walk obj keys v :
  payload_at obj keys = Some v → v ≠ JUndefined → walk E obj keys = Ok v.
Proof.
  revert obj. induction keys as [|k keys IH]; intros obj H Hv.
  { by injection H as ->. }
  cbn [payload_at] in H. destruct (member obj k) as [w|] eqn:Hw; [|done].
  cbn [walk].
  rewrite (step_get _ _ _ (member_truthy _ _ _ Hw)
             (get_prop_own _ _ _ (member_own _ _ _ Hw))).
  simpl in H. destruct w; try (by apply IH).
  destruct keys; [by injection H as <- | done].
Qed.

(** C9.  Whatever the path, [getValueByPath] returns [null] as soon
    as the value at a segment that is not the last one is falsy, be
    the rest of the path defined on that value or not; on a path of
    several segments the member of the payload at the last segment is
    returned as it is, falsy or not, unless it is [undefined]. *)
Theorem getValueByPath_falsy_segment obj path :
  (∀ init rest v,
     split_dot path = init ++ rest → rest ≠ [] →
     own_at obj init = Some v → truthy v = false →
     getValueByPath E obj path = Ok JNull)
  ∧ (∀ v,
       (1 < length (split_dot path))%nat →
       payload_at obj (split_dot path) = Some v → v ≠ JUndefined →
       getValueByPath E obj path = Ok v).
Proof.
  split.
  - intros init rest v Hs Hrest Hv Hf. unfold getValueByPath.
    destruct (_ || _); [done|].
    rewrite Hs, walk_app.
    destruct (own_at_walk _ _ _ Hv) as [-> | ->]; simpl;
      by apply walk_falsy.
  - intros v Hl Hv Hu. rewrite several_segments by done.
    by apply payload_at_walk.
Qed.

End Resolver.

(** The falsy values. *)
Example falsy_values :
  map truthy [JNull; JUndefined; JBool false; JNum 0%float; JNum (-0)%float;
              JNum nan; JStr []]
  = [false; false; false; false; false; false; false].
Proof. reflexivity. Qed.

(** [""] stops the path ["a.length"], although [''.length] is [0];
    the [0] at the end of ["a.b"] is returned. *)
Lemma getValueByPath_falsy_segment_witness :
  getValueByPath bare_engine (obj [("a", str "")]%string) (utf16 "a.length")
    = Ok JNull
  ∧ getValueByPath bare_engine (obj [("a", obj [("b", JNum 0%float)])]%string)
      (utf16 "a.b") = Ok (JNum 0%float).
Proof.
  split.
  - apply (proj1 (getValueByPath_falsy_segment bare_engine _ _)
             [utf16 "a"] [utf16 "length"] (str "")); by vm_compute.
  - apply (proj2 (getValueByPath_falsy_segment bare_engine _ _));
      [vm_compute; lia | by vm_compute | done].
Defined.

(** *** Paths of three segments *)

Lemma split_dot_plain a : 46 ∉ a → split_dot a = [a].
Proof.
  induction a as [|c a IH]; [done|]. intros H.
  apply not_elem_of_cons in H as [Hc Ha]. cbn [split_dot].
  destruct (N.eqb_spec c 46) as [->|_]; [done|]. by rewrite IH.
Qed.

Lemma split_dot_app a rest :
  46 ∉ a → split_dot (a ++ 46 :: rest) = a :: split_dot rest.
Proof.
  induction a as [|c a IH]; [done|]. intros H.
  apply not_elem_of_cons in H as [Hc Ha]. cbn [split_dot app].
  destruct (N.eqb_spec c 46) as [->|_]; [done|]. by rewrite IH.
Qed.

Lemma split_dotted a b c :
  46 ∉ a → 46 ∉ b → 46 ∉ c → split_dot (dotted a b c) = [a; b; c].
Proof.
  intros. unfold dotted.
  by rewrite split_dot_app, split_dot_app, split_dot_plain.
Qed.

(** *** JSON payloads *)

Lemma json_assoc props k w :
  forallb (λ kv, json kv.2) props = true → assoc k props = Some w → json w = true.
Proof.
  induction props as [|[k' v] props IH]; [done|].
  cbn [forallb assoc]. intros [Hv Hp]%andb_prop.
  case_bool_decide; [by intros [= <-] | by apply IH].
Qed.

Lemma json_at_index elems i w :
  forallb json elems = true → at_index elems i = Some w → json w = true.
Proof.
  intros H. unfold at_index. destruct (_ <? _); [|done].
  intros Hn%nth_error_In. by eapply forallb_forall in H.
Qed.

Lemma json_own_prop v k w :
  json v = true → own_prop v k = Some w → json w = true.
Proof.
  destruct v; try done; cbn [json own_prop member].
  - case_bool_decide; [by intros _ [= <-]|].
    destruct (array_index k); [|done]. simpl.
    destruct (at_index s n); [|done]. by intros _ [= <-].
  - intros H. case_bool_decide; [by intros [= <-]|].
    destruct (array_index k); [|done]. by apply json_at_index.
  - apply json_assoc.
Qed.

Lemma json_member v k w :
  json v = true → member v k = Some w → json w = true.
Proof. intros Hv Hw. by eapply json_own_prop, member_own. Qed.

Section Plain.
Context (E : Engine).

(** On a JSON value, a property that no prototype shadows is an own
    property or [undefined]. *)
Lemma get_prop_json v k :
  json v = true → nullish v = false → unshadowed E k →
  get_prop E v k = Ok (default JUndefined (own_prop v k)).
Proof.
  intros Hj Hn Hk. destruct v; try done; unfold get_prop;
    by destruct (own_prop _ k); [|rewrite Hk].
Qed.

Lemma step_json v k :
  json v = true → unshadowed E k →
  step E v k = Ok (if truthy v then default JNull (own_prop v k) else JNull).
Proof.
  intros Hj Hk. destruct (truthy v) eqn:Ht; [|by apply step_falsy].
  assert (nullish v = false) as Hn by by destruct v.
  rewrite (step_get _ _ _ _ Ht (get_prop_json _ _ Hj Hn Hk)).
  destruct (own_prop v k) as [w|] eqn:Hw; [|done].
  apply (json_own_prop _ _ _ Hj) in Hw. by destruct w.
Qed.

Lemma resolve_null keys : resolve JNull keys = JNull.
Proof. by induction keys. Qed.

Lemma resolve_own_at v keys : own_at v keys = None → resolve v keys = JNull.
Proof.
  revert v. induction keys as [|k keys IH]; intros v; [done|].
  cbn [own_at resolve]. destruct (truthy v); [|by rewrite resolve_null].
  destruct (own_prop v k); simpl; [apply IH | by rewrite resolve_null].
Qed.

(** The resolver on a JSON payload: it returns, and returns what
    [resolve] says. *)
Lemma walk_json v keys :
  json v = true → Forall (unshadowed E) keys →
  walk E v keys = Ok (resolve v keys).
Proof.
  revert v. induction keys as [|k keys IH]; intros v Hj Hk; [done|].
  apply Forall_cons in Hk as [Hk Hks]. cbn [walk resolve].
  rewrite step_json by done. simpl. apply IH; [|done].
  destruct (truthy v); [|done].
  destruct (own_prop v k) eqn:Hw; [by eapply json_own_prop | done].
Qed.

(** C7, as the code has it.  On a JSON payload and a path [a.b.c]
    whose segments name no property of a prototype, [getValueByPath]
    returns without throwing, and returns [null] whenever [a], [a.b]
    or [a.b.c] is not an own property of what precedes it: a key of
    an object, an index of an array, the [length] or a code unit of a
    string. *)
Theorem getValueByPath_missing data a b c :
  json data = true →
  unshadowed E a → unshadowed E b → unshadowed E c →
  46 ∉ a → 46 ∉ b → 46 ∉ c →
  (∃ v, getValueByPath E data (dotted a b c) = Ok v)
  ∧ (own_at data [a; b; c] = None →
     getValueByPath E data (dotted a b c) = Ok JNull).
Proof.
  intros Hj Ha Hb Hc Da Db Dc.
  rewrite several_segments; rewrite split_dotted by done; [|simpl; lia].
  rewrite walk_json by (done || by repeat constructor).
  split; [by eexists|]. intros H. by rewrite resolve_own_at.
Qed.

End Plain.

(** C7, as it is stated, fails: the [length] of a string is found,
    although the payload has no member [a.b.length]. *)
Lemma getValueByPath_string_length :
  payload_at (obj [("a", obj [("b", str "xy")])]%string)
    [utf16 "a"; utf16 "b"; utf16 "length"] = None
  ∧ ¬ ∃ E, getValueByPath E (obj [("a", obj [("b", str "xy")])]%string)
             (dotted (utf16 "a") (utf16 "b") (utf16 "length")) = Ok JNull.
Proof.
  split; [reflexivity|]. intros [E H]. vm_compute in H. discriminate.
Qed.

Lemma bare_unshadowed k : unshadowed bare_engine k.
Proof. by intros p. Qed.

(** [a] is a string where an object is expected. *)
Lemma getValueByPath_missing_witness :
  (∃ v, getValueByPath bare_engine (obj [("a", str "xy")]%string)
          (dotted (utf16 "a") (utf16 "b") (utf16 "c")) = Ok v)
  ∧ getValueByPath bare_engine (obj [("a", str "xy")]%string)
      (dotted (utf16 "a") (utf16 "b") (utf16 "c")) = Ok JNull.
Proof.
  assert ((46 ∉ utf16 "a") ∧ (46 ∉ utf16 "b") ∧ (46 ∉ utf16 "c")) as (Da & Db & Dc)
    by (repeat split; by_computation).
  destruct (getValueByPath_missing bare_engine (obj [("a", str "xy")]%string)
              (utf16 "a") (utf16 "b") (utf16 "c") eq_refl
              (bare_unshadowed _) (bare_unshadowed _) (bare_unshadowed _)
              Da Db Dc) as [Hv Hnull].
  split; [exact Hv | apply Hnull; reflexivity].
Defined.

(** ** The mapping applier *)

Section Applier.
Context (E : Engine) (webhookData : JValue).

Let store (m : gmap jsstring JValue) (entry : jsstring * FieldConfig) :=
  match stored E webhookData entry.2 with
  | Some v => assign m entry.1 v
  | None => m
  end.

Lemma apply_field_spec acc entry :
  apply_field E webhookData acc entry
  = (store acc.1 entry, acc.2 ++ warned E webhookData entry).
Proof.
  unfold apply_field, store, stored, kept, warned. destruct acc as [m log].
  destruct (field_value _ _ _) as [v|e]; simpl; [|done].
  by destruct (nullish v); rewrite app_nil_r.
Qed.

Lemma foldl_apply_field acc mapping :
  foldl (apply_field E webhookData) acc mapping
  = (foldl store acc.1 mapping, acc.2 ++ flat_map (warned E webhookData) mapping).
Proof.
  revert acc. induction mapping as [|entry mapping IH]; intros [m log].
  { simpl. by rewrite app_nil_r. }
  cbn [foldl flat_map]. rewrite IH, apply_field_spec. simpl.
  by rewrite app_assoc.
Qed.

Lemma applyMapping_fields mapping :
  (applyMapping E webhookData mapping).1 = foldl store ∅ mapping.
Proof. unfold applyMapping. by rewrite foldl_apply_field. Qed.

Lemma applyMapping_log mapping :
  (applyMapping E webhookData mapping).2 = flat_map (warned E webhookData) mapping.
Proof. unfold applyMapping. by rewrite foldl_apply_field. Qed.

Lemma config_of_None k mapping : k ∉ mapping.*1 → config_of k mapping = None.
Proof.
  induction mapping as [|[k' config] mapping IH]; [done|].
  intros [Hk Hm]%not_elem_of_cons. cbn [config_of].
  case_bool_decide; [done | by apply IH].
Qed.

(** An assignment changes one key at most, to the value assigned. *)
Lemma assign_lookup m k v k' :
  assign m k v !! k' = m !! k' ∨ (k = k' ∧ assign m k v !! k' = Some v).
Proof.
  unfold assign. case_bool_decide; [by left|].
  destruct (decide (k = k')) as [->|Hne].
  - right. by rewrite lookup_insert_eq.
  - left. by rewrite lookup_insert_ne.
Qed.

Lemma assign_lookup_eq m k v :
  k ≠ utf16 "__proto__" → assign m k v !! k = Some v.
Proof.
  intros Hk. unfold assign. rewrite bool_decide_eq_false_2 by done.
  apply lookup_insert_eq.
Qed.

Lemma assign_lookup_ne m k v k' : k ≠ k' → assign m k v !! k' = m !! k'.
Proof. intros Hne. by destruct (assign_lookup m k v k') as [?|[? _]]. Qed.

Lemma foldl_store_lookup m mapping k :
  NoDup mapping.*1 → k ≠ utf16 "__proto__" →
  foldl store m mapping !! k
  = match config_of k mapping ≫= stored E webhookData with
    | Some v => Some v
    | None => m !! k
    end.
Proof.
  intros Hnd Hk. revert m Hnd.
  induction mapping as [|[k' config] mapping IH]; intros m Hnd; [done|].
  apply NoDup_cons in Hnd as [Hk' Hnd]. cbn [foldl config_of].
  rewrite IH by done. unfold store. simpl.
  case_bool_decide as Hkk; [subst k'|].
  - rewrite config_of_None by done. simpl.
    destruct (stored _ _ config); [by apply assign_lookup_eq | done].
  - destruct (config_of k mapping ≫= _); [done|].
    destruct (stored _ _ config); [by apply assign_lookup_ne | done].
Qed.

(** The field [k] of the result is what the entry [k] of the mapping
    stores. *)
Lemma applyMapping_lookup mapping k :
  NoDup mapping.*1 → k ≠ utf16 "__proto__" →
  (applyMapping E webhookData mapping).1 !! k
  = config_of k mapping ≫= stored E webhookData.
Proof.
  intros Hnd Hk. rewrite applyMapping_fields, foldl_store_lookup by done.
  by destruct (_ ≫= _).
Qed.

Lemma stored_not_null config v :
  stored E webhookData config = Some v → v ≠ JNull ∧ v ≠ JUndefined.
Proof.
  unfold stored, kept. destruct (field_value _ _ _) as [w|]; [|done].
  destruct (nullish w) eqn:Hw; [done|]. intros [= <-]. by destruct w.
Qed.

(** C3.  Whatever the payload and the mapping, no key of the result of
    [applyMapping] holds [null] or [undefined]. *)
Theorem applyMapping_no_null mapping k :
  (applyMapping E webhookData mapping).1 !! k ≠ Some JNull
  ∧ (applyMapping E webhookData mapping).1 !! k ≠ Some JUndefined.
Proof.
  rewrite applyMapping_fields.
  assert (∀ m, (∀ v, m !! k = Some v → v ≠ JNull ∧ v ≠ JUndefined) →
               ∀ v, foldl store m mapping !! k = Some v → v ≠ JNull ∧ v ≠ JUndefined)
    as Hinv.
  { induction mapping as [|[k' config] mapping IH]; intros m Hm; [done|].
    cbn [foldl]. apply IH. unfold store. simpl.
    destruct (stored _ _ config) as [w|] eqn:Hw; [|done].
    intros v. destruct (assign_lookup m k' w k) as [->|[_ ->]]; [apply Hm|].
    intros [= <-]. by eapply stored_not_null. }
  specialize (Hinv ∅ ltac:(by intros v; rewrite lookup_empty)).
  split; intros H; by destruct (Hinv _ H).
Qed.





End Applier.


(** ** Reading a JSON payload *)

Arguments utf16 : simpl never.

Lemma names_are_words :
  Forall (λ k, array_index k = None ∧ k ≠ length_key) payload_names.
Proof. by_computation. Qed.

Lemma own_prop_name v k : k ∈ payload_names → own_prop v k = member v k.
Proof.
  intros Hk. destruct (proj1 (Forall_forall _ _) names_are_words k Hk) as [Hi Hl].
  destruct v; try done; cbn [own_prop member];
    rewrite bool_decide_eq_false_2 by done; by rewrite ?Hi.
Qed.

Lemma read_pick v k : read v = true → read (pick v k) = true.
Proof.
  intros Hv. unfold pick. destruct (member v k) as [w|] eqn:Hw; [|done].
  assert (json v = true) as Hj by by destruct v.
  apply (json_member _ _ _ Hj) in Hw. by destruct w.
Qed.

Lemma read_json v : read v = true → nullish v = false → json v = true.
Proof. by destruct v. Qed.

Lemma json_or_empty v : read v = true → json (or_empty v) = true.
Proof. unfold or_empty. destruct (truthy v) eqn:Ht; [by destruct v | done]. Qed.

Lemma pick_or_empty v k : pick (or_empty v) k = pick v k.
Proof. unfold or_empty. destruct (truthy v) eqn:Ht; [done | by destruct v]. Qed.

Lemma nullish_or_empty v : nullish (or_empty v) = false.
Proof. unfold or_empty. destruct (truthy v) eqn:Ht; [by destruct v | done]. Qed.

(** The members along a path, read one after the other. *)
Lemma picks_at_path data path :
  foldl pick data (map utf16 path) = default JUndefined (at_path data path).
Proof.
  unfold at_path. revert data.
  induction path as [|k path IH]; intros data; [done|].
  cbn [map foldl payload_at]. rewrite IH. unfold pick.
  destruct (member data (utf16 k)) as [w|]; [done|].
  simpl. clear. by induction path.
Qed.

Lemma picks_hit data path v :
  at_path data path = Some v → foldl pick data (map utf16 path) = v.
Proof. intros H. by rewrite picks_at_path, H. Qed.

Lemma picks_blank data path :
  blank_at data path = true → truthy (foldl pick data (map utf16 path)) = false.
Proof.
  unfold blank_at. rewrite picks_at_path. intros H%negb_true_iff.
  by destruct (at_path data path).
Qed.

Lemma at_path_not_nullish data k path v :
  at_path data (k :: path) = Some v → nullish data = false.
Proof. by destruct data. Qed.

Section Reads.
Context (E : Engine) (Hplain : plain E).

Lemma name_unshadowed k : k ∈ payload_names → unshadowed E k.
Proof. intros Hk. by apply (proj1 (Forall_forall _ _) Hplain). Qed.

Lemma get_prop_pick v k :
  k ∈ payload_names → read v = true → nullish v = false →
  get_prop E v k = Ok (pick v k).
Proof.
  intros Hk Hr Hn.
  rewrite get_prop_json by eauto using read_json, name_unshadowed.
  by rewrite own_prop_name.
Qed.

Lemma get_opt_pick v k :
  k ∈ payload_names → read v = true → get_opt E v k = Ok (pick v k).
Proof.
  intros Hk Hr. unfold get_opt. destruct (nullish v) eqn:Hn.
  - by destruct v.
  - by apply get_prop_pick.
Qed.

(** On a path of payload names the resolver returns the member of the
    payload, [null] when there is none. *)
Lemma walk_names data path :
  json data = true → Forall (λ k, utf16 k ∈ payload_names) path →
  walk E data (map utf16 path) = Ok (default JNull (at_path data path)).
Proof.
  intros Hj Hp. rewrite walk_json; [f_equal|done|].
  - unfold at_path. clear Hj. revert data.
    induction Hp as [|k path Hk Hp IH]; intros data; [done|].
    cbn [map resolve payload_at]. rewrite own_prop_name by done.
    destruct (truthy data) eqn:Ht.
    + destruct (member data (utf16 k)); simpl; [apply IH | apply resolve_null].
    + rewrite resolve_null. by destruct data.
  - apply Forall_fmap. eapply Forall_impl; [done|].
    intros k Hk. by apply name_unshadowed.
Qed.

End Reads.

(** ** The fields of the two mappings *)

Section Fields.
Context (E : Engine) (boot_env env : gmap jsstring jsstring) (data : JValue).

Lemma leadMapping_lookup k :
  k ≠ utf16 "__proto__" →
  (applyMapping E data (leadMapping E boot_env env)).1 !! k
  = config_of k (leadMapping E boot_env env) ≫= stored E data.
Proof. intros Hk. apply applyMapping_lookup; [by_computation | done]. Qed.

Lemma contactMapping_lookup k :
  k ≠ utf16 "__proto__" →
  (applyMapping E data (contactMapping E env)).1 !! k
  = config_of k (contactMapping E env) ≫= stored E data.
Proof. intros Hk. apply applyMapping_lookup; [by_computation | done]. Qed.

Lemma lead_name_field :
  (applyMapping E data (leadMapping E boot_env env)).1 !! utf16 "name"
  = kept (raw ← walk E data (map utf16 ["call"; "agreements"; "agreements"]%string);
          lead_name E raw data).
Proof. rewrite leadMapping_lookup by by_computation. reflexivity. Qed.

Lemma lead_price_field :
  (applyMapping E data (leadMapping E boot_env env)).1 !! utf16 "price"
  = kept (raw ← walk E data (map utf16 ["call"; "agreements"; "price"]%string);
          lead_price E raw data).
Proof. rewrite leadMapping_lookup by by_computation. reflexivity. Qed.

Lemma lead_pipeline_field :
  (applyMapping E data (leadMapping E boot_env env)).1 !! utf16 "pipeline_id"
  = JStr <$> env_get boot_env "AMOCRM_PIPELINE_ID".
Proof.
  rewrite leadMapping_lookup by by_computation.
  change (kept (Ok (env_or_null boot_env "AMOCRM_PIPELINE_ID"))
          = JStr <$> env_get boot_env "AMOCRM_PIPELINE_ID").
  unfold env_or_null. by destruct (env_get _ _).
Qed.

Lemma lead_custom_fields_field :
  (applyMapping E data (leadMapping E boot_env env)).1 !! utf16 "custom_fields_values"
  = kept (lead_custom_fields E env JNull data).
Proof. rewrite leadMapping_lookup by by_computation. reflexivity. Qed.

Lemma contact_custom_fields_field :
  (applyMapping E data (contactMapping E env)).1 !! utf16 "custom_fields_values"
  = kept (contact_custom_fields E env JNull data).
Proof. rewrite contactMapping_lookup by by_computation. reflexivity. Qed.

End Fields.

(** ** Reading through a transform *)

Lemma bind_Ok {A B} (a : A) (f : A → result B) : (Ok a ≫= f) = f a.
Proof. done. Qed.

Lemma read_or_empty v : read v = true → read (or_empty v) = true.
Proof. intros H. apply json_or_empty in H. by destruct (or_empty v). Qed.

Ltac read_side :=
  solve [ by_computation
        | repeat first [ assumption | apply nullish_or_empty
                       | apply read_or_empty | apply read_pick ] ].

(** Replaces the reads of payload names by the members they find. *)
Ltac reads :=
  repeat first
    [ rewrite get_prop_pick by read_side
    | rewrite get_opt_pick by read_side
    | rewrite bind_Ok ].

(** ** The name of the lead *)

Section LeadName.
Context (E : Engine) (boot_env env : gmap jsstring jsstring) (data : JValue).

Local Abbreviation name :=
  ((applyMapping E data (leadMapping E boot_env env)).1 !! utf16 "name").

(** A text of agreements becomes the name, cut when it is long. *)
Lemma lead_name_of_text s :
  at_path data ["call"; "agreements"; "agreements"] = Some (JStr s) → s ≠ [] →
  name = Some (JStr (if bool_decide (250 < length s)%nat
                     then take 247 s ++ utf16 "..." else s)).
Proof.
  intros Hs Hne. rewrite lead_name_field.
  rewrite (payload_at_walk E _ _ _ Hs) by done.
  rewrite bind_Ok. unfold lead_name. cbn [truthy].
  rewrite bool_decide_eq_false_2 by done. cbn [negb length_gt].
  rewrite bind_Ok. by case_bool_decide.
Qed.

(** Without a text of agreements the name is made of the client name,
    of the phone, or of nothing. *)
Lemma lead_name_fallback value :
  json data = true → plain E → nullish data = false → truthy value = false →
  lead_name E value data
  = (let clientName :=
       foldl pick data (map utf16 ["call"; "agreements"; "client_name"]%string) in
     let phone := foldl pick data (map utf16 ["contact"; "phone"]%string) in
     if truthy clientName then
       s ← ToString E clientName; Ok (JStr (utf16 "Лид от AI менеджера: " ++ s))
     else if truthy phone then
       s ← ToString E phone; Ok (JStr (utf16 "Лид от AI менеджера: " ++ s))
     else Ok (JStr (utf16 "Лид от AI менеджера"))).
Proof.
  intros Hj Hplain Hn Hf.
  assert (read data = true) as Hr by by destruct data.
  unfold lead_name. rewrite Hf. by reads.
Qed.

(** C5, as the code has it.  When [call.agreements.agreements] is a
    string of more than 250 code units, the name of the lead is its
    first 247 code units followed by ["..."], 250 code units in all; a
    string of 1 to 250 code units is the name unchanged. *)
Theorem lead_name_truncated s :
  at_path data ["call"; "agreements"; "agreements"] = Some (JStr s) →
  ((250 < length s)%nat →
   name = Some (JStr (take 247 s ++ utf16 "..."))
   ∧ length (take 247 s ++ utf16 "...") = 250%nat)
  ∧ ((0 < length s ≤ 250)%nat → name = Some (JStr s)).
Proof.
  intros Hs. split; intros Hl.
  - rewrite (lead_name_of_text s) by (done || by destruct s; simpl in Hl; [lia|]).
    rewrite bool_decide_eq_true_2 by done. split; [done|].
    rewrite length_app, length_take. change (length (utf16 "...")) with 3%nat. lia.
  - rewrite (lead_name_of_text s) by (done || by destruct s; simpl in Hl; [lia|]).
    by rewrite bool_decide_eq_false_2 by lia.
Qed.

(** C8, as the code has it.  When the payload has no text of
    agreements and no client name, and [contact.phone] is a string
    that is not empty, the name of the lead is ["Лид от AI менеджера: "]
    followed by the phone. *)
Theorem lead_name_from_phone phone :
  json data = true → plain E →
  blank_at data ["call"; "agreements"; "agreements"] = true →
  blank_at data ["call"; "agreements"; "client_name"] = true →
  at_path data ["contact"; "phone"] = Some (JStr phone) → phone ≠ [] →
  name = Some (JStr (utf16 "Лид от AI менеджера: " ++ phone)).
Proof.
  intros Hj Hplain Ha Hc Hp Hne.
  rewrite lead_name_field, walk_names by (done || by_computation).
  rewrite bind_Ok, lead_name_fallback;
    [|done|done|by eapply at_path_not_nullish|by apply negb_true_iff in Ha].
  cbn zeta. rewrite picks_blank by done. rewrite (picks_hit _ _ _ Hp).
  cbn [truthy ToString]. by rewrite bool_decide_eq_false_2, bind_Ok.
Qed.

End LeadName.

Lemma bare_plain : plain bare_engine.
Proof. apply Forall_forall. intros k _. apply bare_unshadowed. Qed.

(** The string of 300 ["X"]. *)
Lemma lead_name_truncated_witness :
  (applyMapping bare_engine (payload_of_agreements (JStr (repeat 88 300)))
     (leadMapping bare_engine ∅ ∅)).1 !! utf16 "name"
  = Some (JStr (repeat 88 247 ++ utf16 "..."))
  ∧ (applyMapping bare_engine (payload_of_agreements (str "Перезвонить в 10:00"))
       (leadMapping bare_engine ∅ ∅)).1 !! utf16 "name"
    = Some (str "Перезвонить в 10:00").
Proof.
  split.
  - apply (proj1 (lead_name_truncated bare_engine ∅ ∅
                    (payload_of_agreements (JStr (repeat 88 300)))
                    (repeat 88 300) eq_refl)).
    vm_compute. lia.
  - apply (proj2 (lead_name_truncated bare_engine ∅ ∅
                    (payload_of_agreements (str "Перезвонить в 10:00"))
                    (utf16 "Перезвонить в 10:00") eq_refl)).
    vm_compute. lia.
Defined.

(** C5, as it is stated, fails on the empty string, which is not
    passed through: the name falls back on the client name. *)
Lemma lead_name_of_empty_text :
  at_path (payload_of_agreements (str "")) ["call"; "agreements"; "agreements"]
    = Some (JStr [])
  ∧ ¬ ∃ E, (applyMapping E (payload_of_agreements (str ""))
              (leadMapping E ∅ ∅)).1 !! utf16 "name" = Some (JStr []).
Proof.
  split; [reflexivity|]. intros [E H].
  rewrite lead_name_field in H. vm_compute in H. discriminate.
Qed.

Lemma lead_name_from_phone_witness :
  (applyMapping bare_engine (payload_of_phone "79990001234")
     (leadMapping bare_engine ∅ ∅)).1 !! utf16 "name"
  = Some (str "Лид от AI менеджера: 79990001234").
Proof.
  apply (lead_name_from_phone bare_engine ∅ ∅ (payload_of_phone "79990001234")
           (utf16 "79990001234") eq_refl bare_plain eq_refl eq_refl eq_refl).
  by_computation.
Defined.

(** C8, as it is stated, fails: the name is not the English text. *)
Lemma lead_name_not_english :
  blank_at (payload_of_phone "79990001234") ["call"; "agreements"; "agreements"] = true
  ∧ blank_at (payload_of_phone "79990001234") ["call"; "agreements"; "client_name"] = true
  ∧ at_path (payload_of_phone "79990001234") ["contact"; "phone"]
    = Some (str "79990001234")
  ∧ ¬ ∃ E, plain E
      ∧ (applyMapping E (payload_of_phone "79990001234")
           (leadMapping E ∅ ∅)).1 !! utf16 "name"
        = Some (str "Lead from AI manager: 79990001234").
Proof.
  repeat split; try reflexivity. intros (E & Hplain & H).
  rewrite lead_name_field, walk_names in H by (done || by_computation).
  rewrite bind_Ok, lead_name_fallback in H by done.
  vm_compute in H. discriminate.
Qed.

(** ** The price of the lead *)

Lemma digit_not_special c :
  is_digit c = true →
  is_js_space c = false ∧ (c =? 45) = false ∧ (c =? 43) = false.
Proof.
  intros [H1 H2]%andb_prop. apply N.leb_le in H1, H2.
  assert (c = 48 ∨ c = 49 ∨ c = 50 ∨ c = 51 ∨ c = 52 ∨ c = 53 ∨ c = 54
          ∨ c = 55 ∨ c = 56 ∨ c = 57) as Hc by lia.
  repeat destruct Hc as [->|Hc]; try subst c; done.
Qed.

(** Without the prefix of a hexadecimal number, [parseInt] reads the
    decimal digits a string starts with. *)
Lemma parseInt_string_decimal s :
  take_while is_digit s ≠ [] →
  starts_with (utf16 "0x") s = false → starts_with (utf16 "0X") s = false →
  parseInt_string s = P_int false (decimal (take_while is_digit s)).
Proof.
  intros Hd Hx HX. destruct s as [|c r]; [done|].
  cbn [take_while] in Hd. destruct (is_digit c) eqn:Hc; [|done].
  destruct (digit_not_special c Hc) as (Hs & Hm & Hp).
  unfold parseInt_string. cbn [drop_while]. rewrite Hs, Hm, Hp.
  assert (parse_digits false (c :: r)
          = match take_while is_digit (c :: r) with
            | [] => P_NaN
            | ds => P_int false (decimal ds)
            end) as ->.
  { destruct r as [|x r]; [done|]. unfold parse_digits.
    change (utf16 "0x") with [48; 120] in Hx. change (utf16 "0X") with [48; 88] in HX.
    cbn [starts_with] in Hx, HX. rewrite andb_true_r, (N.eqb_sym 48) in Hx, HX.
    rewrite (N.eqb_sym 120) in Hx. rewrite (N.eqb_sym 88) in HX.
    destruct (c =? 48); [|done]. simpl in Hx, HX. by rewrite Hx, HX. }
  cbn [take_while]. by rewrite Hc.
Qed.

Section LeadPrice.
Context (E : Engine) (boot_env env : gmap jsstring jsstring) (data : JValue).

Lemma lead_price_of_falsy raw :
  truthy raw = false → lead_price E raw data = Ok JNull.
Proof. intros H. unfold lead_price. by rewrite H. Qed.

Lemma lead_price_of_digits s :
  take_while is_digit s ≠ [] →
  starts_with (utf16 "0x") s = false → starts_with (utf16 "0X") s = false →
  lead_price E (JStr s) data
  = Ok (JNum (number_of (P_int false (decimal (take_while is_digit s))))).
Proof.
  intros Hd Hx HX. unfold lead_price, parseInt. cbn [truthy ToString].
  rewrite bool_decide_eq_false_2 by (by intros ->). cbn [negb].
  by rewrite bind_Ok, parseInt_string_decimal.
Qed.

(** C10, as the code has it.  Every falsy raw value of
    [call.agreements.price], the number [0] among them, gives [null],
    and the lead then has no [price]; the string ["0"] gives the price
    [0] and ["12abc"] the price [12]; a string that starts with decimal
    digits, and not with ["0x"] or ["0X"], gives the number its leading
    digits spell. *)
Theorem lead_price_parsed :
  (∀ raw, truthy raw = false → lead_price E raw data = Ok JNull)
  ∧ lead_price E (JNum 0%float) data = Ok JNull
  ∧ (∀ raw,
       getValueByPath E data (utf16 "call.agreements.price") = Ok raw →
       truthy raw = false →
       (applyMapping E data (leadMapping E boot_env env)).1 !! utf16 "price" = None)
  ∧ lead_price E (str "0") data = Ok (JNum 0%float)
  ∧ lead_price E (str "12abc") data = Ok (JNum 12%float)
  ∧ (∀ s,
       take_while is_digit s ≠ [] →
       starts_with (utf16 "0x") s = false → starts_with (utf16 "0X") s = false →
       lead_price E (JStr s) data
       = Ok (JNum (number_of (P_int false (decimal (take_while is_digit s)))))).
Proof.
  split; [apply lead_price_of_falsy|].
  split; [by apply lead_price_of_falsy|].
  split; [|split; [reflexivity|split; [reflexivity|apply lead_price_of_digits]]].
  intros raw Hraw Hf. rewrite lead_price_field.
  change (getValueByPath E data (utf16 "call.agreements.price"))
    with (walk E data (map utf16 ["call"; "agreements"; "price"]%string)) in Hraw.
  by rewrite Hraw, bind_Ok, lead_price_of_falsy.
Qed.

End LeadPrice.

(** The raw value [0], and the string ["42 руб"]. *)
Lemma lead_price_parsed_witness :
  (applyMapping bare_engine (payload_of_price (JNum 0%float))
     (leadMapping bare_engine ∅ ∅)).1 !! utf16 "price" = None
  ∧ lead_price bare_engine (str "42 руб") JNull = Ok (JNum 42%float).
Proof.
  pose proof (lead_price_parsed bare_engine ∅ ∅ (payload_of_price (JNum 0%float)))
    as (_ & _ & Hraw & _).
  pose proof (lead_price_parsed bare_engine ∅ ∅ JNull) as (_ & _ & _ & _ & _ & Hs).
  split.
  - by apply (Hraw (JNum 0%float)).
  - apply (Hs (utf16 "42 руб")); by vm_compute.
Defined.

(** C10, as it is stated, fails on ["0x"]: it starts with the digit
    [0], and no engine makes a price of it. *)
Lemma lead_price_of_hex_prefix :
  take_while is_digit (utf16 "0x") = utf16 "0"
  ∧ ¬ ∃ E x, lead_price E (str "0x") JNull = Ok (JNum x).
Proof. split; [reflexivity|]. intros (E & x & H). vm_compute in H. discriminate. Qed.

(** ** The custom fields *)

Lemma env_get_unset env K :
  no_custom_field_ids env → K ∈ custom_field_ids → env_get env K = None.
Proof.
  intros Hno HK. unfold env_get.
  pose proof (proj1 (Forall_forall _ _) Hno K HK) as H. cbn beta in H.
  by rewrite H.
Qed.

Lemma push_if_unset env K read make customFields :
  env_get env K = None → push_if env K read make customFields = Ok customFields.
Proof. intros H. unfold push_if. by rewrite H. Qed.

(** A block that reads without throwing adds its entry or nothing. *)
Lemma push_if_extends env K v customFields :
  ∃ more, push_if env K (Ok v) Ok customFields = Ok (customFields ++ more).
Proof.
  unfold push_if. destruct (env_get env K) as [id|].
  - rewrite bind_Ok. destruct (truthy v); [by eexists | exists []].
    by rewrite app_nil_r.
  - exists []. by rewrite app_nil_r.
Qed.

Section CustomFields.
Context (E : Engine) (env : gmap jsstring jsstring) (data : JValue).

(** Without identifiers the lead has no custom field, whatever the
    payload and the engine. *)
Lemma lead_custom_fields_unset value :
  no_custom_field_ids env → kept (lead_custom_fields E env value data) = None.
Proof.
  intros Hno. unfold lead_custom_fields.
  destruct (get_prop E data (utf16 "call")) as [call0|]; [|done].
  rewrite bind_Ok.
  destruct (get_opt E call0 (utf16 "agreements")) as [agreements0|]; [|done].
  rewrite bind_Ok.
  destruct (get_prop E data (utf16 "contact")) as [contact0|]; [|done].
  rewrite bind_Ok.
  repeat (rewrite push_if_unset, bind_Ok
            by (apply env_get_unset; [done | by_computation])).
  done.
Qed.

Context (Hplain : plain E) (Hjson : json data = true).

Let contact := or_empty (pick data (utf16 "contact")).

(** The blocks after the phone. *)
Let after_phone (contact : JValue) (customFields : list JValue) : result JValue :=
  customFields ← push_email E contact customFields;
  customFields ← push_if env "AMOCRM_CONTACT_COMPANY_FIELD_ID"
    (fields ← get_prop E contact (utf16 "additionalFields");
     get_opt E fields (utf16 "company")) Ok customFields;
  customFields ← push_if env "AMOCRM_CONTACT_CITY_FIELD_ID"
    (fields ← get_prop E contact (utf16 "additionalFields");
     get_opt E fields (utf16 "city")) Ok customFields;
  Ok (array_or_null customFields).

Lemma contact_custom_fields_blocks value :
  contact_custom_fields E env value data
  = (contact0 ← get_prop E data (utf16 "contact");
     customFields ← push_phone E (or_empty contact0) [];
     after_phone (or_empty contact0) customFields).
Proof. reflexivity. Qed.

(** They read without throwing. *)
Lemma contact_fields_after_phone customFields :
  ∃ more,
    after_phone contact customFields = Ok (array_or_null (customFields ++ more))
    ∧ (no_custom_field_ids env →
       blank_at data ["contact"; "additionalFields"; "email"] = true →
       more = []).
Proof.
  assert (read data = true) as Hr by by destruct data.
  unfold after_phone, push_email, contact. reads. rewrite !pick_or_empty.
  change (pick (pick (pick data (utf16 "contact")) (utf16 "additionalFields"))
            (utf16 "email"))
    with (foldl pick data (map utf16 ["contact"; "additionalFields"; "email"]%string)).
  destruct (truthy (foldl pick data _)) eqn:Hemail.
  - rewrite bind_Ok.
    destruct (push_if_extends env "AMOCRM_CONTACT_COMPANY_FIELD_ID"
      (pick (pick (pick data (utf16 "contact")) (utf16 "additionalFields"))
         (utf16 "company"))
      (customFields ++ [field_code_entry "EMAIL"
         (foldl pick data (map utf16 ["contact"; "additionalFields"; "email"]%string))]))
      as [more1 ->].
    rewrite bind_Ok.
    destruct (push_if_extends env "AMOCRM_CONTACT_CITY_FIELD_ID"
      (pick (pick (pick data (utf16 "contact")) (utf16 "additionalFields"))
         (utf16 "city"))
      ((customFields ++ [field_code_entry "EMAIL"
         (foldl pick data (map utf16 ["contact"; "additionalFields"; "email"]%string))])
       ++ more1)) as [more3 ->].
    rewrite bind_Ok. eexists. split; [by rewrite <- !app_assoc|].
    intros _ Hb. apply picks_blank in Hb. congruence.
  - rewrite bind_Ok.
    destruct (push_if_extends env "AMOCRM_CONTACT_COMPANY_FIELD_ID"
      (pick (pick (pick data (utf16 "contact")) (utf16 "additionalFields"))
         (utf16 "company")) customFields) as [more1 Hm1].
    destruct (push_if_extends env "AMOCRM_CONTACT_CITY_FIELD_ID"
      (pick (pick (pick data (utf16 "contact")) (utf16 "additionalFields"))
         (utf16 "city")) (customFields ++ more1)) as [more3 Hm3].
    rewrite Hm1, bind_Ok, Hm3, bind_Ok. exists (more1 ++ more3).
    split; [by rewrite app_assoc|].
    intros Hno _.
    rewrite push_if_unset in Hm1 by (apply env_get_unset; [done | by_computation]).
    rewrite push_if_unset in Hm3 by (apply env_get_unset; [done | by_computation]).
    injection Hm1 as Hm1. injection Hm3 as Hm3.
    apply (f_equal length) in Hm1, Hm3.
    rewrite length_app in Hm1. rewrite !length_app in Hm3.
    destruct more1; [|simpl in Hm1; lia]. destruct more3; [done|simpl in Hm3; lia].
Qed.

(** A phone with digits gives the first entry: ["+"] before the digits
    when they start with ["7"], ["+7"] before them otherwise. *)
Lemma contact_phone_entry s :
  at_path data ["contact"; "phone"] = Some (JStr s) →
  filter (λ c, is_digit c = true) s ≠ [] →
  produces_phone (contact_custom_fields E env JNull data)
    (let digits := filter (λ c, is_digit c = true) s in
     if starts_with (utf16 "7") digits then utf16 "+" ++ digits
     else utf16 "+7" ++ digits).
Proof.
  intros Hs Hd.
  assert (read data = true) as Hr by by destruct data.
  pose proof (at_path_not_nullish _ _ _ _ Hs) as Hn.
  assert (s ≠ []) as Hne by by intros ->.
  unfold produces_phone. rewrite contact_custom_fields_blocks.
  reads. fold contact.
  destruct (contact_fields_after_phone
    [field_code_entry "PHONE"
       (JStr (let digits := filter (λ c, is_digit c = true) s in
              if starts_with (utf16 "7") digits then utf16 "+" ++ digits
              else utf16 "+7" ++ digits))]) as (more & Hmore & _).
  exists more.
  unfold push_phone, contact. reads. rewrite pick_or_empty.
  change (pick (pick data (utf16 "contact")) (utf16 "phone"))
    with (foldl pick data (map utf16 ["contact"; "phone"]%string)).
  rewrite (picks_hit _ _ _ Hs). cbn [truthy invoke string_call].
  rewrite bool_decide_eq_false_2 by done. cbn [negb]. rewrite bind_Ok. cbn [truthy].
  rewrite bool_decide_eq_false_2 by done. cbn [negb invoke string_call ToString].
  rewrite !bind_Ok. cbn [truthy app]. cbn zeta in Hmore.
  destruct (starts_with _ _); exact Hmore.
Qed.

(** Without a phone, an email and identifiers the contact has no custom
    field. *)
Lemma contact_custom_fields_unset :
  no_custom_field_ids env →
  blank_at data ["contact"; "phone"] = true →
  blank_at data ["contact"; "additionalFields"; "email"] = true →
  kept (contact_custom_fields E env JNull data) = None.
Proof.
  intros Hno Hphone Hemail.
  assert (read data = true) as Hr by by destruct data.
  rewrite contact_custom_fields_blocks.
  destruct (nullish data) eqn:Hn; [by destruct data|].
  reads. fold contact.
  destruct (contact_fields_after_phone []) as (more & Hmore & Hnil).
  rewrite (Hnil Hno Hemail) in Hmore.
  unfold push_phone, contact. reads. rewrite pick_or_empty.
  change (pick (pick data (utf16 "contact")) (utf16 "phone"))
    with (foldl pick data (map utf16 ["contact"; "phone"]%string)).
  rewrite picks_blank by done. rewrite bind_Ok.
  unfold contact in Hmore. by rewrite Hmore.
Qed.

End CustomFields.

(** C1, as the code has it.  In the transform of the contact's custom
    fields, a [contact.phone] whose digits are ["89990001234"] gives
    the phone value ["+789990001234"]: ["+7"] is put before digits that
    do not start with ["7"], and the leading ["8"] stays.  Digits
    ["79990001234"] give ["+79990001234"]. *)
Theorem contact_phone_value E env data s :
  json data = true → plain E →
  at_path data ["contact"; "phone"] = Some (JStr s) →
  (filter (λ c, is_digit c = true) s = utf16 "89990001234" →
   produces_phone (contact_custom_fields E env JNull data) (utf16 "+789990001234"))
  ∧ (filter (λ c, is_digit c = true) s = utf16 "79990001234" →
     produces_phone (contact_custom_fields E env JNull data) (utf16 "+79990001234")).
Proof.
  intros Hj Hplain Hs.
  split; intros Hd;
    pose proof (contact_phone_entry E env data Hplain Hj s Hs) as H;
    rewrite Hd in H; by apply H.
Qed.

Lemma contact_phone_value_witness :
  produces_phone
    (contact_custom_fields bare_engine ∅ JNull (payload_of_phone "8 (999) 000-12-34"))
    (utf16 "+789990001234")
  ∧ produces_phone
      (contact_custom_fields bare_engine ∅ JNull (payload_of_phone "+7 999 000-12-34"))
      (utf16 "+79990001234").
Proof.
  split.
  - by apply (proj1 (contact_phone_value bare_engine ∅
                       (payload_of_phone "8 (999) 000-12-34")
                       (utf16 "8 (999) 000-12-34") eq_refl bare_plain eq_refl)).
  - by apply (proj2 (contact_phone_value bare_engine ∅
                       (payload_of_phone "+7 999 000-12-34")
                       (utf16 "+7 999 000-12-34") eq_refl bare_plain eq_refl)).
Defined.

(** C1, as it is stated, fails: no engine turns the leading ["8"] into
    a ["7"]. *)
Lemma contact_phone_keeps_eight :
  at_path (payload_of_phone "89990001234") ["contact"; "phone"]
    = Some (str "89990001234")
  ∧ ¬ ∃ E, plain E
      ∧ produces_phone
          (contact_custom_fields E ∅ JNull (payload_of_phone "89990001234"))
          (utf16 "+79990001234").
Proof.
  split; [reflexivity|]. intros (E & Hplain & rest & H).
  destruct (contact_phone_entry E ∅ (payload_of_phone "89990001234") Hplain
              eq_refl (utf16 "89990001234") eq_refl) as [rest' H'];
    [by vm_compute|].
  rewrite H' in H. vm_compute in H. discriminate.
Qed.

(** C2, as the code has it.  Without any identifier of a custom field
    configured, the lead has no [custom_fields_values], whatever the
    payload holds; the contact has none either when the payload has no
    phone and no email, whose entries need no identifier. *)
Theorem custom_fields_without_ids E boot_env env data :
  no_custom_field_ids env →
  (applyMapping E data (leadMapping E boot_env env)).1
    !! utf16 "custom_fields_values" = None
  ∧ (json data = true → plain E →
     blank_at data ["contact"; "phone"] = true →
     blank_at data ["contact"; "additionalFields"; "email"] = true →
     (applyMapping E data (contactMapping E env)).1
       !! utf16 "custom_fields_values" = None).
Proof.
  intros Hno. split.
  - rewrite lead_custom_fields_field. by apply lead_custom_fields_unset.
  - intros Hj Hplain Hphone Hemail. rewrite contact_custom_fields_field.
    by apply contact_custom_fields_unset.
Qed.

Lemma no_ids_in_empty_env : no_custom_field_ids ∅.
Proof. by_computation. Qed.

Lemma custom_fields_without_ids_witness :
  (applyMapping bare_engine payload_of_call (leadMapping bare_engine ∅ ∅)).1
    !! utf16 "custom_fields_values" = None
  ∧ (applyMapping bare_engine payload_of_call (contactMapping bare_engine ∅)).1
      !! utf16 "custom_fields_values" = None.
Proof.
  destruct (custom_fields_without_ids bare_engine ∅ ∅ payload_of_call
              no_ids_in_empty_env) as [Hlead Hcontact].
  split; [exact Hlead | by apply Hcontact; [|apply bare_plain| |]].
Defined.

(** C2, as it is stated, fails for the contact: with no identifier
    configured at all, a phone still makes a custom field. *)
Lemma contact_phone_without_ids :
  no_custom_field_ids ∅
  ∧ ¬ ∃ E, plain E
      ∧ (applyMapping E (payload_of_phone "79990001234") (contactMapping E ∅)).1
          !! utf16 "custom_fields_values" = None.
Proof.
  split; [apply no_ids_in_empty_env|]. intros (E & Hplain & H).
  rewrite contact_custom_fields_field in H.
  destruct (contact_phone_entry E ∅ (payload_of_phone "79990001234") Hplain
              eq_refl (utf16 "79990001234") eq_refl) as [rest H'];
    [by vm_compute|].
  by rewrite H' in H.
Qed.

(** ** Creating the lead without a pipeline *)

Section Pipeline.
Context (E : Engine) (boot_env env : gmap jsstring jsstring).
Context (axios_post : request → failure + JValue) (data contactId : JValue).
Context (Hmissing : env_get boot_env "AMOCRM_PIPELINE_ID" = None).

Lemma pipeline_field_missing :
  field (applyMapping E data (leadMapping E boot_env env)).1 "pipeline_id"
  = JUndefined.
Proof. unfold field. by rewrite lead_pipeline_field, Hmissing. Qed.

(** The server that validates stops before the request: with the
    error of the missing pipeline when the subdomain, the token and the
    name are there, with theirs otherwise. *)
Lemma createLead_requires_pipeline :
  (∃ e, Server.createLeadInAmoCRM E boot_env env axios_post data contactId
        = (Throw e, []))
  ∧ (∀ baseUrl token,
       Server.getAmoCRMBaseUrl E env = Ok baseUrl →
       getAmoCRMToken env = Ok token →
       truthy (field (applyMapping E data (leadMapping E boot_env env)).1 "name")
         = true →
       Server.createLeadInAmoCRM E boot_env env axios_post data contactId
       = (Throw pipeline_missing, [])).
Proof.
  unfold Server.createLeadInAmoCRM, Server.lead_request. split.
  - destruct (Server.getAmoCRMBaseUrl E env) as [baseUrl|e]; [|by eexists].
    destruct (getAmoCRMToken env) as [token|e]; [|by eexists].
    rewrite !bind_Ok, pipeline_field_missing.
    destruct (truthy (field _ "name")); by eexists.
  - intros baseUrl token -> -> Hname.
    by rewrite !bind_Ok, pipeline_field_missing, Hname.
Qed.

(** The other server sends the lead, and the lead has no
    [pipeline_id]. *)
Lemma createLead_legacy_sends baseUrl token :
  ServerLegacy.getAmoCRMBaseUrl env = Ok baseUrl →
  getAmoCRMToken env = Ok token →
  ∃ body,
    (ServerLegacy.createLeadInAmoCRM E boot_env env axios_post data contactId).2
    = [Post (baseUrl ++ utf16 "/api/v4/leads") [body] token]
    ∧ body !! utf16 "pipeline_id" = None
    ∧ body !! utf16 "name"
      = (applyMapping E data (leadMapping E boot_env env)).1 !! utf16 "name".
Proof.
  intros Hurl Htoken. unfold ServerLegacy.createLeadInAmoCRM.
  rewrite Hurl, Htoken, !bind_Ok.
  exists (ServerLegacy.link_contact contactId
            (applyMapping E data (leadMapping E boot_env env)).1).
  split; [|split].
  - destruct (axios_post _) as [error|response_data]; [done|].
    by destruct (lead_id E response_data).
  - unfold ServerLegacy.link_contact. destruct (truthy contactId).
    + rewrite lookup_insert_ne by by_computation.
      by rewrite lead_pipeline_field, Hmissing.
    + by rewrite lead_pipeline_field, Hmissing.
  - unfold ServerLegacy.link_contact. destruct (truthy contactId); [|done].
    by rewrite lookup_insert_ne by by_computation.
Qed.

End Pipeline.

Lemma pipeline_unset :
  env_get env_without_pipeline "AMOCRM_PIPELINE_ID" = None.
Proof. by vm_compute. Qed.

Lemma token_set : getAmoCRMToken env_without_pipeline = Ok (utf16 "secret").
Proof. by vm_compute. Qed.

Lemma legacy_base_url :
  ServerLegacy.getAmoCRMBaseUrl env_without_pipeline
  = Ok (utf16 "https://acme.amocrm.ru").
Proof. by vm_compute. Qed.

Lemma base_url E :
  URL_hostname E (utf16 "https://acme.amocrm.ru") = Some (utf16 "acme.amocrm.ru") →
  Server.getAmoCRMBaseUrl E env_without_pipeline
  = Ok (utf16 "https://acme.amocrm.ru").
Proof. intros H. vm_compute in H. vm_compute. by rewrite H. Qed.

(** C6 on the server that links the contact through [contacts_id]:
    with the subdomain and the token set and no [AMOCRM_PIPELINE_ID],
    whatever the engine, the network and the contact, the lead is sent,
    named after the agreements and without [pipeline_id]; no error of
    configuration stops it. *)
Theorem legacy_lead_sent_without_pipeline E axios_post contactId :
  ∃ body,
    (ServerLegacy.createLeadInAmoCRM E env_without_pipeline env_without_pipeline
       axios_post (payload_of_agreements (str "Call back on Monday")) contactId).2
    = [Post (utf16 "https://acme.amocrm.ru/api/v4/leads") [body] (utf16 "secret")]
    ∧ body !! utf16 "pipeline_id" = None
    ∧ body !! utf16 "name" = Some (str "Call back on Monday").
Proof.
  destruct (createLead_legacy_sends E env_without_pipeline env_without_pipeline
              axios_post (payload_of_agreements (str "Call back on Monday")) contactId
              pipeline_unset (utf16 "https://acme.amocrm.ru") (utf16 "secret")
              legacy_base_url token_set) as (body & Hsent & Hpipeline & Hname).
  exists body. split; [exact Hsent|]. split; [exact Hpipeline|].
  rewrite Hname.
  by rewrite (lead_name_of_text E _ _ _ (utf16 "Call back on Monday")).
Qed.

(** On the same input the server that links the contact through
    [_embedded.contacts] sends nothing and throws the error of the
    missing pipeline. *)
Lemma lead_refused_without_pipeline E axios_post contactId :
  URL_hostname E (utf16 "https://acme.amocrm.ru") = Some (utf16 "acme.amocrm.ru") →
  Server.createLeadInAmoCRM E env_without_pipeline env_without_pipeline
    axios_post (payload_of_agreements (str "Call back on Monday")) contactId
  = (Throw pipeline_missing, []).
Proof.
  intros Hurl.
  apply (proj2 (createLead_requires_pipeline E env_without_pipeline
                  env_without_pipeline axios_post
                  (payload_of_agreements (str "Call back on Monday")) contactId
                  pipeline_unset)
           (utf16 "https://acme.amocrm.ru") (utf16 "secret")).
  - by apply base_url.
  - apply token_set.
  - unfold field.
    by rewrite (lead_name_of_text E _ _ _ (utf16 "Call back on Monday")).
Qed.

(** ** More of the path resolver *)

Lemma split_dot_nonempty s : split_dot s ≠ [].
Proof.
  destruct s as [|c s]; [done|]. cbn [split_dot].
  destruct (c =? 46); [done|]. by destruct (split_dot s).
Qed.

Lemma step_defined E current key v : step E current key = Ok v → v ≠ JUndefined.
Proof.
  unfold step. destruct (truthy current); [|by intros [= <-]].
  destruct (get_prop E current key) as [w|] eqn:Hw; [|done]. simpl.
  destruct w; rewrite ?Hw; by intros [= <-].
Qed.

Lemma walk_defined E current keys v :
  keys ≠ [] → walk E current keys = Ok v → v ≠ JUndefined.
Proof.
  revert current. induction keys as [|k keys IH]; intros current Hne; [done|].
  cbn [walk]. destruct (step E current k) as [next|] eqn:Hs; [|done].
  rewrite bind_Ok. destruct keys as [|k' keys].
  - intros [= <-]. by eapply step_defined.
  - by apply IH.
Qed.

(** X1.  Whatever the engine, the payload and the path,
    [getValueByPath] never returns [undefined]: a property that is
    missing, or holds [undefined], is answered by [null]. *)
Theorem getValueByPath_not_undefined E obj path :
  getValueByPath E obj path ≠ Ok JUndefined.
Proof.
  unfold getValueByPath. destruct (_ || _); [done|].
  intros H. by apply (walk_defined _ _ _ _ (split_dot_nonempty _)) in H.
Qed.

(** ** More of the mapping applier *)

Section ApplierMore.
Context (E : Engine) (webhookData : JValue).

Let store (m : gmap jsstring JValue) (entry : jsstring * FieldConfig) :=
  match stored E webhookData entry.2 with
  | Some v => assign m entry.1 v
  | None => m
  end.

(** A field of the result was there before the loop, or an entry of
    its name has stored it. *)
Lemma foldl_store_origin m mapping k v :
  foldl store m mapping !! k = Some v →
  m !! k = Some v
  ∨ (k ≠ utf16 "__proto__"
     ∧ ∃ config, (k, config) ∈ mapping ∧ stored E webhookData config = Some v).
Proof.
  revert m. induction mapping as [|[k' config] mapping IH]; intros m; [by left|].
  cbn [foldl]. intros [H|(Hk & c & Hc & Hv)]%IH.
  - unfold store in H. simpl in H.
    destruct (stored _ _ config) as [w|] eqn:Hw; [|by left].
    unfold assign in H. case_bool_decide as Hp; [by left|].
    destruct (decide (k' = k)) as [->|Hne].
    + rewrite lookup_insert_eq in H. injection H as ->.
      right. split; [done|]. exists config. split; [left | done].
    + rewrite lookup_insert_ne in H by done. by left.
  - right. split; [done|]. exists c. split; [by right | done].
Qed.




(** X2.  Every field of the result of [applyMapping] is the value that
    an entry of the mapping with that name has computed, without
    throwing: the applier invents no field and no value. *)
Theorem applyMapping_origin mapping k v :
  (applyMapping E webhookData mapping).1 !! k = Some v →
  ∃ config,
    (k, config) ∈ mapping ∧ field_value E webhookData config = Ok v.
Proof.
  rewrite applyMapping_fields.
  intros [H|(_ & config & Hc & Hv)]%foldl_store_origin; [done|].
  exists config. split; [done|]. unfold stored, kept in Hv.
  destruct (field_value _ _ _) as [w|]; [|done].
  destruct (nullish w); [done | by injection Hv as ->].
Qed.



End ApplierMore.

(** The name of the contact made of the phone. *)
Lemma applyMapping_origin_witness :
  ∃ config,
    (utf16 "name", config) ∈ contactMapping bare_engine ∅
    ∧ field_value bare_engine (payload_of_phone "79990001234") config
      = Ok (str "Контакт 79990001234").
Proof.
  apply (applyMapping_origin bare_engine (payload_of_phone "79990001234")
           (contactMapping bare_engine ∅) (utf16 "name")
           (str "Контакт 79990001234")).
  by vm_compute.
Defined.


(** ** More of the lead mapping *)

Section LeadMore.
Context (E : Engine) (boot_env env : gmap jsstring jsstring) (data : JValue).

Local Abbreviation lead := (applyMapping E data (leadMapping E boot_env env)).1.

Lemma lead_status_field :
  lead !! utf16 "status_id" = JStr <$> env_get boot_env "AMOCRM_STATUS_ID".
Proof.
  rewrite leadMapping_lookup by by_computation.
  change (kept (Ok (env_or_null boot_env "AMOCRM_STATUS_ID"))
          = JStr <$> env_get boot_env "AMOCRM_STATUS_ID").
  unfold env_or_null. by destruct (env_get _ _).
Qed.

(** X5.  The pipeline and the status of a lead are the strings that
    [AMOCRM_PIPELINE_ID] and [AMOCRM_STATUS_ID] held when [mapping.js]
    was loaded, whatever the payload and the environment of the
    request; a variable that was unset or empty leaves its field
    out. *)
Theorem lead_static_fields :
  lead !! utf16 "pipeline_id" = JStr <$> env_get boot_env "AMOCRM_PIPELINE_ID"
  ∧ lead !! utf16 "status_id" = JStr <$> env_get boot_env "AMOCRM_STATUS_ID"
  ∧ (boot_env !! utf16 "AMOCRM_STATUS_ID" = Some [] ∨
     boot_env !! utf16 "AMOCRM_STATUS_ID" = None ↔
     lead !! utf16 "status_id" = None).
Proof.
  split; [apply lead_pipeline_field|]. split; [apply lead_status_field|].
  rewrite lead_status_field. unfold env_get.
  destruct (boot_env !! utf16 "AMOCRM_STATUS_ID") as [s|]; [|by split; [|right]].
  case_bool_decide as Hs.
  - subst s. by split; [|left].
  - split; [by intros [[= ->]|?] | done].
Qed.

(** X6.  Without a text of agreements the client name comes before
    the phone in the name of the lead, and a lead with neither is named
    by the default text. *)
Theorem lead_name_from_client :
  json data = true → plain E → nullish data = false →
  blank_at data ["call"; "agreements"; "agreements"] = true →
  (∀ clientName,
     at_path data ["call"; "agreements"; "client_name"] = Some (JStr clientName) →
     clientName ≠ [] →
     lead !! utf16 "name" = Some (JStr (utf16 "Лид от AI менеджера: " ++ clientName)))
  ∧ (blank_at data ["call"; "agreements"; "client_name"] = true →
     blank_at data ["contact"; "phone"] = true →
     lead !! utf16 "name" = Some (JStr (utf16 "Лид от AI менеджера"))).
Proof.
  intros Hj Hplain Hn Ha.
  rewrite lead_name_field, walk_names by (done || by_computation).
  rewrite bind_Ok, lead_name_fallback by (done || by apply negb_true_iff in Ha).
  cbn zeta. split.
  - intros clientName Hc Hne. rewrite (picks_hit _ _ _ Hc).
    cbn [truthy ToString]. by rewrite bool_decide_eq_false_2, bind_Ok.
  - intros Hc Hp. by rewrite !picks_blank.
Qed.

(** X7.  A text of agreements that is a number is not turned into a
    string: a number other than [0] and [NaN] is the name of the lead
    as it is. *)
Theorem lead_name_of_number x :
  inherited E NumberProto length_key = JUndefined →
  at_path data ["call"; "agreements"; "agreements"] = Some (JNum x) →
  truthy (JNum x) = true →
  lead !! utf16 "name" = Some (JNum x).
Proof.
  intros Hl Hx Ht. rewrite lead_name_field.
  rewrite (payload_at_walk E _ _ _ Hx) by done.
  rewrite bind_Ok. unfold lead_name. rewrite Ht.
  cbn [length_gt get_prop proto_of own_prop default]. rewrite Hl.
  reflexivity.
Qed.

(** The first code unit of a string decides that [parseInt] reads no
    number. *)
Lemma parseInt_string_NaN c r :
  is_digit c = false → is_js_space c = false → c ≠ 45 → c ≠ 43 →
  parseInt_string (c :: r) = P_NaN.
Proof.
  intros Hd Hs Hm%N.eqb_neq Hp%N.eqb_neq. unfold parseInt_string.
  cbn [drop_while]. rewrite Hs, Hm, Hp. unfold parse_digits.
  cbn [take_while]. rewrite Hd.
  destruct r as [|x r]; [done|].
  destruct (N.eqb_spec c 48) as [->|_]; [done|]. done.
Qed.

(** X8.  A price that is a string starting with anything but a digit,
    a sign or white space, as ["$100"] or ["дорого"], gives a lead
    without [price]. *)
Theorem lead_price_not_a_number c r :
  at_path data ["call"; "agreements"; "price"] = Some (JStr (c :: r)) →
  is_digit c = false → is_js_space c = false → c ≠ 45 → c ≠ 43 →
  lead !! utf16 "price" = None.
Proof.
  intros Hprice Hd Hs Hm Hp. rewrite lead_price_field.
  rewrite (payload_at_walk E _ _ _ Hprice) by done.
  rewrite bind_Ok. unfold lead_price, parseInt. cbn [truthy ToString negb].
  rewrite bool_decide_eq_false_2 by done. cbn [negb].
  by rewrite bind_Ok, parseInt_string_NaN.
Qed.

(** X9.  A price that is a string starting with ["0x"] or ["0X"] and
    a hexadecimal digit is read in base 16: ["0x1F"] gives the price
    31. *)
Theorem lead_price_hexadecimal x r :
  x = 120 ∨ x = 88 → take_while is_hex_digit r ≠ [] →
  lead_price E (JStr (48 :: x :: r)) data
  = Ok (JNum (number_of (P_int false (hexadecimal (take_while is_hex_digit r))))).
Proof.
  intros Hx Hr. unfold lead_price, parseInt. cbn [truthy ToString negb].
  rewrite bool_decide_eq_false_2 by done. cbn [negb]. rewrite bind_Ok.
  assert (parseInt_string (48 :: x :: r)
          = P_int false (hexadecimal (take_while is_hex_digit r))) as ->.
  { unfold parseInt_string. cbn [drop_while].
    change (is_js_space 48) with false. cbn match.
    change (48 =? 45) with false. change (48 =? 43) with false. cbn match.
    unfold parse_digits. change (48 =? 48) with true.
    assert ((x =? 120) || (x =? 88) = true) as ->
      by (destruct Hx as [-> | ->]; done).
    cbn [andb]. by destruct (take_while is_hex_digit r). }
  done.
Qed.

End LeadMore.

(** An empty text of agreements with the client name ["Ivan"], and a
    payload with neither a client name nor a phone. *)
Lemma lead_name_from_client_witness :
  (applyMapping bare_engine (payload_of_agreements (str ""))
     (leadMapping bare_engine ∅ ∅)).1 !! utf16 "name"
  = Some (JStr (utf16 "Лид от AI менеджера: " ++ utf16 "Ivan"))
  ∧ (applyMapping bare_engine (payload_of_price JNull)
       (leadMapping bare_engine ∅ ∅)).1 !! utf16 "name"
    = Some (JStr (utf16 "Лид от AI менеджера")).
Proof.
  split.
  - destruct (lead_name_from_client bare_engine ∅ ∅ (payload_of_agreements (str "")))
      as [Hclient _]; [by vm_compute | apply bare_plain | by vm_compute
                      | by vm_compute |].
    apply (Hclient (utf16 "Ivan")); by vm_compute.
  - destruct (lead_name_from_client bare_engine ∅ ∅ (payload_of_price JNull))
      as [_ Hdefault]; [by vm_compute | apply bare_plain | by vm_compute
                       | by vm_compute |].
    apply Hdefault; by vm_compute.
Defined.

(** The text of agreements [5]. *)
Lemma lead_name_of_number_witness :
  (applyMapping bare_engine (payload_of_agreements (JNum 5%float))
     (leadMapping bare_engine ∅ ∅)).1 !! utf16 "name"
  = Some (JNum 5%float).
Proof.
  apply (lead_name_of_number bare_engine ∅ ∅
           (payload_of_agreements (JNum 5%float)) 5%float); by vm_compute.
Defined.

(** The price ["$100"]. *)
Lemma lead_price_not_a_number_witness :
  (applyMapping bare_engine (payload_of_price (str "$100"))
     (leadMapping bare_engine ∅ ∅)).1 !! utf16 "price" = None.
Proof.
  apply (lead_price_not_a_number bare_engine ∅ ∅ (payload_of_price (str "$100"))
           36 (utf16 "100")); by vm_compute.
Defined.

(** The price ["0x1F"]. *)
Lemma lead_price_hexadecimal_witness :
  lead_price bare_engine (JStr (48 :: 120 :: utf16 "1F")) JNull
  = Ok (JNum (number_of
                (P_int false (hexadecimal (take_while is_hex_digit (utf16 "1F"))))))
  ∧ number_of (P_int false (hexadecimal (take_while is_hex_digit (utf16 "1F"))))
    = 31%float.
Proof.
  split; [|by vm_compute].
  apply (lead_price_hexadecimal bare_engine JNull 120 (utf16 "1F"));
    [by left | by vm_compute].
Defined.

(** ** More of the custom fields *)

Lemma push_if_entry env K read make customFields customFields' :
  push_if env K read make customFields = Ok customFields' →
  ∃ w, customFields'
       = customFields
         ++ option_list (id ← env_get env K; w' ← w; Some (field_id_entry id w')).
Proof.
  unfold push_if. destruct (env_get env K) as [id|].
  - destruct read as [v|]; [|done]. rewrite bind_Ok. destruct (truthy v).
    + destruct (make v) as [w|]; [|done]. intros [= <-]. by exists (Some w).
    + intros [= <-]. exists None. by rewrite app_nil_r.
  - intros [= <-]. exists None. by rewrite app_nil_r.
Qed.

Lemma entries_of_cons env K Ks w ws :
  entries_of env (K :: Ks) (w :: ws)
  = option_list (id ← env_get env K; w' ← w; Some (field_id_entry id w'))
    ++ entries_of env Ks ws.
Proof.
  unfold entries_of. cbn [zip_with]. unfold omap. cbn [list_omap fst snd].
  by destruct (env_get env K ≫= _).
Qed.

(** Runs the blocks of a transform one after the other. *)
Ltac run_blocks H :=
  repeat match type of H with
    | (push_if ?env ?K ?r ?m ?l ≫= _) = Ok _ =>
      let Hp := fresh "Hp" in
      destruct (push_if env K r m l) eqn:Hp; [|done];
      apply push_if_entry in Hp as [? ->]; rewrite bind_Ok in H
    end.

(** X10.  The custom fields of a lead are entries of the ten variables
    [AMOCRM_..._FIELD_ID] of the lead, in the order of the blocks of
    the transform, each with the parsed id of its variable: no entry
    is made for a variable that is unset or empty, and [null] is
    returned when no entry is made. *)
Theorem lead_custom_fields_entries E env value data v :
  lead_custom_fields E env value data = Ok v →
  ∃ ws, length ws = 10%nat ∧ v = array_or_null (entries_of env lead_field_ids ws).
Proof.
  intros H. unfold lead_custom_fields in H.
  destruct (get_prop E data (utf16 "call")) as [call0|]; [|done].
  rewrite bind_Ok in H.
  destruct (get_opt E call0 (utf16 "agreements")) as [agreements0|]; [|done].
  rewrite bind_Ok in H.
  destruct (get_prop E data (utf16 "contact")) as [contact0|]; [|done].
  rewrite bind_Ok in H.
  run_blocks H. injection H as <-.
  eexists [_; _; _; _; _; _; _; _; _; _]. split; [done|].
  unfold lead_field_ids.
  rewrite !entries_of_cons. change (entries_of env [] []) with (@nil JValue).
  cbn [app]. by rewrite app_nil_r, <- !app_assoc.
Qed.

Lemma push_phone_entry E contact customFields customFields' :
  push_phone E contact customFields = Ok customFields' →
  ∃ phone : option jsstring,
    customFields'
    = customFields ++ option_list (field_code_entry "PHONE" ∘ JStr <$> phone)
    ∧ ∀ p, phone = Some p → starts_with (utf16 "+") p = true.
Proof.
  unfold push_phone.
  destruct (get_prop E contact (utf16 "phone")) as [phone|]; [|done].
  rewrite bind_Ok. destruct (truthy phone); cycle 1.
  { intros [= <-]. exists None. by rewrite app_nil_r. }
  destruct (invoke E phone Call_replace_non_digits) as [phoneFormatted|]; [|done].
  rewrite bind_Ok. destruct (truthy phoneFormatted); cycle 1.
  { intros [= <-]. exists None. by rewrite app_nil_r. }
  destruct (invoke E phoneFormatted _) as [seven|]; [|done]. rewrite bind_Ok.
  destruct (ToString E phoneFormatted) as [digits|]; [|done]. rewrite bind_Ok.
  intros [= <-]. eexists (Some _). split; [done|].
  intros p [= <-]. change (utf16 "+") with [43]. change (utf16 "+7") with [43; 55].
  by destruct (truthy seven).
Qed.

Lemma push_email_entry E contact customFields customFields' :
  push_email E contact customFields = Ok customFields' →
  ∃ email : option JValue,
    customFields'
    = customFields ++ option_list (field_code_entry "EMAIL" <$> email)
    ∧ ∀ e, email = Some e → truthy e = true.
Proof.
  unfold push_email.
  destruct (get_prop E contact (utf16 "additionalFields")) as [fields|]; [|done].
  rewrite bind_Ok.
  destruct (get_opt E fields (utf16 "email")) as [email|]; [|done].
  rewrite bind_Ok. destruct (truthy email) eqn:Ht.
  - intros [= <-]. exists (Some email). split; [done|]. by intros e [= <-].
  - intros [= <-]. exists None. by rewrite app_nil_r.
Qed.

(** X11.  The custom fields of a contact are, in this order, a
    [PHONE] entry whose value starts with ["+"], an [EMAIL] entry whose
    value is truthy, and the entries of [AMOCRM_CONTACT_COMPANY_FIELD_ID]
    and [AMOCRM_CONTACT_CITY_FIELD_ID] when they are set; each may be
    missing, and [null] is returned when all are. *)
Theorem contact_custom_fields_entries E env value data v :
  contact_custom_fields E env value data = Ok v →
  ∃ (phone : option jsstring) (email : option JValue) ws,
    length ws = 2%nat
    ∧ v = array_or_null
          (option_list (field_code_entry "PHONE" ∘ JStr <$> phone)
           ++ option_list (field_code_entry "EMAIL" <$> email)
           ++ entries_of env contact_field_ids ws)
    ∧ (∀ p, phone = Some p → starts_with (utf16 "+") p = true)
    ∧ (∀ e, email = Some e → truthy e = true).
Proof.
  intros H. unfold contact_custom_fields in H.
  destruct (get_prop E data (utf16 "contact")) as [contact0|]; [|done].
  rewrite bind_Ok in H.
  destruct (push_phone E (or_empty contact0) []) as [customFields|] eqn:Hphone;
    [|done].
  apply push_phone_entry in Hphone as (phone & -> & Hp). rewrite bind_Ok in H.
  destruct (push_email E (or_empty contact0) _) as [customFields|] eqn:Hemail;
    [|done].
  apply push_email_entry in Hemail as (email & -> & He). rewrite bind_Ok in H.
  run_blocks H. injection H as <-.
  exists phone, email. eexists [_; _]. split; [done|]. split; [|done].
  unfold contact_field_ids. rewrite !entries_of_cons.
  change (entries_of env [] []) with (@nil JValue).
  cbn [app]. by rewrite app_nil_r, <- !app_assoc.
Qed.

Lemma push_if_set env K id v customFields :
  env_get env K = Some id → truthy v = true →
  push_if env K (Ok v) Ok customFields = Ok (customFields ++ [field_id_entry id v]).
Proof. intros Hid Hv. unfold push_if. by rewrite Hid, bind_Ok, Hv. Qed.

(** The blocks that store the value they read add their entry or
    nothing. *)
Ltac later_blocks :=
  repeat first
    [ match goal with
      | H : env_get ?env ?K = None |- context [push_if ?env ?K ?r ?m ?l] =>
        rewrite (push_if_unset env K r m l H)
      end
    | match goal with
      | |- context [push_if ?env ?K (Ok ?v) Ok ?l] =>
        let more := fresh "more" in
        destruct (push_if_extends env K v l) as [more ->]
      end
    | rewrite bind_Ok ].

(** X12.  When [AMOCRM_AGREEMENTS_FIELD_ID] is set and the payload has
    a text of agreements, the first custom field of the lead is that
    text under the parsed id, provided the blocks of the duration and
    of the start of the call, which compute, are not configured. *)
Theorem lead_agreements_field E env value data id text :
  json data = true → plain E →
  env_get env "AMOCRM_AGREEMENTS_FIELD_ID" = Some id →
  env_get env "AMOCRM_CALL_DURATION_FIELD_ID" = None →
  env_get env "AMOCRM_CALL_STARTED_FIELD_ID" = None →
  at_path data ["call"; "agreements"; "agreements"] = Some text →
  truthy text = true →
  ∃ rest, lead_custom_fields E env value data
          = Ok (JArr (field_id_entry id text :: rest)).
Proof.
  intros Hj Hplain Hid Hduration Hstarted Htext Ht.
  assert (read data = true) as Hr by by destruct data.
  pose proof (at_path_not_nullish _ _ _ _ Htext) as Hn.
  unfold lead_custom_fields. reads. rewrite !pick_or_empty.
  change (pick (pick (pick data (utf16 "call")) (utf16 "agreements"))
            (utf16 "agreements"))
    with (foldl pick data (map utf16 ["call"; "agreements"; "agreements"]%string)).
  rewrite (picks_hit _ _ _ Htext).
  rewrite (push_if_set env "AMOCRM_AGREEMENTS_FIELD_ID" id text) by done.
  later_blocks. rewrite <- ?app_assoc. cbn [app array_or_null]. by eexists.
Qed.

(** The field of the agreements configured, and a text of
    agreements. *)
Lemma lead_custom_fields_entries_witness :
  ∃ ws,
    length ws = 10%nat
    ∧ JArr [field_id_entry (utf16 "101") (str "Call back on Monday")]
      = array_or_null (entries_of env_of_agreements_field lead_field_ids ws).
Proof.
  apply (lead_custom_fields_entries bare_engine env_of_agreements_field JNull
           (payload_of_agreements (str "Call back on Monday"))).
  by vm_compute.
Defined.

Lemma lead_agreements_field_witness :
  ∃ rest,
    lead_custom_fields bare_engine env_of_agreements_field JNull
      (payload_of_agreements (str "Call back on Monday"))
    = Ok (JArr (field_id_entry (utf16 "101") (str "Call back on Monday") :: rest)).
Proof.
  apply (lead_agreements_field bare_engine env_of_agreements_field JNull
           (payload_of_agreements (str "Call back on Monday")) (utf16 "101")
           (str "Call back on Monday"));
    (by vm_compute) || apply bare_plain.
Defined.

(** A phone only. *)
Lemma contact_custom_fields_entries_witness :
  ∃ (phone : option jsstring) (email : option JValue) ws,
    length ws = 2%nat
    ∧ JArr [field_code_entry "PHONE" (str "+79990001234")]
      = array_or_null
          (option_list (field_code_entry "PHONE" ∘ JStr <$> phone)
           ++ option_list (field_code_entry "EMAIL" <$> email)
           ++ entries_of ∅ contact_field_ids ws)
    ∧ (∀ p, phone = Some p → starts_with (utf16 "+") p = true)
    ∧ (∀ e, email = Some e → truthy e = true).
Proof.
  apply (contact_custom_fields_entries bare_engine ∅ JNull
           (payload_of_phone "79990001234")).
  by vm_compute.
Defined.

(** ** More of the contact mapping *)

Lemma field_value_multiple E data v f :
  field_value E data {| source := utf16 "multiple"; value := v; transform := Some f |}
  = f JNull data.
Proof.
  unfold field_value. cbn [source transform].
  rewrite bool_decide_eq_false_2 by by_computation.
  by rewrite bool_decide_eq_true_2 by by_computation.
Qed.

Lemma trim_blank s : Forall (λ c, is_js_space c = true) s → trim s = [].
Proof.
  intros Hspace. unfold trim. assert (drop_while is_js_space s = []) as ->; [|done].
  induction Hspace as [|c s Hc _ IH]; [done|]. cbn [drop_while]. by rewrite Hc.
Qed.

Section ContactMore.
Context (E : Engine) (env : gmap jsstring jsstring) (data : JValue).

Local Abbreviation contact := (applyMapping E data (contactMapping E env)).1.

Lemma contact_name_field :
  contact !! utf16 "name"
  = kept (raw ← walk E data (map utf16 ["call"; "agreements"; "client_name"]%string);
          contact_name E raw data).
Proof. rewrite contactMapping_lookup by by_computation. reflexivity. Qed.

(** A client name is trimmed. *)
Lemma contact_name_of_text s :
  at_path data ["call"; "agreements"; "client_name"] = Some (JStr s) → s ≠ [] →
  contact !! utf16 "name" = Some (JStr (trim s)).
Proof.
  intros Hs Hne. rewrite contact_name_field.
  rewrite (payload_at_walk E _ _ _ Hs) by done.
  rewrite bind_Ok. unfold contact_name. cbn [truthy].
  by rewrite bool_decide_eq_false_2 by done.
Qed.

(** X13.  A client name that is a string, and not the empty one, is
    the name of the contact once trimmed; a client name made of white
    space only gives the empty name, not the name made of the phone. *)
Theorem contact_name_trimmed s :
  at_path data ["call"; "agreements"; "client_name"] = Some (JStr s) → s ≠ [] →
  contact !! utf16 "name" = Some (JStr (trim s))
  ∧ (Forall (λ c, is_js_space c = true) s → contact !! utf16 "name" = Some (JStr [])).
Proof.
  intros Hs Hne. rewrite (contact_name_of_text s) by done.
  split; [done|]. intros Hspace. by rewrite trim_blank.
Qed.

(** X14.  Without a client name the contact is named after the phone,
    and by the default text when there is no phone either. *)
Theorem contact_name_fallback :
  json data = true → plain E → nullish data = false →
  blank_at data ["call"; "agreements"; "client_name"] = true →
  (∀ phone,
     at_path data ["contact"; "phone"] = Some (JStr phone) → phone ≠ [] →
     contact !! utf16 "name" = Some (JStr (utf16 "Контакт " ++ phone)))
  ∧ (blank_at data ["contact"; "phone"] = true →
     contact !! utf16 "name" = Some (JStr (utf16 "Контакт без имени"))).
Proof.
  intros Hj Hplain Hn Hc.
  assert (read data = true) as Hr by by destruct data.
  rewrite contact_name_field, walk_names by (done || by_computation).
  rewrite bind_Ok. unfold contact_name.
  apply negb_true_iff in Hc. rewrite Hc. reads.
  change (pick (pick data (utf16 "contact")) (utf16 "phone"))
    with (foldl pick data (map utf16 ["contact"; "phone"]%string)).
  split.
  - intros phone Hp Hne. rewrite (picks_hit _ _ _ Hp).
    cbn [truthy ToString]. by rewrite bool_decide_eq_false_2, bind_Ok.
  - intros Hp. by rewrite picks_blank.
Qed.

Lemma forallb_filter_digits s :
  forallb is_digit (filter (λ c, is_digit c = true) s) = true.
Proof.
  apply forallb_forall. intros c Hc%list_elem_of_In.
  by apply list_elem_of_filter in Hc as [Hc _].
Qed.

(** X15.  The phone value of a contact is always ["+7"] followed by
    digits only: the digits of [contact.phone], without their first
    digit when it is a ["7"], and all of them otherwise. *)
Theorem contact_phone_plus_seven s :
  json data = true → plain E →
  at_path data ["contact"; "phone"] = Some (JStr s) →
  filter (λ c, is_digit c = true) s ≠ [] →
  produces_phone (contact_custom_fields E env JNull data)
    (utf16 "+7" ++ national (filter (λ c, is_digit c = true) s))
  ∧ forallb is_digit (national (filter (λ c, is_digit c = true) s)) = true.
Proof.
  intros Hj Hplain Hs Hd.
  pose proof (contact_phone_entry E env data Hplain Hj s Hs Hd) as H.
  pose proof (forallb_filter_digits s) as Hall. cbn zeta in H. unfold national.
  destruct (filter (λ c, is_digit c = true) s) as [|c digits]; [done|].
  change (utf16 "7") with [55] in *. cbn [starts_with] in *.
  rewrite andb_true_r in *. destruct (N.eqb_spec 55 c) as [<-|Hc].
  - split; [exact H|]. cbn [forallb] in Hall. by apply andb_prop in Hall as [_ ?].
  - by split.
Qed.

(** X16.  A phone without any digit makes no phone entry: with no
    email and no identifier configured the contact has no
    [custom_fields_values]. *)
Theorem contact_phone_without_digits s :
  json data = true → plain E → no_custom_field_ids env →
  at_path data ["contact"; "phone"] = Some (JStr s) →
  filter (λ c, is_digit c = true) s = [] →
  blank_at data ["contact"; "additionalFields"; "email"] = true →
  contact !! utf16 "custom_fields_values" = None.
Proof.
  intros Hj Hplain Hno Hs Hd Hemail.
  assert (read data = true) as Hr by by destruct data.
  pose proof (at_path_not_nullish _ _ _ _ Hs) as Hn.
  rewrite contact_custom_fields_field.
  unfold contact_custom_fields, push_phone, push_email. reads.
  rewrite !pick_or_empty.
  change (pick (pick data (utf16 "contact")) (utf16 "phone"))
    with (foldl pick data (map utf16 ["contact"; "phone"]%string)).
  change (pick (pick (pick data (utf16 "contact")) (utf16 "additionalFields"))
            (utf16 "email"))
    with (foldl pick data (map utf16 ["contact"; "additionalFields"; "email"]%string)).
  rewrite (picks_hit _ _ _ Hs). cbn [invoke string_call]. rewrite Hd.
  assert ((if truthy (JStr s)
           then Ok (JStr []) ≫= λ phoneFormatted,
                  if truthy phoneFormatted
                  then seven ← invoke E phoneFormatted (Call_startsWith (utf16 "7"));
                       digits ← ToString E phoneFormatted;
                       Ok ([] ++ [field_code_entry "PHONE"
                                    (JStr (if truthy seven then utf16 "+" ++ digits
                                           else utf16 "+7" ++ digits))])
                  else Ok []
           else Ok []) = Ok []) as -> by by destruct (truthy (JStr s)).
  reads.
  change (pick (pick (pick data (utf16 "contact")) (utf16 "additionalFields"))
            (utf16 "email"))
    with (foldl pick data (map utf16 ["contact"; "additionalFields"; "email"]%string)).
  rewrite picks_blank by done. rewrite bind_Ok.
  repeat (rewrite push_if_unset, ?bind_Ok
            by (apply env_get_unset; [done | by_computation])).
  done.
Qed.

(** X17.  A phone that is a number has no method [replace]: the
    transform throws, the contact loses all its custom fields, the
    email among them, and the warning of the field is logged. *)
Theorem contact_phone_number x :
  json data = true → plain E →
  inherited E NumberProto (utf16 "replace") = JUndefined →
  at_path data ["contact"; "phone"] = Some (JNum x) → truthy (JNum x) = true →
  contact !! utf16 "custom_fields_values" = None
  ∧ ∃ detail,
      Warn (utf16 "Ошибка при обработке поля " ++ utf16 "custom_fields_values"
            ++ utf16 ":") detail
      ∈ (applyMapping E data (contactMapping E env)).2.
Proof.
  intros Hj Hplain Hreplace Hx Ht.
  assert (read data = true) as Hr by by destruct data.
  pose proof (at_path_not_nullish _ _ _ _ Hx) as Hn.
  assert (contact_custom_fields E env JNull data
          = Throw (type_error E (JNum x) (utf16 "replace"))) as Hthrow.
  { unfold contact_custom_fields, push_phone. reads. rewrite !pick_or_empty.
    change (pick (pick data (utf16 "contact")) (utf16 "phone"))
      with (foldl pick data (map utf16 ["contact"; "phone"]%string)).
    rewrite (picks_hit _ _ _ Hx), Ht.
    cbn [invoke get_prop proto_of own_prop default call_name].
    by rewrite Hreplace. }
  split.
  - by rewrite contact_custom_fields_field, Hthrow.
  - exists (message (type_error E (JNum x) (utf16 "replace"))).
    rewrite applyMapping_log. unfold contactMapping. cbn [flat_map].
    apply elem_of_app. right. unfold warned. cbn [fst snd].
    rewrite field_value_multiple, Hthrow. left.
Qed.

(** X18.  With a phone and an email, and no identifier configured,
    the custom fields of the contact are the phone entry and then the
    email entry, the email as the payload has it. *)
Theorem contact_phone_and_email s email :
  json data = true → plain E → no_custom_field_ids env →
  at_path data ["contact"; "phone"] = Some (JStr s) →
  filter (λ c, is_digit c = true) s ≠ [] →
  at_path data ["contact"; "additionalFields"; "email"] = Some email →
  truthy email = true →
  contact !! utf16 "custom_fields_values"
  = Some (JArr [field_code_entry "PHONE"
                  (JStr (let digits := filter (λ c, is_digit c = true) s in
                         if starts_with (utf16 "7") digits then utf16 "+" ++ digits
                         else utf16 "+7" ++ digits));
                field_code_entry "EMAIL" email]).
Proof.
  intros Hj Hplain Hno Hs Hd Hemail He.
  assert (read data = true) as Hr by by destruct data.
  pose proof (at_path_not_nullish _ _ _ _ Hs) as Hn.
  assert (s ≠ []) as Hne by by intros ->.
  rewrite contact_custom_fields_field.
  unfold contact_custom_fields, push_phone, push_email. reads.
  rewrite !pick_or_empty.
  change (pick (pick data (utf16 "contact")) (utf16 "phone"))
    with (foldl pick data (map utf16 ["contact"; "phone"]%string)).
  change (pick (pick (pick data (utf16 "contact")) (utf16 "additionalFields"))
            (utf16 "email"))
    with (foldl pick data (map utf16 ["contact"; "additionalFields"; "email"]%string)).
  rewrite (picks_hit _ _ _ Hs). cbn [truthy invoke string_call].
  rewrite bool_decide_eq_false_2 by done. cbn [negb]. rewrite bind_Ok.
  cbn [truthy]. rewrite bool_decide_eq_false_2 by done.
  cbn [negb invoke string_call ToString]. reads.
  change (pick (pick (pick data (utf16 "contact")) (utf16 "additionalFields"))
            (utf16 "email"))
    with (foldl pick data (map utf16 ["contact"; "additionalFields"; "email"]%string)).
  rewrite (picks_hit _ _ _ Hemail), He, bind_Ok.
  repeat (rewrite push_if_unset, ?bind_Ok
            by (apply env_get_unset; [done | by_computation])).
  cbn [truthy app array_or_null kept nullish].
  by destruct (starts_with _ _).
Qed.

End ContactMore.

(** The client names ["  Иван "] and ["   "]. *)
Lemma contact_name_trimmed_witness :
  (applyMapping bare_engine (payload_of_client "  Иван ")
     (contactMapping bare_engine ∅)).1 !! utf16 "name"
  = Some (JStr (trim (utf16 "  Иван ")))
  ∧ (applyMapping bare_engine (payload_of_client "   ")
       (contactMapping bare_engine ∅)).1 !! utf16 "name"
    = Some (JStr []).
Proof.
  split.
  - apply (proj1 (contact_name_trimmed bare_engine ∅ (payload_of_client "  Иван ")
                    (utf16 "  Иван ") ltac:(by vm_compute) ltac:(by vm_compute))).
  - apply (proj2 (contact_name_trimmed bare_engine ∅ (payload_of_client "   ")
                    (utf16 "   ") ltac:(by vm_compute) ltac:(by vm_compute))).
    by_computation.
Defined.

(** A phone without a client name, and neither of them. *)
Lemma contact_name_fallback_witness :
  (applyMapping bare_engine (payload_of_phone "79990001234")
     (contactMapping bare_engine ∅)).1 !! utf16 "name"
  = Some (JStr (utf16 "Контакт " ++ utf16 "79990001234"))
  ∧ (applyMapping bare_engine (payload_of_price JNull)
       (contactMapping bare_engine ∅)).1 !! utf16 "name"
    = Some (JStr (utf16 "Контакт без имени")).
Proof.
  split.
  - destruct (contact_name_fallback bare_engine ∅ (payload_of_phone "79990001234"))
      as [Hphone _]; [by vm_compute | apply bare_plain | by vm_compute
                     | by vm_compute |].
    apply (Hphone (utf16 "79990001234")); by vm_compute.
  - destruct (contact_name_fallback bare_engine ∅ (payload_of_price JNull))
      as [_ Hdefault]; [by vm_compute | apply bare_plain | by vm_compute
                       | by vm_compute |].
    apply Hdefault; by vm_compute.
Defined.

(** The phones ["8 (999) 000-12-34"] and ["+7 999 000-12-34"]. *)
Lemma contact_phone_plus_seven_witness :
  produces_phone
    (contact_custom_fields bare_engine ∅ JNull (payload_of_phone "8 (999) 000-12-34"))
    (utf16 "+789990001234")
  ∧ produces_phone
      (contact_custom_fields bare_engine ∅ JNull (payload_of_phone "+7 999 000-12-34"))
      (utf16 "+79990001234").
Proof.
  split.
  - destruct (contact_phone_plus_seven bare_engine ∅
                (payload_of_phone "8 (999) 000-12-34") (utf16 "8 (999) 000-12-34"))
      as [H _]; [by vm_compute | apply bare_plain | by vm_compute | by vm_compute |].
    vm_compute in H. vm_compute. exact H.
  - destruct (contact_phone_plus_seven bare_engine ∅
                (payload_of_phone "+7 999 000-12-34") (utf16 "+7 999 000-12-34"))
      as [H _]; [by vm_compute | apply bare_plain | by vm_compute | by vm_compute |].
    vm_compute in H. vm_compute. exact H.
Defined.

(** The phone ["n/a"]. *)
Lemma contact_phone_without_digits_witness :
  (applyMapping bare_engine (payload_of_phone "n/a") (contactMapping bare_engine ∅)).1
    !! utf16 "custom_fields_values" = None.
Proof.
  apply (contact_phone_without_digits bare_engine ∅ (payload_of_phone "n/a")
           (utf16 "n/a"));
    first [by vm_compute | apply bare_plain | apply no_ids_in_empty_env].
Defined.

(** The phone [79990001234], a number, with an email. *)
Lemma contact_phone_number_witness :
  (applyMapping bare_engine
     (payload_of_contact (JNum 79990001234%float) (str "ivan@example.org"))
     (contactMapping bare_engine ∅)).1 !! utf16 "custom_fields_values" = None
  ∧ ∃ detail,
      Warn (utf16 "Ошибка при обработке поля " ++ utf16 "custom_fields_values"
            ++ utf16 ":") detail
      ∈ (applyMapping bare_engine
           (payload_of_contact (JNum 79990001234%float) (str "ivan@example.org"))
           (contactMapping bare_engine ∅)).2.
Proof.
  apply (contact_phone_number bare_engine ∅
           (payload_of_contact (JNum 79990001234%float) (str "ivan@example.org"))
           79990001234%float);
    (by vm_compute) || apply bare_plain.
Defined.

(** The phone ["+7 999 000-12-34"] and an email. *)
Lemma contact_phone_and_email_witness :
  (applyMapping bare_engine
     (payload_of_contact (str "+7 999 000-12-34") (str "ivan@example.org"))
     (contactMapping bare_engine ∅)).1 !! utf16 "custom_fields_values"
  = Some (JArr [field_code_entry "PHONE"
                  (JStr (let digits :=
                           filter (λ c, is_digit c = true) (utf16 "+7 999 000-12-34") in
                         if starts_with (utf16 "7") digits then utf16 "+" ++ digits
                         else utf16 "+7" ++ digits));
                field_code_entry "EMAIL" (str "ivan@example.org")]).
Proof.
  apply (contact_phone_and_email bare_engine ∅
           (payload_of_contact (str "+7 999 000-12-34") (str "ivan@example.org"))
           (utf16 "+7 999 000-12-34") (str "ivan@example.org"));
    first [by vm_compute | apply bare_plain | apply no_ids_in_empty_env].
Defined.

(** ** The address of amoCRM *)

Lemma starts_with_app p a b :
  starts_with p a = true → starts_with p (a ++ b) = true.
Proof.
  revert a. induction p as [|c p IH]; intros [|d a]; try done.
  cbn [starts_with app]. intros [-> H]%andb_prop. by rewrite IH.
Qed.

Lemma includes_app_l a b p : includes a p = true → includes (a ++ b) p = true.
Proof.
  induction a as [|c a IH].
  - destruct p; [by destruct b | done].
  - cbn [includes app]. intros [H|H]%orb_prop.
    + change (starts_with p (c :: a ++ b)) with (starts_with p ((c :: a) ++ b)).
      by rewrite starts_with_app.
    + rewrite IH by done. apply orb_true_r.
Qed.

(** X19.  The address that the validating server builds is
    ["https://"], the subdomain and [".amocrm.ru"], where the
    subdomain is what [AMOCRM_SUBDOMAIN] keeps, once trimmed, of
    letters, digits and ["-"], and is not empty: no other character of
    the variable reaches the address. *)
Theorem base_url_is_clean E env baseUrl :
  Server.getAmoCRMBaseUrl E env = Ok baseUrl →
  ∃ subdomain clean,
    env !! utf16 "AMOCRM_SUBDOMAIN" = Some subdomain
    ∧ clean = filter (λ c, Server.is_subdomain_char c = true) (trim subdomain)
    ∧ clean ≠ []
    ∧ Forall (λ c, Server.is_subdomain_char c = true) clean
    ∧ baseUrl = utf16 "https://" ++ clean ++ utf16 ".amocrm.ru".
Proof.
  unfold Server.getAmoCRMBaseUrl, env_get.
  destruct (env !! utf16 "AMOCRM_SUBDOMAIN") as [subdomain|]; [|done].
  case_bool_decide; [done|]. case_bool_decide; [done|].
  case_bool_decide as Hclean; [done|].
  destruct (URL_hostname E _) as [hostname|]; [|done].
  destruct (_ && _); [|done]. intros [= <-].
  exists subdomain, (filter (λ c, Server.is_subdomain_char c = true) (trim subdomain)).
  repeat split; try done.
  apply Forall_forall. intros c Hc. by apply list_elem_of_filter in Hc as [Hc _].
Qed.

(** The subdomain [" my_company/ "]. *)
Lemma base_url_is_clean_witness :
  ∃ subdomain clean,
    env_of_dirty_subdomain !! utf16 "AMOCRM_SUBDOMAIN" = Some subdomain
    ∧ clean = filter (λ c, Server.is_subdomain_char c = true) (trim subdomain)
    ∧ clean ≠ []
    ∧ Forall (λ c, Server.is_subdomain_char c = true) clean
    ∧ utf16 "https://mycompany.amocrm.ru"
      = utf16 "https://" ++ clean ++ utf16 ".amocrm.ru".
Proof.
  apply (base_url_is_clean bare_engine env_of_dirty_subdomain
           (utf16 "https://mycompany.amocrm.ru")).
  by vm_compute.
Defined.

Lemma thrown_message {A} (m : jsstring) (e : exn) :
  @Throw A (Error m) = Throw e → message e = m.
Proof. by intros [= <-]. Qed.

(** Every error of [getAmoCRMBaseUrl] in the validating server has
    ["Invalid URL"] in its message, which is what the handler of the
    webhook looks for to answer 400. *)
Lemma base_url_error_message E env e :
  Server.getAmoCRMBaseUrl E env = Throw e →
  includes (message e) (utf16 "Invalid URL") = true.
Proof.
  unfold Server.getAmoCRMBaseUrl.
  destruct (env_get env "AMOCRM_SUBDOMAIN") as [subdomain|];
    [|intros ->%thrown_message; by vm_compute].
  case_bool_decide; [intros ->%thrown_message; by vm_compute|].
  case_bool_decide; [intros ->%thrown_message; by vm_compute|].
  assert (includes
            (utf16 "Ошибка при отправке вебхука: Invalid URL - некорректный формат URL для amoCRM: ")
            (utf16 "Invalid URL") = true) as Hprefix by by vm_compute.
  destruct (URL_hostname E _) as [hostname|];
    [destruct (_ && _); [done|]|];
    intros ->%thrown_message; rewrite <- app_assoc; by apply includes_app_l.
Qed.

(** ** What the validating server sends *)

Lemma to_integer_other E k complaint m m' k' :
  Server.to_integer E k complaint m = Ok m' → k' ≠ utf16 k → m' !! k' = m !! k'.
Proof.
  unfold Server.to_integer. destruct (truthy (field m k)); [|by intros [= <-]].
  destruct (parseInt E (field m k)) as [n|]; [|done]. rewrite bind_Ok.
  destruct (isNaN n); [done|]. intros [= <-] Hk. by rewrite lookup_insert_ne.
Qed.

Lemma to_integer_parsed E k complaint m m' s :
  Server.to_integer E k complaint m = Ok m' → m !! utf16 k = Some (JStr s) →
  s ≠ [] →
  isNaN (parseInt_string s) = false
  ∧ m' !! utf16 k = Some (JNum (number_of (parseInt_string s))).
Proof.
  unfold Server.to_integer, field. intros H Hs Hne. rewrite Hs in H.
  cbn [from_option id truthy parseInt ToString] in H.
  rewrite bool_decide_eq_false_2 in H by done. cbn [negb] in H.
  change (parseInt E (JStr s)) with (Ok (parseInt_string s)) in H.
  rewrite bind_Ok in H. destruct (isNaN (parseInt_string s)); [done|].
  injection H as <-. by rewrite lookup_insert_eq.
Qed.

Lemma link_contact_other E contactId m m' k' :
  Server.link_contact E contactId m = Ok m' → k' ≠ utf16 "_embedded" →
  m' !! k' = m !! k'.
Proof.
  unfold Server.link_contact. destruct (truthy contactId); [|by intros [= <-]].
  destruct (Server.positive_number E _) as [[]|]; [| |done]; rewrite bind_Ok;
    intros [= <-] Hk; [by rewrite lookup_insert_ne | done].
Qed.

Lemma env_get_not_empty env K s : env_get env K = Some s → s ≠ [].
Proof.
  unfold env_get. destruct (env !! utf16 K) as [s'|]; [|done].
  case_bool_decide; [done|]. by intros [= <-].
Qed.

(** The body that passes the checks of [createLeadInAmoCRM]. *)
Lemma lead_request_valid E boot_env env data contactId baseUrl token leadData :
  Server.lead_request E boot_env env data contactId = Ok (baseUrl, token, leadData) →
  Server.getAmoCRMBaseUrl E env = Ok baseUrl
  ∧ getAmoCRMToken env = Ok token
  ∧ ∃ body pipeline,
      leadData = [body]
      ∧ env_get boot_env "AMOCRM_PIPELINE_ID" = Some pipeline
      ∧ isNaN (parseInt_string pipeline) = false
      ∧ body !! utf16 "pipeline_id"
        = Some (JNum (number_of (parseInt_string pipeline)))
      ∧ body !! utf16 "name"
        = (applyMapping E data (leadMapping E boot_env env)).1 !! utf16 "name"
      ∧ truthy (field body "name") = true.
Proof.
  unfold Server.lead_request.
  destruct (Server.getAmoCRMBaseUrl E env) as [baseUrl'|]; [|done].
  destruct (getAmoCRMToken env) as [token'|]; [|done]. rewrite !bind_Ok.
  destruct (truthy (field _ "name")) eqn:Hname; [|done]. cbn [negb].
  destruct (truthy (field _ "pipeline_id")) eqn:Hpipeline; [|done]. cbn [negb].
  destruct (Server.to_integer E "pipeline_id" _ _) as [fields1|] eqn:H1; [|done].
  rewrite bind_Ok.
  destruct (Server.to_integer E "status_id" _ _) as [fields2|] eqn:H2; [|done].
  rewrite bind_Ok.
  destruct (Server.link_contact E contactId fields2) as [body|] eqn:H3; [|done].
  rewrite bind_Ok. intros [= <- <- <-]. split; [done|]. split; [done|].
  unfold field in Hpipeline. rewrite lead_pipeline_field in Hpipeline.
  destruct (env_get boot_env "AMOCRM_PIPELINE_ID") as [pipeline|] eqn:Hp; [|done].
  destruct (to_integer_parsed _ _ _ _ _ pipeline H1) as [Hnan Hid];
    [by rewrite lead_pipeline_field, Hp | by eapply env_get_not_empty |].
  assert (body !! utf16 "name"
          = (applyMapping E data (leadMapping E boot_env env)).1 !! utf16 "name")
    as Hbody.
  { rewrite (link_contact_other _ _ _ _ _ H3) by by_computation.
    rewrite (to_integer_other _ _ _ _ _ _ H2) by by_computation.
    by rewrite (to_integer_other _ _ _ _ _ _ H1) by by_computation. }
  exists body, pipeline. repeat split; try done.
  - rewrite (link_contact_other _ _ _ _ _ H3) by by_computation.
    by rewrite (to_integer_other _ _ _ _ _ _ H2) by by_computation.
  - unfold field. by rewrite Hbody.
Qed.

(** X20.  Whatever the engine, the network and the payload, the
    validating server sends one request at most for a lead, and the
    lead it sends has a truthy name, the one the mapping gave, and as
    [pipeline_id] the number that [parseInt] reads in the
    [AMOCRM_PIPELINE_ID] of the load of [mapping.js], which is not
    [NaN]. *)
Theorem sent_lead_is_valid E boot_env env axios_post data contactId :
  (Server.createLeadInAmoCRM E boot_env env axios_post data contactId).2 = []
  ∨ ∃ baseUrl token body pipeline,
      (Server.createLeadInAmoCRM E boot_env env axios_post data contactId).2
      = [Post (baseUrl ++ utf16 "/api/v4/leads") [body] token]
      ∧ Server.getAmoCRMBaseUrl E env = Ok baseUrl
      ∧ getAmoCRMToken env = Ok token
      ∧ env_get boot_env "AMOCRM_PIPELINE_ID" = Some pipeline
      ∧ isNaN (parseInt_string pipeline) = false
      ∧ body !! utf16 "pipeline_id"
        = Some (JNum (number_of (parseInt_string pipeline)))
      ∧ body !! utf16 "name"
        = (applyMapping E data (leadMapping E boot_env env)).1 !! utf16 "name"
      ∧ truthy (field body "name") = true.
Proof.
  unfold Server.createLeadInAmoCRM.
  destruct (Server.lead_request E boot_env env data contactId)
    as [[[baseUrl token] leadData]|] eqn:Hreq; [|by left].
  apply lead_request_valid in Hreq
    as (Hurl & Htoken & body & pipeline & -> & Hrest).
  destruct (URL_hostname E _); [|by left]. right.
  exists baseUrl, token, body, pipeline. split; [|done].
  destruct (axios_post _) as [error|response_data]; [done|].
  by destruct (lead_id E response_data).
Qed.

(** ** The handlers *)

Section Handlers.
Context (E : Engine) (boot_env env : gmap jsstring jsstring).
Context (axios_post : request → failure + JValue).
Context (JSON_parse : jsstring → result JValue) (error_details : exn → JValue).

Local Abbreviation webhook := (Server.webhook E boot_env env axios_post JSON_parse error_details).
Local Abbreviation legacy_webhook := (ServerLegacy.webhook E boot_env env axios_post JSON_parse).

Lemma webhook_passes signature payload data :
  passes E env JSON_parse signature payload data →
  webhook signature payload
  = Server.webhook_contact E boot_env env axios_post error_details data.
Proof.
  intros (Hs & [secret Hsecret] & Hp & Hparse & Hd & Hk & Hc).
  unfold Server.webhook. rewrite Hs, Hsecret, Hparse, Hd, Hk, Hc.
  by rewrite bool_decide_eq_false_2.
Qed.

Lemma legacy_webhook_passes signature payload data :
  passes E env JSON_parse signature payload data →
  legacy_webhook signature payload
  = ServerLegacy.deliver E boot_env env axios_post "Сделка успешно создана в amoCRM" data.
Proof.
  intros (Hs & [secret Hsecret] & Hp & Hparse & Hd & Hk & Hc).
  unfold ServerLegacy.webhook. rewrite Hs, Hsecret, Hparse, Hd, Hk, Hc.
  by rewrite bool_decide_eq_false_2.
Qed.

Lemma critical_status error :
  status_of (Server.critical env error_details error)
  = if includes (message error) (utf16 "Invalid URL") then 400%nat else 500%nat.
Proof.
  unfold Server.critical, status_of.
  destruct (includes (message error) (utf16 "Invalid URL")); [done|].
  by destruct (includes (message error) _).
Qed.

Lemma critical_not_success error :
  status_of (Server.critical env error_details error) ≠ 200%nat.
Proof. rewrite critical_status. by destruct (includes _ _). Qed.

(** The handler lets the request in, or answers without sending
    anything. *)
Lemma webhook_cases signature payload :
  (∃ data, passes E env JSON_parse signature payload data)
  ∨ ((webhook signature payload).2 = []
     ∧ status_of (webhook signature payload).1 ≠ 200%nat).
Proof.
  unfold Server.webhook, passes.
  destruct (truthy signature); [|by right]. cbn [negb].
  destruct (env_get env "WEBHOOK_SECRET") as [secret|]; [|by right].
  case_bool_decide as Hp; [by right|].
  destruct (JSON_parse payload) as [data|] eqn:Hparse; [|by right].
  destruct (truthy data) eqn:Hd; cbn [negb orb]; [|by right].
  destruct (no_keys data) eqn:Hk; [by right|].
  destruct (lacks_contact_or_call E data) as [[]|error] eqn:Hc; [by right| |].
  - left. exists data. repeat split; (done || by eexists).
  - right. split; [done|]. apply critical_not_success.
Qed.

Lemma legacy_webhook_cases signature payload :
  (∃ data, passes E env JSON_parse signature payload data)
  ∨ ((legacy_webhook signature payload).2 = []
     ∧ status_of (legacy_webhook signature payload).1 ≠ 200%nat).
Proof.
  unfold ServerLegacy.webhook, passes.
  destruct (truthy signature); [|by right]. cbn [negb].
  destruct (env_get env "WEBHOOK_SECRET") as [secret|]; [|by right].
  case_bool_decide as Hp; [by right|].
  destruct (JSON_parse payload) as [data|] eqn:Hparse; [|by right].
  destruct (truthy data) eqn:Hd; cbn [negb orb]; [|by right].
  destruct (no_keys data) eqn:Hk; [by right|].
  destruct (lacks_contact_or_call E data) as [[]|error] eqn:Hc;
    [by right| |by right].
  left. exists data. repeat split; (done || by eexists).
Qed.

Lemma webhook_sent_passes signature payload :
  (webhook signature payload).2 ≠ [] →
  ∃ data, passes E env JSON_parse signature payload data.
Proof. by destruct (webhook_cases signature payload) as [?|[? _]]. Qed.

(** The requests of the two functions are sent with the address and
    the token in hand. *)
Lemma contact_sent_configured data :
  (Server.createOrUpdateContactInAmoCRM E env axios_post data).2 ≠ [] →
  ∃ baseUrl token,
    Server.getAmoCRMBaseUrl E env = Ok baseUrl ∧ getAmoCRMToken env = Ok token.
Proof.
  unfold Server.createOrUpdateContactInAmoCRM, Server.contact_request.
  destruct (Server.getAmoCRMBaseUrl E env) as [baseUrl|]; [|done].
  destruct (getAmoCRMToken env) as [token|]; [|done]. by eexists _, _.
Qed.

Lemma lead_sent_configured data contactId :
  (Server.createLeadInAmoCRM E boot_env env axios_post data contactId).2 ≠ [] →
  ∃ baseUrl token,
    Server.getAmoCRMBaseUrl E env = Ok baseUrl ∧ getAmoCRMToken env = Ok token.
Proof.
  unfold Server.createLeadInAmoCRM, Server.lead_request.
  destruct (Server.getAmoCRMBaseUrl E env) as [baseUrl|]; [|done].
  destruct (getAmoCRMToken env) as [token|]; [|done]. by eexists _, _.
Qed.

Lemma webhook_lead_sent data contactId sent :
  (Server.webhook_lead E boot_env env axios_post error_details data contactId sent).2
  = sent ++ (Server.createLeadInAmoCRM E boot_env env axios_post data contactId).2.
Proof.
  unfold Server.webhook_lead.
  destruct (Server.createLeadInAmoCRM _ _ _ _ _ _) as [[result|error] sent'];
    [done|]. by destruct (includes _ _).
Qed.

(** X21.  The handler of the validating server sends nothing to
    amoCRM unless the request has a signature, the secret is
    configured, the body parses to data with a truthy [contact] and a
    truthy [call], and the subdomain and the token are configured. *)
Theorem webhook_sends_after_checks signature payload :
  (webhook signature payload).2 ≠ [] →
  ∃ data baseUrl token,
    passes E env JSON_parse signature payload data
    ∧ Server.getAmoCRMBaseUrl E env = Ok baseUrl
    ∧ getAmoCRMToken env = Ok token.
Proof.
  intros Hsent. destruct (webhook_sent_passes _ _ Hsent) as [data Hpass].
  rewrite (webhook_passes _ _ _ Hpass) in Hsent.
  assert (∃ baseUrl token,
            Server.getAmoCRMBaseUrl E env = Ok baseUrl
            ∧ getAmoCRMToken env = Ok token) as (baseUrl & token & ? & ?);
    [|by exists data, baseUrl, token].
  unfold Server.webhook_contact in Hsent.
  destruct (Server.createOrUpdateContactInAmoCRM E env axios_post data)
    as [contactResult sent] eqn:Hcontact.
  destruct sent as [|r sent].
  - destruct contactResult as [contactResult|error].
    + rewrite webhook_lead_sent in Hsent. by eapply lead_sent_configured.
    + destruct (_ || _); [done|].
      rewrite webhook_lead_sent in Hsent. by eapply lead_sent_configured.
  - apply (contact_sent_configured data). by rewrite Hcontact.
Qed.

(** X22.  Neither handler looks at the signature beyond its presence,
    nor at the secret: two signatures that are not empty get the same
    answer and the same requests are sent. *)
Theorem webhook_ignores_signature signature signature' payload :
  truthy signature = true → truthy signature' = true →
  webhook signature payload = webhook signature' payload
  ∧ legacy_webhook signature payload = legacy_webhook signature' payload.
Proof.
  intros H H'. unfold Server.webhook, ServerLegacy.webhook. by rewrite H, H'.
Qed.


Lemma token_error_message e :
  getAmoCRMToken env = Throw e →
  includes (message e) (utf16 "не установлен") = true.
Proof.
  unfold getAmoCRMToken. destruct (env_get env _); [done|].
  intros ->%thrown_message. by vm_compute.
Qed.

(** X23.  When the subdomain or the token is not configured, the
    handler of the validating server answers a request that passes its
    checks with the status 400 and the message of the error, and
    sends nothing. *)
Theorem webhook_not_configured signature payload data e :
  passes E env JSON_parse signature payload data →
  Server.getAmoCRMBaseUrl E env = Throw e
  ∨ ((∃ baseUrl, Server.getAmoCRMBaseUrl E env = Ok baseUrl)
     ∧ getAmoCRMToken env = Throw e) →
  webhook signature payload = (Json 400 (refused_with e), []).
Proof.
  intros Hpass Hconfig. rewrite (webhook_passes _ _ _ Hpass).
  unfold Server.webhook_contact, Server.createOrUpdateContactInAmoCRM,
    Server.contact_request.
  destruct Hconfig as [Hurl|[[baseUrl Hurl] Htoken]].
  - rewrite Hurl. cbn [mbind result_bind].
    by rewrite (base_url_error_message _ _ _ Hurl).
  - rewrite Hurl, Htoken. cbn [mbind result_bind].
    by rewrite (token_error_message _ Htoken), orb_true_r.
Qed.

Lemma contact_created_configured data contactResult sent :
  Server.createOrUpdateContactInAmoCRM E env axios_post data = (Ok contactResult, sent) →
  ∃ baseUrl token,
    Server.getAmoCRMBaseUrl E env = Ok baseUrl ∧ getAmoCRMToken env = Ok token.
Proof.
  unfold Server.createOrUpdateContactInAmoCRM, Server.contact_request.
  destruct (Server.getAmoCRMBaseUrl E env) as [baseUrl|]; [|done].
  destruct (getAmoCRMToken env) as [token|]; [|done]. by eexists _, _.
Qed.

(** X24.  Without [AMOCRM_PIPELINE_ID] the handler of the validating
    server never answers with success and never sends a lead, but the
    contact is sent before the lead is refused: the requests are those
    of the contact, and when the contact has been created and the lead
    has a name the answer is the error of the missing pipeline, with
    the status 500. *)
Theorem webhook_without_pipeline signature payload data :
  passes E env JSON_parse signature payload data →
  env_get boot_env "AMOCRM_PIPELINE_ID" = None →
  (webhook signature payload).2
  = (Server.createOrUpdateContactInAmoCRM E env axios_post data).2
  ∧ status_of (webhook signature payload).1 ≠ 200%nat
  ∧ (∀ contactResult sent,
       Server.createOrUpdateContactInAmoCRM E env axios_post data
       = (Ok contactResult, sent) →
       truthy (field (applyMapping E data (leadMapping E boot_env env)).1 "name")
       = true →
       (webhook signature payload).1
       = Server.critical env error_details pipeline_missing
       ∧ status_of (webhook signature payload).1 = 500%nat).
Proof.
  intros Hpass Hmissing. rewrite (webhook_passes _ _ _ Hpass).
  assert (∀ contactId sent,
            Server.webhook_lead E boot_env env axios_post error_details data
              contactId sent
            = (match Server.createLeadInAmoCRM E boot_env env axios_post data contactId
               with
               | (Throw error, _) =>
                 if includes (message error) (utf16 "Invalid URL")
                 then Json 400 (refused_with error)
                 else Server.critical env error_details error
               | (Ok _, _) => Json 200 JNull
               end, sent)) as Hlead.
  { intros contactId sent. unfold Server.webhook_lead.
    destruct (createLead_requires_pipeline E boot_env env axios_post data contactId
                Hmissing) as [[e ->] _].
    rewrite app_nil_r. by destruct (includes _ _). }
  assert (∀ contactId sent,
            status_of (Server.webhook_lead E boot_env env axios_post error_details
                         data contactId sent).1 ≠ 200%nat) as Hstatus.
  { intros contactId sent. rewrite Hlead.
    destruct (createLead_requires_pipeline E boot_env env axios_post data contactId
                Hmissing) as [[e ->] _].
    cbn [fst]. destruct (includes _ _); [done | apply critical_not_success]. }
  unfold Server.webhook_contact.
  destruct (Server.createOrUpdateContactInAmoCRM E env axios_post data)
    as [[contactResult|error] sent] eqn:Hcontact.
  - split; [by rewrite Hlead|]. split; [apply Hstatus|].
    intros ? ? [= <- <-] Hname.
    destruct (contact_created_configured _ _ _ Hcontact)
      as (baseUrl & token & Hurl & Htoken).
    rewrite Hlead.
    rewrite (proj2 (createLead_requires_pipeline E boot_env env axios_post data
                      (contactId contactResult) Hmissing) baseUrl token Hurl Htoken Hname).
    cbn [fst].
    assert (includes (message pipeline_missing) (utf16 "Invalid URL") = false)
      as Hmessage by by vm_compute.
    by rewrite Hmessage, critical_status, Hmessage.
  - destruct (_ || _).
    + by repeat split.
    + split; [by rewrite Hlead|]. split; [apply Hstatus | done].
Qed.

Lemma fail_throws {A} (error : failure) : ∃ e, @Server.fail E A error = Throw e.
Proof. unfold Server.fail. destruct (Server.rethrown E error); by eexists. Qed.

(** A lead is created when the request has been sent and answered. *)
Lemma lead_created data contactId result sent :
  Server.createLeadInAmoCRM E boot_env env axios_post data contactId
  = (Ok result, sent) →
  ∃ baseUrl token leadBody,
    sent = [Post (baseUrl ++ utf16 "/api/v4/leads") [leadBody] token]
    ∧ axios_post (Post (baseUrl ++ utf16 "/api/v4/leads") [leadBody] token)
      = inr (response result)
    ∧ lead_id E (response result) = Ok (leadId result).
Proof.
  unfold Server.createLeadInAmoCRM.
  destruct (Server.lead_request E boot_env env data contactId)
    as [[[baseUrl token] leadData]|] eqn:Hreq; [|done].
  apply lead_request_valid in Hreq as (_ & _ & leadBody & pipeline & -> & _).
  destruct (URL_hostname E _).
  - destruct (axios_post _) as [error|response_data] eqn:Hpost.
    + by destruct (fail_throws (A:=created) error) as [e ->].
    + destruct (lead_id E response_data) as [id|e'] eqn:Hid.
      * intros [= <- <-]. by exists baseUrl, token, leadBody.
      * by destruct (fail_throws (A:=created) (failure_of_exn e')) as [e ->].
  - by destruct (fail_throws (A:=created)
                   (failure_of_exn
                      (Error (utf16 "Invalid URL: " ++ baseUrl ++ utf16 "/api/v4/leads"))))
      as [e ->].
Qed.

(** X25.  When the handler of the validating server answers with
    success, the request had passed its checks, the last request sent
    is the lead, amoCRM has answered it without error, and the answer
    of the handler carries the id and the data of that answer. *)
Theorem webhook_success signature payload body :
  (webhook signature payload).1 = Json 200 body →
  ∃ data contactId baseUrl token leadBody result,
    passes E env JSON_parse signature payload data
    ∧ last (webhook signature payload).2
      = Some (Post (baseUrl ++ utf16 "/api/v4/leads") [leadBody] token)
    ∧ axios_post (Post (baseUrl ++ utf16 "/api/v4/leads") [leadBody] token)
      = inr (response result)
    ∧ lead_id E (response result) = Ok (leadId result)
    ∧ body = accepted "Сделка успешно создана в amoCRM" result contactId.
Proof.
  intros Hbody.
  destruct (webhook_cases signature payload) as [[data Hpass]|[_ Hstatus]];
    [|by rewrite Hbody in Hstatus].
  rewrite (webhook_passes _ _ _ Hpass) in Hbody |- *.
  assert (∀ contactId sent,
            (Server.webhook_lead E boot_env env axios_post error_details data
               contactId sent).1 = Json 200 body →
            ∃ baseUrl token leadBody result,
              last (Server.webhook_lead E boot_env env axios_post error_details data
                      contactId sent).2
              = Some (Post (baseUrl ++ utf16 "/api/v4/leads") [leadBody] token)
              ∧ axios_post (Post (baseUrl ++ utf16 "/api/v4/leads") [leadBody] token)
                = inr (response result)
              ∧ lead_id E (response result) = Ok (leadId result)
              ∧ body = accepted "Сделка успешно создана в amoCRM" result contactId)
    as Hlead.
  { intros contactId sent. unfold Server.webhook_lead.
    destruct (Server.createLeadInAmoCRM E boot_env env axios_post data contactId)
      as [[result|error] sent'] eqn:Hcreate.
    - intros [= <-].
      destruct (lead_created _ _ _ _ Hcreate)
        as (baseUrl & token & leadBody & -> & Hpost & Hid).
      exists baseUrl, token, leadBody, result. cbn [snd]. by rewrite last_snoc.
    - destruct (includes _ _); [done|]. cbn [fst]. intros H.
      pose proof (critical_not_success error) as Hs. by rewrite H in Hs. }
  unfold Server.webhook_contact in Hbody |- *.
  destruct (Server.createOrUpdateContactInAmoCRM E env axios_post data)
    as [[contactResult|error] sent].
  - destruct (Hlead _ _ Hbody) as (baseUrl & token & leadBody & result & H).
    by exists data, (contactId contactResult), baseUrl, token, leadBody, result.
  - destruct (_ || _); [done|].
    destruct (Hlead _ _ Hbody) as (baseUrl & token & leadBody & result & H).
    by exists data, JNull, baseUrl, token, leadBody, result.
Qed.

(** X29.  The test endpoint of the validating server asks for no
    signature and no secret either: on the data of a request that the
    webhook lets in, and whose contact is created, it sends the
    requests that the webhook sends. *)
Theorem test_lead_unsigned_validating signature payload data contactResult sent :
  passes E env JSON_parse signature payload data → is_object data = true →
  Server.createOrUpdateContactInAmoCRM E env axios_post data = (Ok contactResult, sent) →
  (Server.test_lead E boot_env env axios_post data).2
  = (Server.webhook E boot_env env axios_post JSON_parse error_details
       signature payload).2.
Proof.
  intros Hpass Hobject Hcontact. rewrite (webhook_passes _ _ _ Hpass).
  destruct Hpass as (_ & _ & _ & _ & Hd & _ & Hc).
  unfold Server.test_lead, Server.webhook_contact.
  rewrite Hd, Hobject, Hc, Hcontact, webhook_lead_sent. cbn [negb orb].
  by destruct (Server.createLeadInAmoCRM _ _ _ _ _ _) as [[result|error] sent'].
Qed.

End Handlers.

Section Contacts.
Context (E : Engine) (boot_env env : gmap jsstring jsstring).
Context (axios_post : request → failure + JValue).
Context (JSON_parse : jsstring → result JValue).

(** X26.  A client name made of white space only leaves the contact
    without a name: the validating server refuses the contact before
    any request, where the other server sends a contact whose name is
    the empty string. *)
Theorem contact_requires_name data s baseUrl token :
  Server.getAmoCRMBaseUrl E env = Ok baseUrl → getAmoCRMToken env = Ok token →
  at_path data ["call"; "agreements"; "client_name"] = Some (JStr s) → s ≠ [] →
  Forall (λ c, is_js_space c = true) s →
  Server.createOrUpdateContactInAmoCRM E env axios_post data
  = (Throw (Error (utf16 "Не удалось создать название контакта. Проверьте данные вебхука.")),
     [])
  ∧ (∀ legacyUrl,
       ServerLegacy.getAmoCRMBaseUrl env = Ok legacyUrl →
       ∃ body,
         (ServerLegacy.createOrUpdateContactInAmoCRM E env axios_post data).2
         = [Post (legacyUrl ++ utf16 "/api/v4/contacts") [body] token]
         ∧ body !! utf16 "name" = Some (JStr [])).
Proof.
  intros Hurl Htoken Hs Hne Hspace.
  pose proof (contact_name_of_text E env data s Hs Hne) as Hname.
  rewrite trim_blank in Hname by done. split.
  - unfold Server.createOrUpdateContactInAmoCRM, Server.contact_request.
    rewrite Hurl, Htoken, !bind_Ok. unfold field. by rewrite Hname.
  - intros legacyUrl Hlegacy. unfold ServerLegacy.createOrUpdateContactInAmoCRM.
    rewrite Hlegacy, Htoken, !bind_Ok.
    exists (applyMapping E data (contactMapping E env)).1. split; [|done].
    destruct (axios_post _) as [error|response_data]; [done|].
    by destruct (contact_id E response_data).
Qed.

(** X27.  The test endpoint of the server that does not validate does
    what its webhook does, without any signature or secret: on the
    data of a request that the webhook lets in, it sends the same
    requests and answers with the same status. *)
Theorem test_lead_unsigned signature payload data :
  passes E env JSON_parse signature payload data → is_object data = true →
  (ServerLegacy.test_lead E boot_env env axios_post data).2
  = (ServerLegacy.webhook E boot_env env axios_post JSON_parse signature payload).2
  ∧ status_of (ServerLegacy.test_lead E boot_env env axios_post data).1
    = status_of
        (ServerLegacy.webhook E boot_env env axios_post JSON_parse signature payload).1.
Proof.
  intros Hpass Hobject. rewrite (legacy_webhook_passes _ _ _ _ _ _ _ _ Hpass).
  destruct Hpass as (_ & _ & _ & _ & Hd & _ & Hc).
  unfold ServerLegacy.test_lead. rewrite Hd, Hobject, Hc. cbn [negb orb].
  unfold ServerLegacy.deliver.
  destruct (ServerLegacy.createOrUpdateContactInAmoCRM E env axios_post data)
    as [contactResult sent].
  destruct (ServerLegacy.createLeadInAmoCRM _ _ _ _ _ _) as [[result|error] sent'];
    cbn [fst snd status_of internal_error]; by split.
Qed.

Lemma legacy_contact_sent_configured data :
  (ServerLegacy.createOrUpdateContactInAmoCRM E env axios_post data).2 ≠ [] →
  ∃ baseUrl token,
    ServerLegacy.getAmoCRMBaseUrl env = Ok baseUrl ∧ getAmoCRMToken env = Ok token.
Proof.
  unfold ServerLegacy.createOrUpdateContactInAmoCRM.
  destruct (ServerLegacy.getAmoCRMBaseUrl env) as [baseUrl|]; [|done].
  destruct (getAmoCRMToken env) as [token|]; [|done]. by eexists _, _.
Qed.

Lemma legacy_lead_sent_configured data contactId :
  (ServerLegacy.createLeadInAmoCRM E boot_env env axios_post data contactId).2 ≠ [] →
  ∃ baseUrl token,
    ServerLegacy.getAmoCRMBaseUrl env = Ok baseUrl ∧ getAmoCRMToken env = Ok token.
Proof.
  unfold ServerLegacy.createLeadInAmoCRM.
  destruct (ServerLegacy.getAmoCRMBaseUrl env) as [baseUrl|]; [|done].
  destruct (getAmoCRMToken env) as [token|]; [|done]. by eexists _, _.
Qed.

(** X28.  The handler of the server that does not validate sends
    nothing to amoCRM either unless the request has a signature, the
    secret is configured, the body parses to data with a truthy
    [contact] and a truthy [call], and the subdomain and the token are
    set. *)
Theorem legacy_webhook_sends_after_checks signature payload :
  (ServerLegacy.webhook E boot_env env axios_post JSON_parse signature payload).2 ≠ [] →
  ∃ data baseUrl token,
    passes E env JSON_parse signature payload data
    ∧ ServerLegacy.getAmoCRMBaseUrl env = Ok baseUrl
    ∧ getAmoCRMToken env = Ok token.
Proof.
  intros Hsent.
  destruct (legacy_webhook_cases E boot_env env axios_post JSON_parse signature payload)
    as [[data Hpass]|[? _]]; [|done].
  rewrite (legacy_webhook_passes _ _ _ _ _ _ _ _ Hpass) in Hsent.
  assert (∃ baseUrl token,
            ServerLegacy.getAmoCRMBaseUrl env = Ok baseUrl
            ∧ getAmoCRMToken env = Ok token) as (baseUrl & token & ? & ?);
    [|by exists data, baseUrl, token].
  unfold ServerLegacy.deliver in Hsent.
  destruct (ServerLegacy.createOrUpdateContactInAmoCRM E env axios_post data)
    as [contactResult sent] eqn:Hcontact.
  destruct sent as [|r sent].
  - destruct (ServerLegacy.createLeadInAmoCRM _ _ _ _ _ _)
      as [result sent'] eqn:Hlead.
    apply (legacy_lead_sent_configured data
             match contactResult with
             | Ok contactResult => contactId contactResult
             | Throw _ => JNull
             end).
    rewrite Hlead. by destruct result.
  - apply (legacy_contact_sent_configured data). by rewrite Hcontact.
Qed.

End Contacts.

(** A request with a signature, to a server with its secret. *)
Lemma sample_passes env data :
  is_Some (env_get env "WEBHOOK_SECRET") → truthy data = true →
  no_keys data = false → lacks_contact_or_call bare_engine data = Ok false →
  passes bare_engine env (parsed_as data) (str "any") (utf16 "{}") data.
Proof. intros. repeat split; first [done | by vm_compute]. Qed.

Lemma server_has_secret : is_Some (env_get env_of_server "WEBHOOK_SECRET").
Proof. exists (utf16 "hook"). by vm_compute. Qed.

Lemma secret_alone : is_Some (env_get env_of_secret "WEBHOOK_SECRET").
Proof. exists (utf16 "hook"). by vm_compute. Qed.

(** A request that is let in, to a server that is configured. *)
Lemma webhook_sends_after_checks_witness :
  ∃ data baseUrl token,
    passes bare_engine env_of_server
      (parsed_as (payload_of_agreements (str "Call back on Monday")))
      (str "any") (utf16 "{}") data
    ∧ Server.getAmoCRMBaseUrl bare_engine env_of_server = Ok baseUrl
    ∧ getAmoCRMToken env_of_server = Ok token.
Proof.
  apply (webhook_sends_after_checks bare_engine env_of_server env_of_server
           amocrm_accepts
           (parsed_as (payload_of_agreements (str "Call back on Monday")))
           no_details (str "any") (utf16 "{}")).
  by vm_compute.
Defined.

(** The signatures ["any"] and ["other"]. *)
Lemma webhook_ignores_signature_witness :
  Server.webhook bare_engine env_of_server env_of_server amocrm_accepts
    (parsed_as (payload_of_agreements (str "Call back on Monday"))) no_details
    (str "any") (utf16 "{}")
  = Server.webhook bare_engine env_of_server env_of_server amocrm_accepts
      (parsed_as (payload_of_agreements (str "Call back on Monday"))) no_details
      (str "other") (utf16 "{}")
  ∧ ServerLegacy.webhook bare_engine env_of_server env_of_server amocrm_accepts
      (parsed_as (payload_of_agreements (str "Call back on Monday")))
      (str "any") (utf16 "{}")
    = ServerLegacy.webhook bare_engine env_of_server env_of_server amocrm_accepts
        (parsed_as (payload_of_agreements (str "Call back on Monday")))
        (str "other") (utf16 "{}").
Proof.
  apply (webhook_ignores_signature bare_engine env_of_server env_of_server
           amocrm_accepts
           (parsed_as (payload_of_agreements (str "Call back on Monday")))
           no_details (str "any") (str "other") (utf16 "{}"));
    by vm_compute.
Defined.

(** A server with its secret and nothing else. *)
Lemma webhook_not_configured_witness :
  Server.webhook bare_engine ∅ env_of_secret amocrm_accepts
    (parsed_as (payload_of_agreements (str "Call back on Monday"))) no_details
    (str "any") (utf16 "{}")
  = (Json 400
       (refused_with
          (Error (utf16 "Ошибка при отправке вебхука: Invalid URL - AMOCRM_SUBDOMAIN не установлен в переменных окружения. Проверьте файл .env"))),
     []).
Proof.
  apply (webhook_not_configured bare_engine ∅ env_of_secret amocrm_accepts
           (parsed_as (payload_of_agreements (str "Call back on Monday")))
           no_details (str "any") (utf16 "{}")
           (payload_of_agreements (str "Call back on Monday"))).
  - apply sample_passes; [apply secret_alone | by vm_compute..].
  - left. by vm_compute.
Defined.

(** A server whose pipeline was not set when [mapping.js] was
    loaded: the contact is sent, and the answer is the error. *)
Lemma webhook_without_pipeline_witness :
  length (Server.webhook bare_engine env_without_pipeline env_of_server
            amocrm_accepts
            (parsed_as (payload_of_agreements (str "Call back on Monday")))
            no_details (str "any") (utf16 "{}")).2 = 1%nat
  ∧ (Server.webhook bare_engine env_without_pipeline env_of_server
       amocrm_accepts
       (parsed_as (payload_of_agreements (str "Call back on Monday")))
       no_details (str "any") (utf16 "{}")).1
    = Server.critical env_of_server no_details pipeline_missing.
Proof.
  destruct (webhook_without_pipeline bare_engine env_without_pipeline env_of_server
              amocrm_accepts
              (parsed_as (payload_of_agreements (str "Call back on Monday")))
              no_details (str "any") (utf16 "{}")
              (payload_of_agreements (str "Call back on Monday")))
    as (Hsent & _ & Hanswer).
  - apply sample_passes; [apply server_has_secret | by vm_compute..].
  - apply pipeline_unset.
  - split.
    + rewrite Hsent. by vm_compute.
    + eapply Hanswer; [vm_compute; reflexivity | by vm_compute].
Defined.

(** A server that is configured, and an amoCRM that accepts. *)
Lemma webhook_success_witness :
  ∃ baseUrl token leadBody,
    last (Server.webhook bare_engine env_of_server env_of_server amocrm_accepts
            (parsed_as (payload_of_agreements (str "Call back on Monday")))
            no_details (str "any") (utf16 "{}")).2
    = Some (Post (baseUrl ++ utf16 "/api/v4/leads") [leadBody] token).
Proof.
  edestruct (webhook_success bare_engine env_of_server env_of_server amocrm_accepts
               (parsed_as (payload_of_agreements (str "Call back on Monday")))
               no_details (str "any") (utf16 "{}"))
    as (data & contactId & baseUrl & token & leadBody & result & _ & Hlast & _).
  - vm_compute. reflexivity.
  - by exists baseUrl, token, leadBody.
Defined.

(** The client name ["   "]. *)
Lemma contact_requires_name_witness :
  Server.createOrUpdateContactInAmoCRM bare_engine env_of_server amocrm_accepts
    (payload_of_client "   ")
  = (Throw (Error (utf16 "Не удалось создать название контакта. Проверьте данные вебхука.")),
     [])
  ∧ ∃ body,
      (ServerLegacy.createOrUpdateContactInAmoCRM bare_engine env_of_server
         amocrm_accepts (payload_of_client "   ")).2
      = [Post (utf16 "https://acme.amocrm.ru" ++ utf16 "/api/v4/contacts") [body]
           (utf16 "secret")]
      ∧ body !! utf16 "name" = Some (JStr []).
Proof.
  destruct (contact_requires_name bare_engine env_of_server amocrm_accepts
              (payload_of_client "   ") (utf16 "   ")
              (utf16 "https://acme.amocrm.ru") (utf16 "secret"))
    as [Hrefused Hlegacy]; [by vm_compute.. | by_computation |].
  split; [exact Hrefused|]. apply Hlegacy. by vm_compute.
Defined.

(** The test endpoint, on the data of a request with a signature. *)
Lemma test_lead_unsigned_witness :
  (ServerLegacy.test_lead bare_engine env_of_server env_of_server amocrm_accepts
     (payload_of_agreements (str "Call back on Monday"))).2
  = (ServerLegacy.webhook bare_engine env_of_server env_of_server amocrm_accepts
       (parsed_as (payload_of_agreements (str "Call back on Monday")))
       (str "any") (utf16 "{}")).2
  ∧ status_of
      (ServerLegacy.test_lead bare_engine env_of_server env_of_server amocrm_accepts
         (payload_of_agreements (str "Call back on Monday"))).1
    = status_of
        (ServerLegacy.webhook bare_engine env_of_server env_of_server amocrm_accepts
           (parsed_as (payload_of_agreements (str "Call back on Monday")))
           (str "any") (utf16 "{}")).1.
Proof.
  apply (test_lead_unsigned bare_engine env_of_server env_of_server amocrm_accepts
           (parsed_as (payload_of_agreements (str "Call back on Monday")))
           (str "any") (utf16 "{}")
           (payload_of_agreements (str "Call back on Monday"))).
  - apply sample_passes; [apply server_has_secret | by vm_compute..].
  - by vm_compute.
Defined.

(** A request that is let in, to a server that is configured. *)
Lemma legacy_webhook_sends_after_checks_witness :
  ∃ data baseUrl token,
    passes bare_engine env_of_server
      (parsed_as (payload_of_agreements (str "Call back on Monday")))
      (str "any") (utf16 "{}") data
    ∧ ServerLegacy.getAmoCRMBaseUrl env_of_server = Ok baseUrl
    ∧ getAmoCRMToken env_of_server = Ok token.
Proof.
  apply (legacy_webhook_sends_after_checks bare_engine env_of_server env_of_server
           amocrm_accepts
           (parsed_as (payload_of_agreements (str "Call back on Monday")))
           (str "any") (utf16 "{}")).
  by vm_compute.
Defined.

(** The test endpoint of the validating server, on the same data. *)
Lemma test_lead_unsigned_validating_witness :
  (Server.test_lead bare_engine env_of_server env_of_server amocrm_accepts
     (payload_of_agreements (str "Call back on Monday"))).2
  = (Server.webhook bare_engine env_of_server env_of_server amocrm_accepts
       (parsed_as (payload_of_agreements (str "Call back on Monday"))) no_details
       (str "any") (utf16 "{}")).2.
Proof.
  eapply (test_lead_unsigned_validating bare_engine env_of_server env_of_server
            amocrm_accepts
            (parsed_as (payload_of_agreements (str "Call back on Monday")))
            no_details (str "any") (utf16 "{}")
            (payload_of_agreements (str "Call back on Monday"))).
  - apply sample_passes; [apply server_has_secret | by vm_compute..].
  - by vm_compute.
  - vm_compute. reflexivity.
Defined.
